(** * PushToGitHubDialog: a shallow embedding of the dialog's logic

    Source: app/components/@settings/tabs/connections/components/PushToGitHubDialog.tsx

    The React component is modelled as
    - a record [State] holding every [useState] cell of the component,
    - event handlers and effects as computations in a small monad [Comp]
      that threads the component state, the local variables of the handler
      and a log of the calls made to the outside (GitHub API, the [onPush]
      callback, toasts, local storage), and that can throw and catch,
    - the derived render-time constants ([filteredReposList],
      [showCreateNewRepo], ...) as functions of the state,
    - the parts of the JSX the claims talk about as small view functions.

    JavaScript strings are modelled by [string] over 8-bit characters,
    read as the code units U+0000..U+00FF.  An asynchronous handler is run
    to completion without interleaving other events. *)

From Stdlib Require Import ZArith List String Ascii Bool Arith Lia.
Import ListNotations.

Local Open Scope string_scope.
Local Open Scope Z_scope.

(* ===================================================================== *)
(** ** JavaScript string primitives used by the component *)
(* ===================================================================== *)

Module Js.

(** [WhiteSpace] and [LineTerminator] code units below U+0100:
    TAB, LF, VT, FF, CR, SP and NBSP. *)
Definition isWhiteSpace (c : ascii) : bool :=
  let n := nat_of_ascii c in
  (((9 <=? n) && (n <=? 13)) || (n =? 32) || (n =? 160))%nat.

(** Upper-case letters below U+0100: A-Z and the Latin-1 capitals
    U+00C0..U+00DE except the multiplication sign U+00D7. *)
Definition isUpper (c : ascii) : bool :=
  let n := nat_of_ascii c in
  (((65 <=? n) && (n <=? 90))
   || ((192 <=? n) && (n <=? 222) && negb (n =? 215)))%nat.

Definition lowerChar (c : ascii) : ascii :=
  if isUpper c then ascii_of_nat (nat_of_ascii c + 32) else c.

(** [String.prototype.toLowerCase] *)
Fixpoint toLowerCase (s : string) : string :=
  match s with
  | EmptyString => EmptyString
  | String c s' => String (lowerChar c) (toLowerCase s')
  end.

Fixpoint trimStart (s : string) : string :=
  match s with
  | EmptyString => EmptyString
  | String c s' => if isWhiteSpace c then trimStart s' else s
  end.

Fixpoint trimEnd (s : string) : string :=
  match s with
  | EmptyString => EmptyString
  | String c s' =>
      match trimEnd s' with
      | EmptyString => if isWhiteSpace c then EmptyString else String c EmptyString
      | t => String c t
      end
  end.

(** [String.prototype.trim] *)
Definition trim (s : string) : string := trimEnd (trimStart s).

(** [String.prototype.includes]: [q] occurs in [s] at some position. *)
Fixpoint includes (s q : string) : bool :=
  String.prefix q s
  || match s with
     | EmptyString => false
     | String _ s' => includes s' q
     end.

(** Truthiness of a string: every string but the empty one. *)
Definition truthy (s : string) : bool := negb (s =? "")%string.

(** Truthiness of a possibly [null]/[undefined] string. *)
Definition truthy_opt (o : option string) : bool :=
  match o with
  | Some s => truthy s
  | None => false
  end.

(** [a || b] on strings. *)
Definition or_else (o : option string) (d : string) : string :=
  match o with
  | Some s => if truthy s then s else d
  | None => d
  end.

(** The character class [[a-zA-Z0-9._\-/]] of the branch-name pattern. *)
Definition branchChar (c : ascii) : bool :=
  let n := nat_of_ascii c in
  (((97 <=? n) && (n <=? 122))       (* a-z *)
   || ((65 <=? n) && (n <=? 90))     (* A-Z *)
   || ((48 <=? n) && (n <=? 57))     (* 0-9 *)
   || (n =? 46)                      (* .   *)
   || (n =? 95)                      (* _   *)
   || (n =? 45)                      (* -   *)
   || (n =? 47))%nat.                (* /   *)

Fixpoint allChars (p : ascii -> bool) (s : string) : bool :=
  match s with
  | EmptyString => true
  | String c s' => p c && allChars p s'
  end.

(** [/^([a-zA-Z0-9._\-/]+)$/.test(s)]: one or more characters of the
    class and nothing else. *)
Definition branchPattern_test (s : string) : bool :=
  truthy s && allChars branchChar s.

(** The one-character string holding a double quote. *)
Definition dquote : string := String (ascii_of_nat 34) EmptyString.

End Js.

(* ===================================================================== *)
(** ** Data *)
(* ===================================================================== *)

Module GitHubRepo.
(** [interface GitHubRepo]; [description] and [language] may be [null]
    in an API answer, which the code guards against. *)
Record t := mk {
  name : string;
  full_name : string;
  html_url : string;
  description : option string;
  stargazers_count : Z;
  forks_count : Z;
  default_branch : string;
  updated_at : string;
  language : option string;
  private : bool
}.
End GitHubRepo.

Module GitHubUserResponse.
Record t := mk {
  login : string;
  name : option string;
  avatar_url : string
}.
End GitHubUserResponse.

Module Connection.
(** The value stored under ['github_connection']. *)
Record t := mk {
  user : option GitHubUserResponse.t;
  token : option string
}.
End Connection.

(** A thrown value: [status] is set on HTTP errors of the API client,
    [message] is the error's message. *)
Record JsError := mkError {
  status : option Z;
  message : option string
}.

(** A settled promise. *)
Inductive Settled (A : Type) : Type :=
| Fulfilled (a : A)
| Rejected (e : JsError).
Arguments Fulfilled {A} a.
Arguments Rejected {A} e.

(** The [useState] cells of the component, with the source's names. *)
Record State := mkState {
  repoName : string;
  branchName : string;
  branchOptions : list string;
  isPrivate : bool;
  isLoading : bool;
  user : option GitHubUserResponse.t;
  recentRepos : list GitHubRepo.t;
  filteredRepos : list GitHubRepo.t;
  repoSearchQuery : string;
  isRepoDropdownOpen : bool;
  focusedRepoIndex : Z;
  branchSearchQuery : string;
  isBranchDropdownOpen : bool;
  focusedBranchIndex : Z;
  showSuccessDialog : bool;
  createdRepoUrl : string;
  showConfirmDialog : bool;
  showCommitDialog : bool;
  commitMessage : string;
  confirmDialogMessage : string;
  errorMessage : string
}.

(** The initial values given to [useState]. *)
Definition initialState : State := {|
  repoName := "";
  branchName := "main";
  branchOptions := [];
  isPrivate := false;
  isLoading := false;
  user := None;
  recentRepos := [];
  filteredRepos := [];
  repoSearchQuery := "";
  isRepoDropdownOpen := false;
  focusedRepoIndex := -1;
  branchSearchQuery := "";
  isBranchDropdownOpen := false;
  focusedBranchIndex := -1;
  showSuccessDialog := false;
  createdRepoUrl := "";
  showConfirmDialog := false;
  showCommitDialog := false;
  commitMessage := "Initial commit";
  confirmDialogMessage := "";
  errorMessage := ""
|}.

(** The state setters returned by [useState], applied to a value: each
    replaces one cell and keeps the twenty others. *)
Definition setRepoName (v : string) (s : State) : State :=
  let '(mkState _ a2 a3 a4 a5 a6 a7 a8 a9 a10 a11 a12 a13 a14 a15 a16 a17
       a18 a19 a20 a21) := s in
  mkState v a2 a3 a4 a5 a6 a7 a8 a9 a10 a11 a12 a13 a14 a15 a16 a17 a18 a19
    a20 a21.
Definition setBranchName (v : string) (s : State) : State :=
  let '(mkState a1 _ a3 a4 a5 a6 a7 a8 a9 a10 a11 a12 a13 a14 a15 a16 a17
       a18 a19 a20 a21) := s in
  mkState a1 v a3 a4 a5 a6 a7 a8 a9 a10 a11 a12 a13 a14 a15 a16 a17 a18 a19
    a20 a21.
Definition setBranchOptions (v : list string) (s : State) : State :=
  let '(mkState a1 a2 _ a4 a5 a6 a7 a8 a9 a10 a11 a12 a13 a14 a15 a16 a17
       a18 a19 a20 a21) := s in
  mkState a1 a2 v a4 a5 a6 a7 a8 a9 a10 a11 a12 a13 a14 a15 a16 a17 a18 a19
    a20 a21.
Definition setIsPrivate (v : bool) (s : State) : State :=
  let '(mkState a1 a2 a3 _ a5 a6 a7 a8 a9 a10 a11 a12 a13 a14 a15 a16 a17
       a18 a19 a20 a21) := s in
  mkState a1 a2 a3 v a5 a6 a7 a8 a9 a10 a11 a12 a13 a14 a15 a16 a17 a18 a19
    a20 a21.
Definition setIsLoading (v : bool) (s : State) : State :=
  let '(mkState a1 a2 a3 a4 _ a6 a7 a8 a9 a10 a11 a12 a13 a14 a15 a16 a17
       a18 a19 a20 a21) := s in
  mkState a1 a2 a3 a4 v a6 a7 a8 a9 a10 a11 a12 a13 a14 a15 a16 a17 a18 a19
    a20 a21.
Definition setUser (v : option GitHubUserResponse.t) (s : State) : State :=
  let '(mkState a1 a2 a3 a4 a5 _ a7 a8 a9 a10 a11 a12 a13 a14 a15 a16 a17
       a18 a19 a20 a21) := s in
  mkState a1 a2 a3 a4 a5 v a7 a8 a9 a10 a11 a12 a13 a14 a15 a16 a17 a18 a19
    a20 a21.
Definition setRecentRepos (v : list GitHubRepo.t) (s : State) : State :=
  let '(mkState a1 a2 a3 a4 a5 a6 _ a8 a9 a10 a11 a12 a13 a14 a15 a16 a17
       a18 a19 a20 a21) := s in
  mkState a1 a2 a3 a4 a5 a6 v a8 a9 a10 a11 a12 a13 a14 a15 a16 a17 a18 a19
    a20 a21.
Definition setFilteredRepos (v : list GitHubRepo.t) (s : State) : State :=
  let '(mkState a1 a2 a3 a4 a5 a6 a7 _ a9 a10 a11 a12 a13 a14 a15 a16 a17
       a18 a19 a20 a21) := s in
  mkState a1 a2 a3 a4 a5 a6 a7 v a9 a10 a11 a12 a13 a14 a15 a16 a17 a18 a19
    a20 a21.
Definition setRepoSearchQuery (v : string) (s : State) : State :=
  let '(mkState a1 a2 a3 a4 a5 a6 a7 a8 _ a10 a11 a12 a13 a14 a15 a16 a17
       a18 a19 a20 a21) := s in
  mkState a1 a2 a3 a4 a5 a6 a7 a8 v a10 a11 a12 a13 a14 a15 a16 a17 a18 a19
    a20 a21.
Definition setIsRepoDropdownOpen (v : bool) (s : State) : State :=
  let '(mkState a1 a2 a3 a4 a5 a6 a7 a8 a9 _ a11 a12 a13 a14 a15 a16 a17 a18
       a19 a20 a21) := s in
  mkState a1 a2 a3 a4 a5 a6 a7 a8 a9 v a11 a12 a13 a14 a15 a16 a17 a18 a19
    a20 a21.
Definition setFocusedRepoIndex (v : Z) (s : State) : State :=
  let '(mkState a1 a2 a3 a4 a5 a6 a7 a8 a9 a10 _ a12 a13 a14 a15 a16 a17 a18
       a19 a20 a21) := s in
  mkState a1 a2 a3 a4 a5 a6 a7 a8 a9 a10 v a12 a13 a14 a15 a16 a17 a18 a19
    a20 a21.
Definition setBranchSearchQuery (v : string) (s : State) : State :=
  let '(mkState a1 a2 a3 a4 a5 a6 a7 a8 a9 a10 a11 _ a13 a14 a15 a16 a17 a18
       a19 a20 a21) := s in
  mkState a1 a2 a3 a4 a5 a6 a7 a8 a9 a10 a11 v a13 a14 a15 a16 a17 a18 a19
    a20 a21.
Definition setIsBranchDropdownOpen (v : bool) (s : State) : State :=
  let '(mkState a1 a2 a3 a4 a5 a6 a7 a8 a9 a10 a11 a12 _ a14 a15 a16 a17 a18
       a19 a20 a21) := s in
  mkState a1 a2 a3 a4 a5 a6 a7 a8 a9 a10 a11 a12 v a14 a15 a16 a17 a18 a19
    a20 a21.
Definition setFocusedBranchIndex (v : Z) (s : State) : State :=
  let '(mkState a1 a2 a3 a4 a5 a6 a7 a8 a9 a10 a11 a12 a13 _ a15 a16 a17 a18
       a19 a20 a21) := s in
  mkState a1 a2 a3 a4 a5 a6 a7 a8 a9 a10 a11 a12 a13 v a15 a16 a17 a18 a19
    a20 a21.
Definition setShowSuccessDialog (v : bool) (s : State) : State :=
  let '(mkState a1 a2 a3 a4 a5 a6 a7 a8 a9 a10 a11 a12 a13 a14 _ a16 a17 a18
       a19 a20 a21) := s in
  mkState a1 a2 a3 a4 a5 a6 a7 a8 a9 a10 a11 a12 a13 a14 v a16 a17 a18 a19
    a20 a21.
Definition setCreatedRepoUrl (v : string) (s : State) : State :=
  let '(mkState a1 a2 a3 a4 a5 a6 a7 a8 a9 a10 a11 a12 a13 a14 a15 _ a17 a18
       a19 a20 a21) := s in
  mkState a1 a2 a3 a4 a5 a6 a7 a8 a9 a10 a11 a12 a13 a14 a15 v a17 a18 a19
    a20 a21.
Definition setShowConfirmDialog (v : bool) (s : State) : State :=
  let '(mkState a1 a2 a3 a4 a5 a6 a7 a8 a9 a10 a11 a12 a13 a14 a15 a16 _ a18
       a19 a20 a21) := s in
  mkState a1 a2 a3 a4 a5 a6 a7 a8 a9 a10 a11 a12 a13 a14 a15 a16 v a18 a19
    a20 a21.
Definition setShowCommitDialog (v : bool) (s : State) : State :=
  let '(mkState a1 a2 a3 a4 a5 a6 a7 a8 a9 a10 a11 a12 a13 a14 a15 a16 a17 _
       a19 a20 a21) := s in
  mkState a1 a2 a3 a4 a5 a6 a7 a8 a9 a10 a11 a12 a13 a14 a15 a16 a17 v a19
    a20 a21.
Definition setCommitMessage (v : string) (s : State) : State :=
  let '(mkState a1 a2 a3 a4 a5 a6 a7 a8 a9 a10 a11 a12 a13 a14 a15 a16 a17
       a18 _ a20 a21) := s in
  mkState a1 a2 a3 a4 a5 a6 a7 a8 a9 a10 a11 a12 a13 a14 a15 a16 a17 a18 v
    a20 a21.
Definition setConfirmDialogMessage (v : string) (s : State) : State :=
  let '(mkState a1 a2 a3 a4 a5 a6 a7 a8 a9 a10 a11 a12 a13 a14 a15 a16 a17
       a18 a19 _ a21) := s in
  mkState a1 a2 a3 a4 a5 a6 a7 a8 a9 a10 a11 a12 a13 a14 a15 a16 a17 a18 a19
    v a21.
Definition setErrorMessage (v : string) (s : State) : State :=
  let '(mkState a1 a2 a3 a4 a5 a6 a7 a8 a9 a10 a11 a12 a13 a14 a15 a16 a17
       a18 a19 a20 _) := s in
  mkState a1 a2 a3 a4 a5 a6 a7 a8 a9 a10 a11 a12 a13 a14 a15 a16 a17 a18 a19
    a20 v.

(* ===================================================================== *)
(** ** The outside world *)
(* ===================================================================== *)

(** What [fetch] of one page of [GET /user/repos] can come to. *)
Inductive FetchOutcome :=
| FetchRejects (e : JsError)
    (** [fetch] itself rejects (network failure) *)
| HttpError (httpStatus : Z) (statusText : string)
            (ratelimit_remaining ratelimit_reset : option string)
            (errorData : Settled (option string))
    (** [!response.ok]; [errorData] is [response.json()], a body with an
        optional [message], or a rejection when it does not parse *)
| BadJson (e : JsError)
    (** [response.ok] but [response.json()] rejects *)
| Page (repos : list GitHubRepo.t).
    (** [response.ok] and the body is an array of repositories *)

(** The answers of everything the component calls. *)
Record Env := mkEnv {
  (** [getLocalStorage('github_connection')] *)
  getLocalStorage : option Connection.t;
  (** [octokit.repos.get({owner, repo})] *)
  repos_get : string -> string -> Settled GitHubRepo.t;
  (** [octokit.git.getRef({owner, repo, ref})] *)
  git_getRef : string -> string -> string -> Settled unit;
  (** [fetch] of page [page] of the user's repositories *)
  fetch_user_repos : nat -> FetchOutcome;
  (** the [onPush] prop *)
  onPush : string -> string -> option string -> bool -> string -> string
           -> Settled string;
  (** [new Date(parseInt(resetTime) * 1000).toLocaleTimeString()] *)
  toLocaleTimeString : string -> string
}.

(** The calls the component makes to the outside, in the order made. *)
Inductive Event :=
| EvReposGet (auth owner repo : string)
| EvGitGetRef (auth owner repo ref : string)
| EvFetchRepos (per_page page : nat) (authorization : string)
| EvOnPush (repoName username : string) (token : option string)
           (isPrivate : bool) (branchName commitMessage : string)
| EvOnClose
| EvToastError (msg : string)
| EvLogError (msg : string)
| EvRemoveItem (key : string).

(* ===================================================================== *)
(** ** The handler monad *)
(* ===================================================================== *)

(** What a running handler sees: its local variables, the component
    state its setters act on, and the log of calls. *)
Record World (L : Type) := mkWorld {
  locals : L;
  ui : State;
  events : list Event
}.
Arguments mkWorld {L} _ _ _.
Arguments locals {L} _.
Arguments ui {L} _.
Arguments events {L} _.

(** A computation ends normally, throws, or (a loop out of fuel) has no
    result: [None]. *)
Definition Comp (L A : Type) : Type := World L -> option (Settled A * World L).

Section CompOps.
Context {L : Type}.

Definition ret {A} (a : A) : Comp L A := fun w => Some (Fulfilled a, w).

Definition bind {A B} (m : Comp L A) (k : A -> Comp L B) : Comp L B :=
  fun w =>
    match m w with
    | None => None
    | Some (Fulfilled a, w') => k a w'
    | Some (Rejected e, w') => Some (Rejected e, w')
    end.

Definition throw {A} (e : JsError) : Comp L A := fun w => Some (Rejected e, w).

(** [try { m } catch (e) { h e }] *)
Definition tryCatch {A} (m : Comp L A) (h : JsError -> Comp L A) : Comp L A :=
  fun w =>
    match m w with
    | Some (Rejected e, w') => h e w'
    | r => r
    end.

(** [try { m } finally { f }] *)
Definition tryFinally {A} (m : Comp L A) (f : Comp L unit) : Comp L A :=
  fun w =>
    match m w with
    | None => None
    | Some (r, w') =>
        match f w' with
        | None => None
        | Some (Fulfilled _, w'') => Some (r, w'')
        | Some (Rejected e, w'') => Some (Rejected e, w'')
        end
    end.

(** A state setter called with a value or an updater function. *)
Definition set (f : State -> State) : Comp L unit :=
  fun w => Some (Fulfilled tt, mkWorld (locals w) (f (ui w)) (events w)).

Definition emit (ev : Event) : Comp L unit :=
  fun w => Some (Fulfilled tt, mkWorld (locals w) (ui w) (events w ++ [ev])).

Definition getLocals : Comp L L := fun w => Some (Fulfilled (locals w), w).

Definition assign (f : L -> L) : Comp L unit :=
  fun w => Some (Fulfilled tt, mkWorld (f (locals w)) (ui w) (events w)).

(** [await] of a call: the call is logged, then its promise settles. *)
Definition await {A} (ev : Event) (r : Settled A) : Comp L A :=
  bind (emit ev)
       (fun _ => match r with
                 | Fulfilled a => ret a
                 | Rejected e => throw e
                 end).

(** [while (cond) { body }] where [body] yields [Some r] for a
    [return r] inside the loop and [None] when it runs to its end;
    [fuel] bounds the number of times the body is run. *)
Fixpoint while {R} (fuel : nat) (cond : L -> bool) (body : Comp L (option R))
: Comp L (option R) :=
bind getLocals (fun l =>
  if cond l
  then match fuel with
       | O => fun _ => None
       | S fuel' =>
           bind body (fun r =>
             match r with
             | Some x => ret (Some x)
             | None => while fuel' cond body
             end)
       end
  else ret None).

End CompOps.

Declare Scope comp_scope.
Delimit Scope comp_scope with comp.
Notation "x <- m ;; k" := (bind m (fun x => k))
  (at level 100, m at next level, right associativity) : comp_scope.
Notation "m ;; k" := (bind m (fun _ => k))
  (at level 100, right associativity) : comp_scope.
Local Open Scope comp_scope.

(** Running a handler on the state it was rendered with. *)
Definition run {L A} (m : Comp L A) (l : L) (s : State) (log : list Event)
  : option (Settled A * World L) :=
  m (mkWorld l s log).

(* ===================================================================== *)
(** ** The repository lister: [fetchRecentRepos] *)
(* ===================================================================== *)

(** [let allRepos = []; let page = 1; let hasMore = true;] *)
Record FetchLocals := mkFetchLocals {
  allRepos : list GitHubRepo.t;
  page : nat;
  hasMore : bool
}.

Definition fetchLocals0 : FetchLocals :=
  {| allRepos := []; page := 1; hasMore := true |}.

(** [fetch(requestUrl, ...)]: page [p] is asked for with [per_page=100]. *)
Definition fetchPage (env : Env) (token : string) (p : nat)
  : Comp FetchLocals FetchOutcome :=
  emit (EvFetchRepos 100 p ("Bearer " ++ Js.trim token));;
  ret (fetch_user_repos env p).

(** The [if (!response.ok) { ... return; }] block. *)
Definition reportHttpError (env : Env) (httpStatus : Z) (statusText : string)
    (remaining reset : option string) (json : Settled (option string))
  : Comp FetchLocals unit :=
  let errorData :=
    match json with
    | Fulfilled msg => msg
    | Rejected _ => Some "Could not parse error response"
    end in
  if httpStatus =? 401 then
    emit (EvToastError "GitHub token expired. Please reconnect your account.");;
    match getLocalStorage env with
    | Some _ => emit (EvRemoveItem "github_connection");; set (setUser None)
    | None => ret tt
    end
  else if (httpStatus =? 403)
          && match remaining with Some r => (r =? "0")%string | None => false end
  then
    let resetDate :=
      match reset with
      | Some t => if Js.truthy t then toLocaleTimeString env t else "soon"
      | None => "soon"
      end in
    emit (EvToastError ("GitHub API rate limit exceeded. Limit resets at " ++ resetDate))
  else
    emit (EvLogError "Failed to fetch GitHub repositories");;
    emit (EvToastError ("Failed to fetch repositories: " ++ Js.or_else errorData statusText)).

(** The body of [while (hasMore)]: [Some tt] stands for [return]. *)
Definition fetchBody (env : Env) (token : string) : Comp FetchLocals (option unit) :=
  l <- getLocals;;
  response <- fetchPage env token (page l);;
  match response with
  | FetchRejects e => throw e
  | HttpError httpStatus statusText remaining reset json =>
      reportHttpError env httpStatus statusText remaining reset json;;
      ret (Some tt)
  | BadJson _ =>
      emit (EvLogError "Failed to parse GitHub repositories response");;
      emit (EvToastError "Failed to parse repository data");;
      set (setRecentRepos []);;
      ret (Some tt)
  | Page repos =>
      assign (fun l => mkFetchLocals (allRepos l ++ repos)%list (page l) (hasMore l));;
      (if (List.length repos <? 100)%nat
       then assign (fun l => mkFetchLocals (allRepos l) (page l) false)
       else assign (fun l => mkFetchLocals (allRepos l) (page l + 1) (hasMore l)));;
      ret None
  end.

Definition fetchRecentRepos (fuel : nat) (env : Env) (token : string)
  : Comp FetchLocals unit :=
  if negb (Js.truthy token) then
    emit (EvLogError "No GitHub token available");;
    emit (EvToastError "GitHub authentication required")
  else
    tryCatch
      (assign (fun _ => fetchLocals0);;
       returned <- while fuel hasMore (fetchBody env token);;
       match returned with
       | Some _ => ret tt
       | None => l <- getLocals;; set (setRecentRepos (allRepos l))
       end)
      (fun error =>
         emit (EvLogError "Failed to fetch GitHub repositories");;
         emit (EvToastError "Failed to fetch recent repositories")).

(* ===================================================================== *)
(** ** The submission workflow *)
(* ===================================================================== *)

(** [connection?.token] and [connection?.user], when both are truthy. *)
Definition credentials (connection : option Connection.t)
  : option (string * GitHubUserResponse.t) :=
  match connection with
  | Some c =>
      match Connection.token c, Connection.user c with
      | Some tk, Some u => if Js.truthy tk then Some (tk, u) else None
      | _, _ => None
      end
  | None => None
  end.

(** [let repoExists = false; let branchExists = false; let repoData = null;] *)
Record SubmitLocals := mkSubmitLocals {
  repoExists : bool;
  branchExists : bool;
  repoData : option GitHubRepo.t
}.

Definition submitLocals0 : SubmitLocals :=
  {| repoExists := false; branchExists := false; repoData := None |}.

Definition is404 (e : JsError) : bool :=
  match status e with
  | Some n => n =? 404
  | None => false
  end.

(** [repoData && repoData.private !== isPrivate] *)
Definition visibilityChanges (l : SubmitLocals) (snap : State) : bool :=
  match repoData l with
  | Some repo => negb (Bool.eqb (GitHubRepo.private repo) (isPrivate snap))
  | None => false
  end.

(** The two nested [try] blocks that look the repository and the branch up. *)
Definition checkExistence (env : Env) (tk : string) (u : GitHubUserResponse.t)
    (snap : State) : Comp SubmitLocals unit :=
  let owner := GitHubUserResponse.login u in
  tryCatch
    (repo <- await (EvReposGet tk owner (repoName snap))
                   (repos_get env owner (repoName snap));;
     assign (fun l => mkSubmitLocals true (branchExists l) (Some repo));;
     tryCatch
       (let ref := "heads/" ++ Js.trim (branchName snap) in
        await (EvGitGetRef tk owner (repoName snap) ref)
              (git_getRef env owner (repoName snap) ref);;
        assign (fun l => mkSubmitLocals (repoExists l) true (repoData l)))
       (fun err => if negb (is404 err) then throw err else ret tt))
    (fun error => if negb (is404 error) then throw error else ret tt).

Definition confirmMessage (l : SubmitLocals) (snap : State) : string :=
  let msg := "You are pushing to branch " ++ Js.dquote ++ Js.trim (branchName snap)
             ++ Js.dquote ++ " in repo " ++ Js.dquote ++ repoName snap
             ++ Js.dquote ++ "." in
  let msg :=
    if branchExists l
    then msg ++ " Existing files with the same name will be updated. No files will be deleted."
    else msg ++ " A new branch will be created." in
  if visibilityChanges l snap
  then msg ++ (if isPrivate snap
               then " This will also change the repository from public to private."
               else " This will also change the repository from private to public.")
  else msg.

Definition handleSubmit (env : Env) (snap : State) : Comp SubmitLocals unit :=
  set (setErrorMessage "");;
  match credentials (getLocalStorage env) with
  | None =>
      set (setErrorMessage
             "Please connect your GitHub account in Settings > Connections first")
  | Some (tk, u) =>
      if negb (Js.truthy (Js.trim (repoName snap))) then
        set (setErrorMessage "Repository name is required")
      else if negb (Js.truthy (Js.trim (branchName snap)))
              || negb (Js.branchPattern_test (branchName snap)) then
        set (setErrorMessage "Please enter a valid branch name.")
      else
        set (setIsLoading true);;
        tryCatch
          (assign (fun _ => submitLocals0);;
           checkExistence env tk u snap;;
           l <- getLocals;;
           if repoExists l && (branchExists l || visibilityChanges l snap) then
             set (setConfirmDialogMessage (confirmMessage l snap));;
             set (setShowConfirmDialog true);;
             set (setIsLoading false)
           else
             set (setShowCommitDialog true);;
             set (setIsLoading false))
          (fun error =>
             set (setIsLoading false);;
             set (setErrorMessage
                    (Js.or_else (message error) "Failed to check repository.")))
  end.

Definition handleConfirmProceed : Comp unit unit :=
  set (setShowConfirmDialog false);;
  set (setShowCommitDialog true).

(** Reading a property of [null] or [undefined] throws a [TypeError];
    the text of its message is the engine's, here V8's.  A stored [user]
    of [None] stands for a missing one as well as for [null], and the
    message given for it is that of the missing one. *)
Definition TypeError (what : string) : JsError :=
  {| status := None; message := Some ("Cannot read properties of " ++ what) |}.

Definition handleCommitProceed (env : Env) (snap : State) : Comp unit unit :=
  set (setShowCommitDialog false);;
  set (setIsLoading true);;
  set (setErrorMessage "");;
  tryFinally
    (tryCatch
       (match getLocalStorage env with
        | None => throw (TypeError "null (reading 'user')")
        | Some connection =>
            match Connection.user connection with
            | None => throw (TypeError "undefined (reading 'login')")
            | Some u =>
                let username := GitHubUserResponse.login u in
                let token := Connection.token connection in
                repoUrl <- await (EvOnPush (repoName snap) username token
                                    (isPrivate snap) (branchName snap)
                                    (commitMessage snap))
                                 (onPush env (repoName snap) username token
                                    (isPrivate snap) (branchName snap)
                                    (commitMessage snap));;
                set (setCreatedRepoUrl repoUrl);;
                set (setShowSuccessDialog true)
            end
        end)
       (fun error =>
          set (setErrorMessage
                 (Js.or_else (message error) "Failed to push to GitHub."))))
    (set (setIsLoading false)).

Definition handleClose : Comp unit unit :=
  set (setRepoName "");;
  set (setIsPrivate false);;
  set (setShowSuccessDialog false);;
  set (setCreatedRepoUrl "");;
  emit EvOnClose.

(* ===================================================================== *)
(** ** The comboboxes *)
(* ===================================================================== *)

(** [const filteredReposList = ...] *)
Definition filteredReposList (s : State) : list GitHubRepo.t :=
  if (Js.trim (repoSearchQuery s) =? "")%string
  then recentRepos s
  else filter (fun repo =>
                 Js.includes (Js.toLowerCase (GitHubRepo.name repo))
                             (Js.toLowerCase (repoSearchQuery s)))
              (recentRepos s).

(** [const showCreateNewRepo = ...], read as a condition. *)
Definition showCreateNewRepo (s : State) : bool :=
  Js.truthy (Js.trim (repoSearchQuery s))
  && negb (existsb (fun repo =>
                      (Js.toLowerCase (GitHubRepo.name repo)
                       =? Js.toLowerCase (Js.trim (repoSearchQuery s)))%string)
                   (recentRepos s)).

(** [const filteredBranchesList = ...] *)
Definition filteredBranchesList (s : State) : list string :=
  if (Js.trim (branchSearchQuery s) =? "")%string
  then branchOptions s
  else filter (fun b =>
                 Js.includes (Js.toLowerCase b)
                             (Js.toLowerCase (branchSearchQuery s)))
              (branchOptions s).

(** [const showCreateNewBranch = ...], read as a condition. *)
Definition showCreateNewBranch (s : State) : bool :=
  Js.truthy (Js.trim (branchSearchQuery s))
  && negb (existsb (fun b =>
                      (Js.toLowerCase b
                       =? Js.toLowerCase (Js.trim (branchSearchQuery s)))%string)
                   (branchOptions s)).

Definition lengthZ {A} (l : list A) : Z := Z.of_nat (List.length l).

(** [l[i]] for an index inside the array. *)
Definition at_index {A} (l : list A) (i : Z) : option A :=
  if i <? 0 then None else nth_error l (Z.to_nat i).

(** [handleRepoKeyDown]: [snap] is the render the handler closes over,
    the updater functions act on the state current when they run. *)
Definition handleRepoKeyDown (key : string) (snap : State) : Comp unit unit :=
  if negb (isRepoDropdownOpen snap) then ret tt
  else if (key =? "Escape")%string then
    set (setIsRepoDropdownOpen false)
  else if (key =? "ArrowDown")%string then
    set (fun cur =>
           let prev := focusedRepoIndex cur in
           let max := if showCreateNewRepo snap
                      then lengthZ (filteredReposList snap)
                      else lengthZ (filteredReposList snap) - 1 in
           setFocusedRepoIndex (if prev + 1 >? max then 0 else prev + 1) cur)
  else if (key =? "ArrowUp")%string then
    set (fun cur =>
           let prev := focusedRepoIndex cur in
           let max := if showCreateNewRepo snap
                      then lengthZ (filteredReposList snap)
                      else lengthZ (filteredReposList snap) - 1 in
           setFocusedRepoIndex (if prev - 1 <? 0 then max else prev - 1) cur)
  else if (key =? "Enter")%string then
    if (focusedRepoIndex snap >=? 0)
       && (focusedRepoIndex snap <? lengthZ (filteredReposList snap)) then
      match at_index (filteredReposList snap) (focusedRepoIndex snap) with
      | Some repo =>
          set (setRepoName (GitHubRepo.name repo));;
          set (setIsRepoDropdownOpen false);;
          set (setRepoSearchQuery "")
      | None => throw (TypeError "undefined (reading 'name')")
      end
    else if showCreateNewRepo snap
            && (focusedRepoIndex snap =? lengthZ (filteredReposList snap)) then
      set (setRepoName (Js.trim (repoSearchQuery snap)));;
      set (setIsRepoDropdownOpen false);;
      set (setRepoSearchQuery "")
    else if showCreateNewRepo snap
            && (lengthZ (filteredReposList snap) =? 0) then
      set (setRepoName (Js.trim (repoSearchQuery snap)));;
      set (setIsRepoDropdownOpen false);;
      set (setRepoSearchQuery "")
    else ret tt
  else ret tt.

(** [handleBranchKeyDown] *)
Definition handleBranchKeyDown (key : string) (snap : State) : Comp unit unit :=
  if negb (isBranchDropdownOpen snap) then ret tt
  else if (key =? "Escape")%string then
    set (setIsBranchDropdownOpen false)
  else if (key =? "ArrowDown")%string then
    set (fun cur =>
           let prev := focusedBranchIndex cur in
           let max := if showCreateNewBranch snap
                      then lengthZ (filteredBranchesList snap)
                      else lengthZ (filteredBranchesList snap) - 1 in
           setFocusedBranchIndex (if prev + 1 >? max then 0 else prev + 1) cur)
  else if (key =? "ArrowUp")%string then
    set (fun cur =>
           let prev := focusedBranchIndex cur in
           let max := if showCreateNewBranch snap
                      then lengthZ (filteredBranchesList snap)
                      else lengthZ (filteredBranchesList snap) - 1 in
           setFocusedBranchIndex (if prev - 1 <? 0 then max else prev - 1) cur)
  else if (key =? "Enter")%string then
    if (focusedBranchIndex snap >=? 0)
       && (focusedBranchIndex snap <? lengthZ (filteredBranchesList snap)) then
      match at_index (filteredBranchesList snap) (focusedBranchIndex snap) with
      | Some b =>
          set (setBranchName b);;
          set (setBranchSearchQuery b);;
          set (setIsBranchDropdownOpen false)
      | None =>
          (* [setBranchName(undefined)]: not reached, the index is in range *)
          ret tt
      end
    else if showCreateNewBranch snap
            && (focusedBranchIndex snap =? lengthZ (filteredBranchesList snap)) then
      set (setBranchName (Js.trim (branchSearchQuery snap)));;
      set (setBranchSearchQuery (Js.trim (branchSearchQuery snap)));;
      set (setIsBranchDropdownOpen false)
    else if showCreateNewBranch snap
            && (lengthZ (filteredBranchesList snap) =? 0) then
      set (setBranchName (Js.trim (branchSearchQuery snap)));;
      set (setBranchSearchQuery (Js.trim (branchSearchQuery snap)));;
      set (setIsBranchDropdownOpen false)
    else ret tt
  else ret tt.

(** The bound [max] both arrow-key updaters compute. *)
Definition repoMax (s : State) : Z :=
  if showCreateNewRepo s
  then lengthZ (filteredReposList s)
  else lengthZ (filteredReposList s) - 1.

Definition branchMax (s : State) : Z :=
  if showCreateNewBranch s
  then lengthZ (filteredBranchesList s)
  else lengthZ (filteredBranchesList s) - 1.

(* ===================================================================== *)
(** ** Effects *)
(* ===================================================================== *)

(** [useEffect(..., [recentRepos, repoSearchQuery])]: the [filteredRepos]
    cell. *)
Definition filterEffect (snap : State) : Comp unit unit :=
  if (lengthZ (recentRepos snap) =? 0) then
    set (setFilteredRepos [])
  else if negb (Js.truthy (Js.trim (repoSearchQuery snap))) then
    set (setFilteredRepos (recentRepos snap))
  else
    let query := Js.trim (Js.toLowerCase (repoSearchQuery snap)) in
    let filtered :=
      filter (fun repo =>
                Js.includes (Js.toLowerCase (GitHubRepo.name repo)) query
                || match GitHubRepo.description repo with
                   | Some d => Js.truthy d && Js.includes (Js.toLowerCase d) query
                   | None => false
                   end
                || match GitHubRepo.language repo with
                   | Some g => Js.truthy g && Js.includes (Js.toLowerCase g) query
                   | None => false
                   end)
             (recentRepos snap) in
    set (setFilteredRepos filtered).

(** [useEffect(..., [repoSearchQuery, isRepoDropdownOpen])] *)
Definition repoFocusEffect : Comp unit unit := set (setFocusedRepoIndex (-1)).

(** [useEffect(..., [branchSearchQuery, isBranchDropdownOpen])] *)
Definition branchFocusEffect : Comp unit unit := set (setFocusedBranchIndex (-1)).

(** [useEffect(..., [isOpen])]: the reset when the dialog is closed. *)
Definition resetEffect (isOpen : bool) : Comp unit unit :=
  if negb isOpen then
    set (setRepoName "");;
    set (setRepoSearchQuery "");;
    set (setBranchName "main");;
    set (setBranchSearchQuery "");;
    set (setIsRepoDropdownOpen false);;
    set (setIsBranchDropdownOpen false);;
    set (setFocusedRepoIndex (-1));;
    set (setFocusedBranchIndex (-1));;
    set (setErrorMessage "");;
    set (setShowSuccessDialog false);;
    set (setCreatedRepoUrl "");;
    set (setShowConfirmDialog false);;
    set (setShowCommitDialog false);;
    set (setCommitMessage "Initial commit");;
    set (setConfirmDialogMessage "")
  else ret tt.

(* ===================================================================== *)
(** ** What is rendered *)
(* ===================================================================== *)

(** A row of an open dropdown. *)
Inductive Row :=
| RowNoneFound                    (** "No repositories found." *)
| RowOption (label : string)
| RowCreateNew (label : string).  (** "Create new ...: <b>label</b>" *)

(** The rows under the repository input; [None] when no list is rendered. *)
Definition repoDropdown (s : State) : option (list Row) :=
  if isRepoDropdownOpen s then
    Some (if (lengthZ (filteredReposList s) =? 0) && negb (showCreateNewRepo s)
          then [RowNoneFound]
          else (map (fun repo => RowOption (GitHubRepo.name repo)) (filteredReposList s)
                ++ (if showCreateNewRepo s
                    then [RowCreateNew (Js.trim (repoSearchQuery s))]
                    else []))%list)
  else None.

(** The rows under the branch input. *)
Definition branchDropdown (s : State) : option (list Row) :=
  if isBranchDropdownOpen s && Js.truthy (repoName s) then
    Some (if (lengthZ (filteredBranchesList s) =? 0) && negb (showCreateNewBranch s)
          then [RowNoneFound]
          else (map RowOption (filteredBranchesList s)
                ++ (if showCreateNewBranch s
                    then [RowCreateNew (Js.trim (branchSearchQuery s))]
                    else []))%list)
  else None.

(** The success dialog: the URL in the [code] element, the count in the
    "Pushed Files (n)" heading and one line per entry under it. *)
Record SuccessView := mkSuccessView {
  repositoryUrl : string;
  pushedFilesCount : nat;
  pushedFilesLines : list string
}.

Inductive View :=
| SuccessDialog (v : SuccessView)
| ConnectionRequired
| Form (errorLine : option string)
       (repoRows branchRows : option (list Row))
       (confirmOpen commitOpen : bool).

(** The component's [return], by its three cases. *)
Definition render (s : State) : View :=
  if showSuccessDialog s then
    SuccessDialog {| repositoryUrl := createdRepoUrl s;
                     pushedFilesCount := List.length (filteredRepos s);
                     pushedFilesLines := map GitHubRepo.name (filteredRepos s) |}
  else match user s with
       | None => ConnectionRequired
       | Some _ =>
           Form (if Js.truthy (errorMessage s) then Some (errorMessage s) else None)
                (repoDropdown s) (branchDropdown s)
                (showConfirmDialog s) (showCommitDialog s)
       end.

(* ===================================================================== *)
(** ** The branch lister, the connection loader and the input handlers *)
(* ===================================================================== *)

Module GitHubBranch.
(** An element of the answer of [GET /repos/{owner}/{repo}/branches]. *)
Record t := mk {
  name : string;
  protected : bool
}.
End GitHubBranch.

(** What the [fetch] of the branches of a repository can come to. *)
Inductive BranchesOutcome :=
| BranchesRejects (e : JsError)
    (** [fetch] itself rejects *)
| BranchesNotOk (httpStatus : Z)
    (** [!response.ok] *)
| BranchesBadJson (e : JsError)
    (** [response.json()] rejects *)
| BranchesNotArray
    (** the body parses to something that is not an array *)
| BranchesArray (data : list GitHubBranch.t).

(** The URL [fetchBranches] asks. *)
Definition branchesUrl (login repo : string) : string :=
  "https://api.github.com/repos/" ++ login ++ "/" ++ repo ++ "/branches".

(** [fetchBranches], the body of [useEffect(..., [repoName])]; [fetch] maps
    the URL and the [Authorization] header to the answer. *)
Definition fetchBranches (env : Env) (fetch : string -> string -> BranchesOutcome)
    (snap : State) : Comp unit unit :=
  if negb (Js.truthy (Js.trim (repoName snap))) then
    set (setBranchOptions [])
  else
    match credentials (getLocalStorage env) with
    | None => ret tt
    | Some (tk, u) =>
        tryCatch
          (match fetch (branchesUrl (GitHubUserResponse.login u) (repoName snap))
                       ("Bearer " ++ tk) with
           | BranchesRejects e => throw e
           | BranchesNotOk _ => set (setBranchOptions [])
           | BranchesBadJson e => throw e
           | BranchesNotArray => set (setBranchOptions [])
           | BranchesArray data => set (setBranchOptions (map GitHubBranch.name data))
           end)
          (fun _ => set (setBranchOptions []))
    end.

(** [useEffect(..., [isOpen])]: the connection loader. *)
Definition loadConnectionEffect (fuel : nat) (env : Env) (isOpen : bool)
  : Comp FetchLocals unit :=
  if isOpen then
    match credentials (getLocalStorage env) with
    | Some (tk, u) =>
        set (setUser (Some u));;
        if Js.truthy (Js.trim tk) then fetchRecentRepos fuel env tk else ret tt
    | None => ret tt
    end
  else ret tt.

(** [onChange] of the repository input. *)
Definition repoInputChange (value : string) : Comp unit unit :=
  set (setRepoSearchQuery value);;
  set (setIsRepoDropdownOpen true);;
  if (value =? "")%string then set (setRepoName "") else ret tt.

(** [onClick] of the row of [repo] in the repository dropdown. *)
Definition repoOptionClick (repo : GitHubRepo.t) : Comp unit unit :=
  set (setRepoName (GitHubRepo.name repo));;
  set (setRepoSearchQuery (GitHubRepo.name repo));;
  set (setIsRepoDropdownOpen false).

(** [onClick] of the "Create new repository" row. *)
Definition createNewRepoClick (snap : State) : Comp unit unit :=
  set (setRepoName (Js.trim (repoSearchQuery snap)));;
  set (setRepoSearchQuery (Js.trim (repoSearchQuery snap)));;
  set (setIsRepoDropdownOpen false).

(** [onChange] of the branch input. *)
Definition branchInputChange (value : string) : Comp unit unit :=
  set (setBranchSearchQuery value);;
  set (setIsBranchDropdownOpen true);;
  if (value =? "")%string then set (setBranchName "") else ret tt.

(** [onClick] of the row of [branch] in the branch dropdown. *)
Definition branchOptionClick (branch : string) : Comp unit unit :=
  set (setBranchName branch);;
  set (setBranchSearchQuery branch);;
  set (setIsBranchDropdownOpen false).

(** [onClick] of the "Create new branch" row. *)
Definition createNewBranchClick (snap : State) : Comp unit unit :=
  set (setBranchName (Js.trim (branchSearchQuery snap)));;
  set (setBranchSearchQuery (Js.trim (branchSearchQuery snap)));;
  set (setIsBranchDropdownOpen false).

(* ===================================================================== *)
(** ** Vocabulary of the properties *)
(* ===================================================================== *)

(** [q] occurs in [s] when letter case is ignored: some contiguous piece
    of [s] lower-cases to the lower-cased [q]. *)
Definition CaseInsensitiveSubstring (q s : string) : Prop :=
  exists pre mid post,
    s = pre ++ mid ++ post /\ Js.toLowerCase mid = Js.toLowerCase q.

(** [Keeps P l l']: [l'] is [l] with exactly the elements satisfying [P]
    kept, each as often as it occurs and in the original order. *)
Inductive Keeps {A : Type} (P : A -> Prop) : list A -> list A -> Prop :=
| Keeps_nil : Keeps P [] []
| Keeps_take x l l' : P x -> Keeps P l l' -> Keeps P (x :: l) (x :: l')
| Keeps_drop x l l' : ~ P x -> Keeps P l l' -> Keeps P (x :: l) l'.

(** The rendered dropdown holds a "Create new ..." row. *)
Definition showsCreateNew (rows : option (list Row)) : Prop :=
  exists rs label, rows = Some rs /\ In (RowCreateNew label) rs.

(** The two updaters of the focused index, as both key handlers write
    them. *)
Definition arrowDown (max prev : Z) : Z := if prev + 1 >? max then 0 else prev + 1.

Definition arrowUp (max prev : Z) : Z := if prev - 1 <? 0 then max else prev - 1.

(** The focused index a key event leaves behind, for either combobox. *)
Definition repoIndexAfter (key : string) (snap cur : State) : option Z :=
  match run (handleRepoKeyDown key snap) tt cur [] with
  | Some (_, w) => Some (focusedRepoIndex (ui w))
  | None => None
  end.

Definition branchIndexAfter (key : string) (snap cur : State) : option Z :=
  match run (handleBranchKeyDown key snap) tt cur [] with
  | Some (_, w) => Some (focusedBranchIndex (ui w))
  | None => None
  end.

(** The one call [handleCommitProceed] makes, and its answer. *)
Definition pushCall (connection : Connection.t) (u : GitHubUserResponse.t)
    (snap : State) : Event :=
  EvOnPush (repoName snap) (GitHubUserResponse.login u)
           (Connection.token connection)
           (isPrivate snap) (branchName snap) (commitMessage snap).

Definition pushAnswer (env : Env) (connection : Connection.t)
    (u : GitHubUserResponse.t) (snap : State) : Settled string :=
  onPush env (repoName snap) (GitHubUserResponse.login u)
         (Connection.token connection)
         (isPrivate snap) (branchName snap) (commitMessage snap).

(** The stored connection lacks a token or a user. *)
Definition lacksTokenOrUser (connection : option Connection.t) : Prop :=
  match connection with
  | None => True
  | Some c => Js.truthy_opt (Connection.token c) = false \/ Connection.user c = None
  end.

(** [s] holds a character outside the class [[a-zA-Z0-9._/-]]. *)
Definition hasCharOutsideClass (s : string) : Prop :=
  exists pre c post, s = pre ++ String c post /\ Js.branchChar c = false.

(** The state [handleSubmit] leaves when it stops with message [msg]:
    only the error message has changed, nothing was called. *)
Definition stoppedWith (msg : string) (l : SubmitLocals) (cur : State)
    (log : list Event) : option (Settled unit * World SubmitLocals) :=
  Some (Fulfilled tt, mkWorld l (setErrorMessage msg cur) log).

(** The answers of the two look-ups [handleSubmit] makes. *)
Definition repoAnswer (env : Env) (u : GitHubUserResponse.t) (snap : State)
  : Settled GitHubRepo.t :=
  repos_get env (GitHubUserResponse.login u) (repoName snap).

Definition refAnswer (env : Env) (u : GitHubUserResponse.t) (snap : State)
  : Settled unit :=
  git_getRef env (GitHubUserResponse.login u) (repoName snap)
             ("heads/" ++ Js.trim (branchName snap)).

(** A look-up answered with HTTP status 404. *)
Definition notFound {A} (r : Settled A) : Prop :=
  exists e, r = Rejected e /\ status e = Some 404.

(** Both checks succeed: each look-up made finds its object or is answered
    404; the branch is looked up only in a repository that exists. *)
Definition checksSucceed (env : Env) (u : GitHubUserResponse.t) (snap : State)
  : Prop :=
  notFound (repoAnswer env u snap)
  \/ exists repo, repoAnswer env u snap = Fulfilled repo
                  /\ (refAnswer env u snap = Fulfilled tt
                      \/ notFound (refAnswer env u snap)).

(** The repository exists and either the branch exists or the repository's
    private flag differs from the selected one. *)
Definition needsConfirmation (env : Env) (u : GitHubUserResponse.t) (snap : State)
  : Prop :=
  exists repo, repoAnswer env u snap = Fulfilled repo
               /\ (refAnswer env u snap = Fulfilled tt
                   \/ GitHubRepo.private repo <> isPrivate snap).

(** The input passes the validation of [handleSubmit]. *)
Definition validInput (env : Env) (tk : string) (u : GitHubUserResponse.t)
    (snap : State) : Prop :=
  credentials (getLocalStorage env) = Some (tk, u)
  /\ Js.trim (repoName snap) <> ""
  /\ Js.trim (branchName snap) <> ""
  /\ Js.branchPattern_test (branchName snap) = true.

(** The request for page [p]. *)
Definition pageRequest (token : string) (p : nat) : Event :=
  EvFetchRepos 100 p ("Bearer " ++ Js.trim token).

(** The loop of [fetchRecentRepos], entered with the given locals. *)
Definition pagination (env : Env) (token : string) (fuel : nat)
    (acc : list GitHubRepo.t) (p : nat) (s : State) (log : list Event)
  : option (Settled (option unit) * World FetchLocals) :=
  while fuel hasMore (fetchBody env token)
        (mkWorld (mkFetchLocals acc p true) s log).

(** An event that asks for a page. *)
Definition isPageRequest (ev : Event) : bool :=
  match ev with
  | EvFetchRepos _ _ _ => true
  | _ => false
  end.

(** What ends the pagination at a page: the request fails, the answer is
    not ok, its body does not parse, or it lists fewer than 100
    repositories. *)
Definition endsPagination (o : FetchOutcome) : Prop :=
  match o with
  | FetchRejects _ | HttpError _ _ _ _ _ | BadJson _ => True
  | Page repos => (List.length repos < 100)%nat
  end.

(** The page lists 100 repositories or more. *)
Definition fullPage (o : FetchOutcome) : Prop :=
  exists repos, o = Page repos /\ (100 <= List.length repos)%nat.

(** What [fetchRecentRepos] makes of the way its loop ended. *)
Definition afterPagination
    (r : option (Settled (option unit) * World FetchLocals))
  : option (Settled unit * World FetchLocals) :=
  match r with
  | None => None
  | Some (Fulfilled (Some _), w) => Some (Fulfilled tt, w)
  | Some (Fulfilled None, w) =>
      Some (Fulfilled tt,
            mkWorld (locals w) (setRecentRepos (allRepos (locals w)) (ui w)) (events w))
  | Some (Rejected _, w) =>
      Some (Fulfilled tt,
            mkWorld (locals w) (ui w)
                    (events w ++ [EvLogError "Failed to fetch GitHub repositories";
                                  EvToastError "Failed to fetch recent repositories"]))
  end.

(** A look-up of [handleSubmit] fails with [e]: the repository look-up is
    rejected otherwise than by 404, or the repository is found and the
    branch look-up is rejected otherwise than by 404. *)
Definition checkFails (env : Env) (u : GitHubUserResponse.t) (snap : State)
    (e : JsError) : Prop :=
  (repoAnswer env u snap = Rejected e /\ status e <> Some 404)
  \/ (exists repo, repoAnswer env u snap = Fulfilled repo)
     /\ refAnswer env u snap = Rejected e /\ status e <> Some 404.

(** The calls of [handleSubmit] on valid input. *)
Definition repoLookup (tk : string) (u : GitHubUserResponse.t) (snap : State) : Event :=
  EvReposGet tk (GitHubUserResponse.login u) (repoName snap).

Definition branchLookup (tk : string) (u : GitHubUserResponse.t) (snap : State) : Event :=
  EvGitGetRef tk (GitHubUserResponse.login u) (repoName snap)
              ("heads/" ++ Js.trim (branchName snap)).

(** What the [filteredRepos] effect looks for: the trimmed query, with
    case ignored, in the name, the description or the language. *)
Definition matchesAnyField (q : string) (repo : GitHubRepo.t) : Prop :=
  CaseInsensitiveSubstring (Js.trim q) (GitHubRepo.name repo)
  \/ (exists d, GitHubRepo.description repo = Some d
                /\ CaseInsensitiveSubstring (Js.trim q) d)
  \/ (exists g, GitHubRepo.language repo = Some g
                /\ CaseInsensitiveSubstring (Js.trim q) g).

(** An error toast. *)
Definition isToastError (ev : Event) : bool :=
  match ev with
  | EvToastError _ => true
  | _ => false
  end.

(** The shape of every request of the repository lister made with
    [token]: 100 per page, the trimmed token as bearer. *)
Definition requestOf (token : string) (ev : Event) : Prop :=
  isPageRequest ev = true -> exists q, ev = pageRequest token q.

(** The page did not arrive: the request failed, was answered not ok, or
    its body did not parse. *)
Definition failedPage (o : FetchOutcome) : Prop :=
  match o with
  | Page _ => False
  | _ => True
  end.

(* ===================================================================== *)
(** ** Scenarios *)
(* ===================================================================== *)

(** A repository as the API lists it, with only its name of interest. *)
Definition repoNamed (n : string) : GitHubRepo.t :=
  GitHubRepo.mk n ("octocat/" ++ n) ("https://github.com/octocat/" ++ n)
                None 0 0 "main" "2024-01-01T00:00:00Z" None false.

Definition octocat : GitHubUserResponse.t :=
  GitHubUserResponse.mk "octocat" (Some "The Octocat")
                        "https://avatars.githubusercontent.com/u/583231".

(** The user has typed "BO" over the repositories bolt, Notes, robot and
    has left the branch input empty over the branches main, dev. *)
Definition typed_BO : State :=
  setRepoSearchQuery "BO"
    (setRecentRepos [repoNamed "bolt"; repoNamed "Notes"; repoNamed "robot"]
       (setBranchOptions ["main"; "dev"] initialState)).

(** The user has typed "EV" into the branch input over main, dev, Dev2. *)
Definition typed_EV : State :=
  setBranchSearchQuery "EV"
    (setBranchOptions ["main"; "dev"; "Dev2"] initialState).

(** The repository input holds "bolt" and is open over the repositories
    bolt.diy and notes. *)
Definition typed_bolt : State :=
  setIsRepoDropdownOpen true
    (setRepoSearchQuery "bolt"
       (setRecentRepos [repoNamed "bolt.diy"; repoNamed "notes"] initialState)).

(** The branch input of the chosen repository notes holds "Main" and is
    open over the branches main and dev. *)
Definition typed_Main : State :=
  setIsBranchDropdownOpen true
    (setBranchSearchQuery "Main"
       (setBranchOptions ["main"; "dev"]
          (setRepoName "notes" initialState))).

(** The repository dropdown is open over bolt.diy and notes with nothing
    typed and nothing focused yet. *)
Definition open_repos : State :=
  setIsRepoDropdownOpen true
    (setRecentRepos [repoNamed "bolt.diy"; repoNamed "notes"] initialState).

(** The branch dropdown of notes is open over main and release with "rel"
    typed, so that it lists release and the "create new" row, and its
    first row is focused. *)
Definition open_branches : State :=
  setFocusedBranchIndex 0
    (setIsBranchDropdownOpen true
       (setBranchSearchQuery "rel"
          (setBranchOptions ["main"; "release"]
             (setRepoName "notes" initialState)))).

(** The account owns the repositories old-site and dotfiles; the project
    goes to a new repository my-app, and [onPush] resolves with its URL. *)
Definition owned : list GitHubRepo.t := [repoNamed "old-site"; repoNamed "dotfiles"].

Definition push_env : Env := {|
  getLocalStorage := Some (Connection.mk (Some octocat) (Some "ghp_0123456789"));
  repos_get := fun _ _ => Rejected (mkError (Some 404) (Some "Not Found"));
  git_getRef := fun _ _ _ => Rejected (mkError (Some 404) (Some "Not Found"));
  fetch_user_repos := fun p => if (p =? 1)%nat then Page owned else Page [];
  onPush := fun _ _ _ _ _ _ => Fulfilled "https://github.com/octocat/my-app";
  toLocaleTimeString := fun t => t
|}.

(** The commit-message dialog is open for the repository name my-app. *)
Definition before_push : State :=
  setShowCommitDialog true
    (setRepoName "my-app"
       (setFilteredRepos owned
          (setRecentRepos owned
             (setUser (Some octocat) initialState)))).

(** The push of my-app is refused by the server. *)
Definition refused_env : Env := {|
  getLocalStorage := Some (Connection.mk (Some octocat) (Some "ghp_0123456789"));
  repos_get := fun _ _ => Rejected (mkError (Some 404) (Some "Not Found"));
  git_getRef := fun _ _ _ => Rejected (mkError (Some 404) (Some "Not Found"));
  fetch_user_repos := fun _ => Page [];
  onPush := fun _ _ _ _ _ _ =>
              Rejected (mkError (Some 403) (Some "Resource not accessible by integration"));
  toLocaleTimeString := fun t => t
|}.

(** Nothing is stored under ['github_connection']. *)
Definition no_connection_env : Env := {|
  getLocalStorage := None;
  repos_get := fun _ _ => Rejected (mkError (Some 404) (Some "Not Found"));
  git_getRef := fun _ _ _ => Rejected (mkError (Some 404) (Some "Not Found"));
  fetch_user_repos := fun _ => Page [];
  onPush := fun _ _ _ _ _ _ => Rejected (mkError None None);
  toLocaleTimeString := fun t => t
|}.

(** The repository my-app exists and is public, it has no branch named
    feature/x, and the user asks for a private repository. *)
Definition existing_repo_env : Env := {|
  getLocalStorage := Some (Connection.mk (Some octocat) (Some "ghp_0123456789"));
  repos_get := fun _ _ => Fulfilled (repoNamed "my-app");
  git_getRef := fun _ _ _ => Rejected (mkError (Some 404) (Some "Not Found"));
  fetch_user_repos := fun _ => Page [];
  onPush := fun _ _ _ _ _ _ => Fulfilled "https://github.com/octocat/my-app";
  toLocaleTimeString := fun t => t
|}.


(** The look-up of the repository is answered 500. *)
Definition server_error_env : Env := {|
  getLocalStorage := Some (Connection.mk (Some octocat) (Some "ghp_0123456789"));
  repos_get := fun _ _ => Rejected (mkError (Some 500) (Some "Server Error"));
  git_getRef := fun _ _ _ => Rejected (mkError (Some 404) (Some "Not Found"));
  fetch_user_repos := fun _ => Page [];
  onPush := fun _ _ _ _ _ _ => Fulfilled "https://github.com/octocat/my-app";
  toLocaleTimeString := fun t => t
|}.

Definition submit_private : State :=
  setIsPrivate true
    (setBranchName "feature/x"
       (setRepoName "my-app"
          (setUser (Some octocat) initialState))).

(** The account has 102 repositories: page 1 lists 100 of them, page 2 the
    other two. *)
Definition first_page : list GitHubRepo.t := repeat (repoNamed "fork") 100.

Definition second_page : list GitHubRepo.t := [repoNamed "bolt.diy"; repoNamed "notes"].

Definition two_pages_env : Env := {|
  getLocalStorage := None;
  repos_get := fun _ _ => Rejected (mkError (Some 404) (Some "Not Found"));
  git_getRef := fun _ _ _ => Rejected (mkError (Some 404) (Some "Not Found"));
  fetch_user_repos := fun p => if (p =? 1)%nat then Page first_page else Page second_page;
  onPush := fun _ _ _ _ _ _ => Rejected (mkError None None);
  toLocaleTimeString := fun t => t
|}.

(** The repository foo is listed and "foo " has been typed. *)
Definition typed_foo_space : State :=
  setIsRepoDropdownOpen true
    (setRepoSearchQuery "foo "
       (setRecentRepos [repoNamed "foo"] initialState)).

(** The branches main and release of my-app: the branch lister is
    answered with them for octocat's my-app and with a 404 otherwise. *)
Definition branches_of_my_app (url authorization : string) : BranchesOutcome :=
  if (url =? "https://api.github.com/repos/octocat/my-app/branches")%string
  then BranchesArray [GitHubBranch.mk "main" true; GitHubBranch.mk "release" false]
  else BranchesNotOk 404.

(** The first page is answered 401: the token has expired. *)
Definition expired_token_env : Env := {|
  getLocalStorage := Some (Connection.mk (Some octocat) (Some "ghp_0123456789"));
  repos_get := fun _ _ => Rejected (mkError (Some 401) (Some "Bad credentials"));
  git_getRef := fun _ _ _ => Rejected (mkError (Some 401) (Some "Bad credentials"));
  fetch_user_repos :=
    fun _ => HttpError 401 "Unauthorized" None None (Fulfilled (Some "Bad credentials"));
  onPush := fun _ _ _ _ _ _ => Rejected (mkError (Some 401) (Some "Bad credentials"));
  toLocaleTimeString := fun t => t
|}.

(** Page 1 arrives full and the request for page 2 fails. *)
Definition second_page_fails_env : Env := {|
  getLocalStorage := Some (Connection.mk (Some octocat) (Some "ghp_0123456789"));
  repos_get := fun _ _ => Rejected (mkError (Some 404) (Some "Not Found"));
  git_getRef := fun _ _ _ => Rejected (mkError (Some 404) (Some "Not Found"));
  fetch_user_repos :=
    fun p => if (p =? 1)%nat then Page first_page
             else FetchRejects (mkError None (Some "Failed to fetch"));
  onPush := fun _ _ _ _ _ _ => Rejected (mkError None None);
  toLocaleTimeString := fun t => t
|}.

(* ===================================================================== *)
(** * Properties *)
(* ===================================================================== *)

(** Running a handler: the monad's operations are unfolded and the
    threaded world is reduced, the setters and the source's functions are
    left as they are. *)
Ltac step_run :=
  cbv beta iota delta [run bind ret set emit throw tryCatch tryFinally await
                       getLocals assign locals ui events].

(** Opening a state into its cells, to let setters and projections
    compute. *)
Ltac cells s :=
  destruct s as [c_repoName c_branchName c_branchOptions c_isPrivate c_isLoading
                 c_user c_recentRepos c_filteredRepos c_repoSearchQuery
                 c_isRepoDropdownOpen c_focusedRepoIndex c_branchSearchQuery
                 c_isBranchDropdownOpen c_focusedBranchIndex c_showSuccessDialog
                 c_createdRepoUrl c_showConfirmDialog c_showCommitDialog
                 c_commitMessage c_confirmDialogMessage c_errorMessage].

(** ** Strings *)

Section StringFacts.

Lemma string_eqb_true (a b : string) : (a =? b)%string = true <-> a = b.
Proof. apply String.eqb_eq. Qed.

Lemma truthy_true (s : string) : Js.truthy s = true <-> s <> "".
Proof.
  unfold Js.truthy. destruct (String.eqb_spec s ""); simpl; split; congruence.
Qed.

Lemma truthy_false (s : string) : Js.truthy s = false <-> s = "".
Proof.
  unfold Js.truthy. destruct (String.eqb_spec s ""); simpl; split; congruence.
Qed.

(** [String.prefix q s] holds exactly when [s] starts with [q]. *)
Lemma prefix_iff (q s : string) :
  String.prefix q s = true <-> exists post, s = q ++ post.
Proof.
  revert s. induction q as [|c q IH]; intros s; simpl.
  - split; [intros _; exists s; reflexivity | intros _; now destruct s].
  - destruct s as [|d s].
    + split; [discriminate | intros [post H]; discriminate].
    + simpl. destruct (Ascii.ascii_dec c d) as [->|Hcd].
      * rewrite IH. split; intros [post H]; exists post.
        -- now rewrite H.
        -- now injection H.
      * split; [discriminate|].
        intros [post H]. injection H as Hd _. congruence.
Qed.

(** [includes] finds [q] exactly when [s] splits around a copy of [q]. *)
Lemma includes_iff (s q : string) :
  Js.includes s q = true <-> exists pre post, s = pre ++ q ++ post.
Proof.
  induction s as [|c s IH]; cbn [Js.includes].
  - rewrite orb_false_r, prefix_iff. split.
    + intros [post H]. exists "", post. exact H.
    + intros [pre [post H]]. destruct pre; simpl in H.
      * now exists post.
      * discriminate.
  - rewrite orb_true_iff, prefix_iff, IH. split.
    + intros [[post H] | [pre [post H]]].
      * exists "", post. exact H.
      * exists (String c pre), post. simpl. now rewrite H.
    + intros [pre [post H]]. destruct pre as [|d pre]; simpl in H.
      * left. now exists post.
      * right. injection H as _ H. now exists pre, post.
Qed.

Lemma toLowerCase_app (a b : string) :
  Js.toLowerCase (a ++ b) = Js.toLowerCase a ++ Js.toLowerCase b.
Proof. induction a as [|c a IH]; simpl; [reflexivity | now rewrite IH]. Qed.

(** A split of the lower-cased string comes from a split of the string. *)
Lemma toLowerCase_split (s a b : string) :
  Js.toLowerCase s = a ++ b ->
  exists a' b', s = a' ++ b' /\ Js.toLowerCase a' = a /\ Js.toLowerCase b' = b.
Proof.
  revert s. induction a as [|c a IH]; intros s H; simpl in H.
  - exists "", s. auto.
  - destruct s as [|d s]; simpl in H; [discriminate|].
    injection H as Hc Hs. destruct (IH s Hs) as [a' [b' [-> [Ha Hb]]]].
    exists (String d a'), b'. simpl. rewrite Hc, Ha. auto.
Qed.

Lemma toLowerCase_length (s : string) :
  String.length (Js.toLowerCase s) = String.length s.
Proof. induction s as [|c s IH]; simpl; congruence. Qed.

End StringFacts.

Lemma includes_lower_iff (s q : string) :
  Js.includes (Js.toLowerCase s) (Js.toLowerCase q) = true
  <-> CaseInsensitiveSubstring q s.
Proof.
  rewrite includes_iff. split.
  - intros [pre [post H]].
    destruct (toLowerCase_split _ _ _ H) as [pre' [rest [-> [Hpre Hrest]]]].
    destruct (toLowerCase_split _ _ _ Hrest) as [mid [post' [-> [Hmid Hpost]]]].
    exists pre', mid, post'. auto.
  - intros [pre [mid [post [-> Hmid]]]].
    exists (Js.toLowerCase pre), (Js.toLowerCase post).
    now rewrite !toLowerCase_app, Hmid.
Qed.

(** ** Lists *)

Lemma filter_Keeps {A} (P : A -> Prop) (p : A -> bool) (l : list A) :
  (forall x, p x = true <-> P x) -> Keeps P l (filter p l).
Proof.
  intros Hp. induction l as [|x l IH]; simpl.
  - constructor.
  - destruct (p x) eqn:Hx.
    + apply Keeps_take; [now apply Hp | exact IH].
    + apply Keeps_drop; [|exact IH].
      intros HP. apply Hp in HP. congruence.
Qed.

(** [Keeps] determines its result. *)
Lemma Keeps_unique {A} (P : A -> Prop) (l l1 l2 : list A) :
  Keeps P l l1 -> Keeps P l l2 -> l1 = l2.
Proof.
  intros H1. revert l2.
  induction H1; intros l2 H2; inversion H2; subst;
    try reflexivity; try contradiction.
  - f_equal. auto.
  - auto.
Qed.

Lemma Keeps_In {A} (P : A -> Prop) (l l' : list A) :
  Keeps P l l' -> forall x, In x l' <-> In x l /\ P x.
Proof.
  induction 1 as [|y l l' Hy _ IH|y l l' Hy _ IH]; intros x; simpl.
  - tauto.
  - rewrite IH. split.
    + intros [->|[H1 H2]]; auto.
    + intros [[->|H1] H2]; auto.
  - rewrite IH. split.
    + intros [H1 H2]; auto.
    + intros [[->|H1] H2]; [contradiction | auto].
Qed.

Lemma existsb_false_iff {A} (p : A -> bool) (l : list A) :
  existsb p l = false <-> forall x, In x l -> p x = false.
Proof.
  induction l as [|y l IH]; simpl.
  - split; [intros _ x [] | reflexivity].
  - rewrite orb_false_iff, IH. split.
    + intros [Hy Hl] x [<-|Hx]; auto.
    + intros H. split; [apply H; now left | intros x Hx; apply H; now right].
Qed.

(* ===================================================================== *)
(** ** The combobox filter *)
(* ===================================================================== *)

(** C6. The combobox filter is a substring filter: for a query that is not
    blank, [filteredReposList] keeps exactly the repositories whose name
    contains the query when case is ignored, in their original order, and
    [filteredBranchesList] does the same on branch names; for a blank
    query each list is the full list. *)
Theorem combobox_filter_is_substring_filter (s : State) :
  (Js.trim (repoSearchQuery s) <> "" ->
   Keeps (fun repo => CaseInsensitiveSubstring (repoSearchQuery s) (GitHubRepo.name repo))
         (recentRepos s) (filteredReposList s))
  /\ (Js.trim (branchSearchQuery s) <> "" ->
      Keeps (CaseInsensitiveSubstring (branchSearchQuery s))
            (branchOptions s) (filteredBranchesList s))
  /\ (Js.trim (repoSearchQuery s) = "" -> filteredReposList s = recentRepos s)
  /\ (Js.trim (branchSearchQuery s) = "" -> filteredBranchesList s = branchOptions s).
Proof.
  unfold filteredReposList, filteredBranchesList. repeat split.
  - intros Hq. destruct (String.eqb_spec (Js.trim (repoSearchQuery s)) "") as [E|_];
      [contradiction|].
    apply filter_Keeps. intros repo. apply includes_lower_iff.
  - intros Hq. destruct (String.eqb_spec (Js.trim (branchSearchQuery s)) "") as [E|_];
      [contradiction|].
    apply filter_Keeps. intros b. apply includes_lower_iff.
  - intros ->. reflexivity.
  - intros ->. reflexivity.
Qed.

Example filteredReposList_typed_BO :
  filteredReposList typed_BO = [repoNamed "bolt"; repoNamed "robot"].
Proof. reflexivity. Qed.

Example filteredBranchesList_typed_EV :
  filteredBranchesList typed_EV = ["dev"; "Dev2"].
Proof. reflexivity. Qed.

Lemma combobox_filter_witness :
  (Keeps (fun repo => CaseInsensitiveSubstring "BO" (GitHubRepo.name repo))
         [repoNamed "bolt"; repoNamed "Notes"; repoNamed "robot"]
         (filteredReposList typed_BO)
   /\ filteredBranchesList typed_BO = ["main"; "dev"])
  /\ (Keeps (CaseInsensitiveSubstring "EV") ["main"; "dev"; "Dev2"]
            (filteredBranchesList typed_EV)
      /\ filteredReposList typed_EV = []).
Proof.
  split.
  - destruct (combobox_filter_is_substring_filter typed_BO) as [Hrepo [_ [_ Hbranch]]].
    split.
    + apply Hrepo. vm_compute. discriminate.
    + apply Hbranch. reflexivity.
  - destruct (combobox_filter_is_substring_filter typed_EV) as [_ [Hbranch [Hrepo _]]].
    split.
    + apply Hbranch. vm_compute. discriminate.
    + apply Hrepo. reflexivity.
Defined.

(** The [filteredRepos] cell, which the success dialog reads, is filled by
    another filter than the dropdown's: it trims the query and looks into
    the description and the language as well. *)
Example filterEffect_looks_into_description :
  let described :=
    GitHubRepo.mk "notes" "octocat/notes" "https://github.com/octocat/notes"
                  (Some "A robot diary") 0 0 "main" "2024-01-01T00:00:00Z" None false in
  let s := setRepoSearchQuery "bo" (setRecentRepos [described] initialState) in
  option_map (fun r => filteredRepos (ui (snd r))) (run (filterEffect s) tt s [])
    = Some [described]
  /\ filteredReposList s = [].
Proof. split; reflexivity. Qed.

(* ===================================================================== *)
(** ** The "create new" row *)
(* ===================================================================== *)

Lemma showCreateNewRepo_iff (s : State) :
  showCreateNewRepo s = true
  <-> Js.trim (repoSearchQuery s) <> ""
      /\ forall repo, In repo (recentRepos s) ->
           Js.toLowerCase (GitHubRepo.name repo)
           <> Js.toLowerCase (Js.trim (repoSearchQuery s)).
Proof.
  unfold showCreateNewRepo.
  rewrite andb_true_iff, negb_true_iff, truthy_true, existsb_false_iff.
  split; intros [Hq H]; split; auto; intros repo Hin.
  - specialize (H repo Hin). intros E. apply string_eqb_true in E. congruence.
  - destruct (String.eqb_spec (Js.toLowerCase (GitHubRepo.name repo))
                (Js.toLowerCase (Js.trim (repoSearchQuery s)))) as [E|]; auto.
    exfalso. exact (H repo Hin E).
Qed.

Lemma showCreateNewBranch_iff (s : State) :
  showCreateNewBranch s = true
  <-> Js.trim (branchSearchQuery s) <> ""
      /\ forall b, In b (branchOptions s) ->
           Js.toLowerCase b <> Js.toLowerCase (Js.trim (branchSearchQuery s)).
Proof.
  unfold showCreateNewBranch.
  rewrite andb_true_iff, negb_true_iff, truthy_true, existsb_false_iff.
  split; intros [Hq H]; split; auto; intros b Hin.
  - specialize (H b Hin). intros E. apply string_eqb_true in E. congruence.
  - destruct (String.eqb_spec (Js.toLowerCase b)
                (Js.toLowerCase (Js.trim (branchSearchQuery s)))) as [E|]; auto.
    exfalso. exact (H b Hin E).
Qed.

Lemma In_RowCreateNew_options {A} (f : A -> string) (l : list A) (label : string) :
  ~ In (RowCreateNew label) (map (fun x => RowOption (f x)) l).
Proof. induction l as [|x l IH]; simpl; [tauto | intros [H|H]; [discriminate | auto]]. Qed.

Lemma repoDropdown_showsCreateNew (s : State) :
  showsCreateNew (repoDropdown s)
  <-> isRepoDropdownOpen s = true /\ showCreateNewRepo s = true.
Proof.
  unfold showsCreateNew, repoDropdown. split.
  - intros [rs [label [Hrows Hin]]].
    destruct (isRepoDropdownOpen s); [|discriminate]. split; [reflexivity|].
    destruct (showCreateNewRepo s); [reflexivity|]. exfalso.
    injection Hrows as <-. simpl in Hin. rewrite andb_true_r, app_nil_r in Hin.
    destruct (lengthZ (filteredReposList s) =? 0).
    + destruct Hin as [H|[]]. discriminate.
    + exact (In_RowCreateNew_options _ _ _ Hin).
  - intros [-> ->]. rewrite andb_false_r.
    eexists _, _. split; [reflexivity|]. apply in_or_app. right. now left.
Qed.

Lemma branchDropdown_showsCreateNew (s : State) :
  showsCreateNew (branchDropdown s)
  <-> (isBranchDropdownOpen s = true /\ repoName s <> "")
      /\ showCreateNewBranch s = true.
Proof.
  unfold showsCreateNew, branchDropdown. rewrite <- truthy_true, <- andb_true_iff. split.
  - intros [rs [label [Hrows Hin]]].
    destruct (isBranchDropdownOpen s && Js.truthy (repoName s)); [|discriminate].
    split; [reflexivity|].
    destruct (showCreateNewBranch s); [reflexivity|]. exfalso.
    injection Hrows as <-. simpl in Hin. rewrite andb_true_r, app_nil_r in Hin.
    destruct (lengthZ (filteredBranchesList s) =? 0).
    + destruct Hin as [H|[]]. discriminate.
    + exact (In_RowCreateNew_options (fun b => b) _ _ Hin).
  - intros [-> ->]. rewrite andb_false_r.
    eexists _, _. split; [reflexivity|]. apply in_or_app. right. now left.
Qed.

(** C5, as amended. For every search query that is not blank, an open
    combobox shows the "create new" row exactly when no option of its list
    equals the trimmed query with case ignored: no repository name for the
    repository combobox, no branch name for the branch combobox. *)
Theorem create_new_row_iff_no_equal_option (s : State) :
  (Js.trim (repoSearchQuery s) <> "" ->
   isRepoDropdownOpen s = true ->
   (showsCreateNew (repoDropdown s)
    <-> forall repo, In repo (recentRepos s) ->
          Js.toLowerCase (GitHubRepo.name repo)
          <> Js.toLowerCase (Js.trim (repoSearchQuery s))))
  /\ (Js.trim (branchSearchQuery s) <> "" ->
      isBranchDropdownOpen s = true -> repoName s <> "" ->
      (showsCreateNew (branchDropdown s)
       <-> forall b, In b (branchOptions s) ->
             Js.toLowerCase b <> Js.toLowerCase (Js.trim (branchSearchQuery s)))).
Proof.
  split.
  - intros Hq Hopen.
    rewrite repoDropdown_showsCreateNew, showCreateNewRepo_iff. tauto.
  - intros Hq Hopen Hrepo.
    rewrite branchDropdown_showsCreateNew, showCreateNewBranch_iff. tauto.
Qed.

Lemma create_new_row_witness :
  showsCreateNew (repoDropdown typed_bolt)
  /\ ~ showsCreateNew (branchDropdown typed_Main).
Proof.
  split.
  - apply (proj1 (create_new_row_iff_no_equal_option typed_bolt)).
    + vm_compute. discriminate.
    + reflexivity.
    + intros repo [<-|[<-|[]]]; vm_compute; discriminate.
  - intros H.
    assert (Hq : Js.trim (branchSearchQuery typed_Main) <> "")
      by (vm_compute; discriminate).
    assert (Hrepo : repoName typed_Main <> "") by (vm_compute; discriminate).
    destruct (proj2 (create_new_row_iff_no_equal_option typed_Main)
                Hq eq_refl Hrepo) as [Hnone _].
    apply (Hnone H "main"); [now left | reflexivity].
Defined.

(** C5, as stated, fails: "bolt" is a substring of "bolt.diy", so the query
    matches an option and the filtered list is not empty, and yet the
    "create new" row is shown under it. *)
Lemma create_new_row_shown_although_query_matches :
  Js.trim (repoSearchQuery typed_bolt) <> ""
  /\ filteredReposList typed_bolt = [repoNamed "bolt.diy"]
  /\ repoDropdown typed_bolt
     = Some [RowOption "bolt.diy"; RowCreateNew "bolt"]
  /\ ~ (showsCreateNew (repoDropdown typed_bolt)
        <-> filteredReposList typed_bolt = []).
Proof.
  split; [vm_compute; discriminate|].
  split; [reflexivity|]. split; [reflexivity|].
  intros [H _].
  assert (Hshown : showsCreateNew (repoDropdown typed_bolt)).
  { exists [RowOption "bolt.diy"; RowCreateNew "bolt"], "bolt".
    split; [reflexivity | right; now left]. }
  specialize (H Hshown). discriminate.
Qed.

(* ===================================================================== *)
(** ** Arrow keys *)
(* ===================================================================== *)

Section ArrowKeys.

Lemma arrowDown_range (max prev : Z) :
  0 <= max -> -1 <= prev <= max ->
  0 <= arrowDown max prev <= max /\ (prev = max -> arrowDown max prev = 0).
Proof.
  intros Hmax Hprev. unfold arrowDown.
  destruct (Z.gtb_spec (prev + 1) max); lia.
Qed.

Lemma arrowUp_range (max prev : Z) :
  0 <= max -> -1 <= prev <= max ->
  0 <= arrowUp max prev <= max
  /\ (prev = 0 \/ prev = -1 -> arrowUp max prev = max).
Proof.
  intros Hmax Hprev. unfold arrowUp.
  destruct (Z.ltb_spec (prev - 1) 0); lia.
Qed.

Lemma handleRepoKeyDown_ArrowDown (snap cur : State) (log : list Event) :
  isRepoDropdownOpen snap = true ->
  run (handleRepoKeyDown "ArrowDown" snap) tt cur log
  = Some (Fulfilled tt,
          mkWorld tt (setFocusedRepoIndex
                        (arrowDown (repoMax snap) (focusedRepoIndex cur)) cur) log).
Proof. intros H. unfold run, handleRepoKeyDown. rewrite H. reflexivity. Qed.

Lemma handleRepoKeyDown_ArrowUp (snap cur : State) (log : list Event) :
  isRepoDropdownOpen snap = true ->
  run (handleRepoKeyDown "ArrowUp" snap) tt cur log
  = Some (Fulfilled tt,
          mkWorld tt (setFocusedRepoIndex
                        (arrowUp (repoMax snap) (focusedRepoIndex cur)) cur) log).
Proof. intros H. unfold run, handleRepoKeyDown. rewrite H. reflexivity. Qed.

Lemma handleBranchKeyDown_ArrowDown (snap cur : State) (log : list Event) :
  isBranchDropdownOpen snap = true ->
  run (handleBranchKeyDown "ArrowDown" snap) tt cur log
  = Some (Fulfilled tt,
          mkWorld tt (setFocusedBranchIndex
                        (arrowDown (branchMax snap) (focusedBranchIndex cur)) cur) log).
Proof. intros H. unfold run, handleBranchKeyDown. rewrite H. reflexivity. Qed.

Lemma handleBranchKeyDown_ArrowUp (snap cur : State) (log : list Event) :
  isBranchDropdownOpen snap = true ->
  run (handleBranchKeyDown "ArrowUp" snap) tt cur log
  = Some (Fulfilled tt,
          mkWorld tt (setFocusedBranchIndex
                        (arrowUp (branchMax snap) (focusedBranchIndex cur)) cur) log).
Proof. intros H. unfold run, handleBranchKeyDown. rewrite H. reflexivity. Qed.

End ArrowKeys.

(** C9, as amended. For every ArrowDown or ArrowUp key event while a
    combobox dropdown is open and has at least one row ([max >= 0]), with
    the index focused before the event in [[-1, max]], the resulting
    focused index lies in [[0, max]], where [max] is the filtered list
    length when the "create new" row is shown and the list length minus
    one otherwise; ArrowDown from [max] wraps to 0 and ArrowUp from 0 (or
    from the initial -1) wraps to [max]. *)
Theorem arrow_keys_keep_focus_in_range (snap cur : State) :
  (isRepoDropdownOpen snap = true ->
   0 <= repoMax snap ->
   -1 <= focusedRepoIndex cur <= repoMax snap ->
   exists down up,
     repoIndexAfter "ArrowDown" snap cur = Some down
     /\ repoIndexAfter "ArrowUp" snap cur = Some up
     /\ 0 <= down <= repoMax snap
     /\ 0 <= up <= repoMax snap
     /\ (focusedRepoIndex cur = repoMax snap -> down = 0)
     /\ (focusedRepoIndex cur = 0 \/ focusedRepoIndex cur = -1 -> up = repoMax snap))
  /\ (isBranchDropdownOpen snap = true ->
      0 <= branchMax snap ->
      -1 <= focusedBranchIndex cur <= branchMax snap ->
      exists down up,
        branchIndexAfter "ArrowDown" snap cur = Some down
        /\ branchIndexAfter "ArrowUp" snap cur = Some up
        /\ 0 <= down <= branchMax snap
        /\ 0 <= up <= branchMax snap
        /\ (focusedBranchIndex cur = branchMax snap -> down = 0)
        /\ (focusedBranchIndex cur = 0 \/ focusedBranchIndex cur = -1
            -> up = branchMax snap)).
Proof.
  split; intros Hopen Hmax Hprev.
  - exists (arrowDown (repoMax snap) (focusedRepoIndex cur)),
           (arrowUp (repoMax snap) (focusedRepoIndex cur)).
    unfold repoIndexAfter.
    rewrite handleRepoKeyDown_ArrowDown, handleRepoKeyDown_ArrowUp by exact Hopen.
    destruct (arrowDown_range _ _ Hmax Hprev) as [Hd Hd0].
    destruct (arrowUp_range _ _ Hmax Hprev) as [Hu Hu0].
    cells cur; cbn [ui focusedRepoIndex focusedBranchIndex
                       setFocusedRepoIndex setFocusedBranchIndex] in *. tauto.
  - exists (arrowDown (branchMax snap) (focusedBranchIndex cur)),
           (arrowUp (branchMax snap) (focusedBranchIndex cur)).
    unfold branchIndexAfter.
    rewrite handleBranchKeyDown_ArrowDown, handleBranchKeyDown_ArrowUp by exact Hopen.
    destruct (arrowDown_range _ _ Hmax Hprev) as [Hd Hd0].
    destruct (arrowUp_range _ _ Hmax Hprev) as [Hu Hu0].
    cells cur; cbn [ui focusedRepoIndex focusedBranchIndex
                       setFocusedRepoIndex setFocusedBranchIndex] in *. tauto.
Qed.

Lemma arrow_keys_witness :
  (exists down up,
     repoIndexAfter "ArrowDown" open_repos open_repos = Some down
     /\ repoIndexAfter "ArrowUp" open_repos open_repos = Some up
     /\ 0 <= down <= 1 /\ 0 <= up <= 1
     /\ (-1 = 1 -> down = 0) /\ (-1 = 0 \/ -1 = -1 -> up = 1))
  /\ (exists down up,
        branchIndexAfter "ArrowDown" open_branches open_branches = Some down
        /\ branchIndexAfter "ArrowUp" open_branches open_branches = Some up
        /\ 0 <= down <= 1 /\ 0 <= up <= 1
        /\ (0 = 1 -> down = 0) /\ (0 = 0 \/ 0 = -1 -> up = 1)).
Proof.
  split.
  - apply (proj1 (arrow_keys_keep_focus_in_range open_repos open_repos)).
    + reflexivity.
    + vm_compute. discriminate.
    + vm_compute. split; discriminate.
  - apply (proj2 (arrow_keys_keep_focus_in_range open_branches open_branches)).
    + reflexivity.
    + vm_compute. discriminate.
    + vm_compute. split; discriminate.
Defined.

(** The bound on the index focused before the event is needed as well:
    from an index beyond [max], left behind by a list that has become
    shorter, ArrowUp steps down by one and may stay beyond [max]. *)
Example arrow_up_from_beyond_max :
  let s := setFocusedRepoIndex 3 open_repos in
  repoMax s = 1 /\ repoIndexAfter "ArrowUp" s s = Some 2.
Proof. split; reflexivity. Qed.

(** C9, as stated, fails on a dropdown without rows: nothing is listed and
    nothing is typed, so [max] is -1, and ArrowDown moves the focus from
    -1 to 0, outside the empty range [[0, -1]]. *)
Lemma arrow_down_on_empty_dropdown_leaves_range :
  let s := setIsRepoDropdownOpen true initialState in
  isRepoDropdownOpen s = true
  /\ filteredReposList s = []
  /\ showCreateNewRepo s = false
  /\ repoMax s = -1
  /\ repoIndexAfter "ArrowDown" s s = Some 0
  /\ ~ (0 <= 0 <= repoMax s).
Proof.
  repeat split; try reflexivity.
  vm_compute. intros [_ H]. apply H. reflexivity.
Qed.

(* ===================================================================== *)
(** ** Closing the dialog *)
(* ===================================================================== *)



(** The cells the reset effect does not write keep their values. *)
Lemma reset_on_close_frame (s : State) (log : list Event) :
  exists s',
    run (resetEffect false) tt s log = Some (Fulfilled tt, mkWorld tt s' log)
    /\ isPrivate s' = isPrivate s /\ isLoading s' = isLoading s
    /\ user s' = user s /\ recentRepos s' = recentRepos s
    /\ filteredRepos s' = filteredRepos s /\ branchOptions s' = branchOptions s.
Proof.
  cells s. unfold resetEffect. cbn [negb]. step_run.
  eexists. split; [reflexivity|]. cbn. repeat split.
Qed.

Lemma handleClose_run (s : State) (log : list Event) :
  run handleClose tt s log
  = Some (Fulfilled tt,
          mkWorld tt (setCreatedRepoUrl ""
                        (setShowSuccessDialog false
                           (setIsPrivate false (setRepoName "" s))))
                  (log ++ [EvOnClose])).
Proof. reflexivity. Qed.

Lemma resetEffect_open (s : State) (log : list Event) :
  run (resetEffect true) tt s log = Some (Fulfilled tt, mkWorld tt s log).
Proof. reflexivity. Qed.

(* ===================================================================== *)
(** ** The push and its result views *)
(* ===================================================================== *)

Section Push.

Variable env : Env.
Variable connection : Connection.t.
Variable u : GitHubUserResponse.t.
Hypothesis Hconnection : getLocalStorage env = Some connection.
Hypothesis Huser : Connection.user connection = Some u.

Lemma handleCommitProceed_rejected (snap cur : State) (log : list Event) (e : JsError) :
  pushAnswer env connection u snap = Rejected e ->
  run (handleCommitProceed env snap) tt cur log
  = Some (Fulfilled tt,
          mkWorld tt
            (setIsLoading false
               (setErrorMessage (Js.or_else (message e) "Failed to push to GitHub.")
                  (setErrorMessage "" (setIsLoading true (setShowCommitDialog false cur)))))
            (log ++ [pushCall connection u snap])).
Proof.
  unfold pushAnswer. intros H.
  unfold run, handleCommitProceed, tryFinally, tryCatch, await, bind, set, emit.
  simpl. rewrite Hconnection, Huser. simpl. rewrite H. reflexivity.
Qed.

Lemma handleCommitProceed_fulfilled (snap cur : State) (log : list Event) (url : string) :
  pushAnswer env connection u snap = Fulfilled url ->
  run (handleCommitProceed env snap) tt cur log
  = Some (Fulfilled tt,
          mkWorld tt
            (setIsLoading false
               (setShowSuccessDialog true
                  (setCreatedRepoUrl url
                     (setErrorMessage "" (setIsLoading true (setShowCommitDialog false cur))))))
            (log ++ [pushCall connection u snap])).
Proof.
  unfold pushAnswer. intros H.
  unfold run, handleCommitProceed, tryFinally, tryCatch, await, bind, set, emit.
  simpl. rewrite Hconnection, Huser. simpl. rewrite H. reflexivity.
Qed.

End Push.

Lemma or_else_truthy (o : option string) (d : string) :
  d <> "" -> Js.truthy (Js.or_else o d) = true.
Proof.
  intros Hd. unfold Js.or_else. destruct o as [m|].
  - destruct (Js.truthy m) eqn:E; [exact E | now apply truthy_true].
  - now apply truthy_true.
Qed.

(** C7. When [onPush] rejects, the error message is set to the error's
    message, or to 'Failed to push to GitHub.' when there is none, the
    success dialog is not shown and the loading flag is cleared: what is
    rendered is the form with the inline error line, not the success
    dialog. *)
Theorem push_rejection_shows_inline_error
    (env : Env) (connection : Connection.t) (u : GitHubUserResponse.t)
    (snap cur : State) (log : list Event) (e : JsError) :
  getLocalStorage env = Some connection ->
  Connection.user connection = Some u ->
  pushAnswer env connection u snap = Rejected e ->
  showSuccessDialog cur = false ->
  user cur <> None ->
  exists s',
    run (handleCommitProceed env snap) tt cur log
    = Some (Fulfilled tt, mkWorld tt s' (log ++ [pushCall connection u snap]))
    /\ errorMessage s' = Js.or_else (message e) "Failed to push to GitHub."
    /\ showSuccessDialog s' = false
    /\ isLoading s' = false
    /\ render s'
       = Form (Some (Js.or_else (message e) "Failed to push to GitHub."))
              (repoDropdown s') (branchDropdown s') (showConfirmDialog cur) false.
Proof.
  intros Hconn Huser Hpush Hsuccess Hu.
  eexists. split; [exact (handleCommitProceed_rejected env connection u Hconn Huser
                            snap cur log e Hpush)|].
  cells cur; cbn in Hsuccess, Hu |- *; subst.
  repeat split. unfold render; cbn.
  destruct c_user; [|congruence].
  rewrite or_else_truthy by discriminate. reflexivity.
Qed.

Lemma push_rejection_witness :
  exists s',
    run (handleCommitProceed refused_env before_push) tt before_push []
    = Some (Fulfilled tt,
            mkWorld tt s'
              ([] ++ [pushCall (Connection.mk (Some octocat) (Some "ghp_0123456789"))
                               octocat before_push]))
    /\ errorMessage s'
       = Js.or_else (Some "Resource not accessible by integration")
                    "Failed to push to GitHub."
    /\ showSuccessDialog s' = false
    /\ isLoading s' = false
    /\ render s'
       = Form (Some (Js.or_else (Some "Resource not accessible by integration")
                                "Failed to push to GitHub."))
              (repoDropdown s') (branchDropdown s') (showConfirmDialog before_push) false.
Proof.
  apply (push_rejection_shows_inline_error
           refused_env (Connection.mk (Some octocat) (Some "ghp_0123456789")) octocat
           before_push before_push []
           (mkError (Some 403) (Some "Resource not accessible by integration"))).
  - reflexivity.
  - reflexivity.
  - reflexivity.
  - reflexivity.
  - discriminate.
Defined.

(** After a push that resolves, the dialog rendered is the success dialog
    with the URL [onPush] returned; its "Pushed Files" section is drawn
    from the [filteredRepos] cell, whatever was pushed. *)
Lemma success_dialog_after_push
    (env : Env) (connection : Connection.t) (u : GitHubUserResponse.t)
    (snap cur : State) (log : list Event) (url : string) :
  getLocalStorage env = Some connection ->
  Connection.user connection = Some u ->
  pushAnswer env connection u snap = Fulfilled url ->
  exists s',
    run (handleCommitProceed env snap) tt cur log
    = Some (Fulfilled tt, mkWorld tt s' (log ++ [pushCall connection u snap]))
    /\ showSuccessDialog s' = true
    /\ render s'
       = SuccessDialog {| repositoryUrl := url;
                          pushedFilesCount := List.length (filteredRepos cur);
                          pushedFilesLines := map GitHubRepo.name (filteredRepos cur) |}.
Proof.
  intros Hconn Huser Hpush.
  eexists. split; [exact (handleCommitProceed_fulfilled env connection u Hconn Huser
                            snap cur log url Hpush)|].
  cells cur; cbn. split; reflexivity.
Qed.

(** [before_push] is a state the effects are at rest in. *)
Example before_push_filterEffect :
  option_map (fun r => ui (snd r)) (run (filterEffect before_push) tt before_push [])
  = Some before_push.
Proof. reflexivity. Qed.

(** C2, at a failing input. The push of my-app resolves; the success dialog
    shows the URL returned by [onPush], but under "Pushed Files (2)" it
    lists old-site and dotfiles, the account's repositories, not the files
    that were pushed. *)
Theorem success_dialog_lists_repositories_as_pushed_files :
  option_map (fun r => render (ui (snd r)))
             (run (handleCommitProceed push_env before_push) tt before_push [])
  = Some (SuccessDialog {| repositoryUrl := "https://github.com/octocat/my-app";
                           pushedFilesCount := 2;
                           pushedFilesLines := ["old-site"; "dotfiles"] |}).
Proof. reflexivity. Qed.

(* ===================================================================== *)
(** ** Validation in [handleSubmit] *)
(* ===================================================================== *)

Lemma credentials_None_iff (connection : option Connection.t) :
  credentials connection = None <-> lacksTokenOrUser connection.
Proof.
  unfold credentials, lacksTokenOrUser.
  destruct connection as [[usr tk]|]; simpl; [|tauto].
  destruct tk as [tk|], usr as [usr|]; simpl;
    try (destruct (Js.truthy tk)); split; auto; try discriminate;
    intros [H|H]; discriminate.
Qed.

Lemma allChars_false_iff (p : ascii -> bool) (s : string) :
  Js.allChars p s = false
  <-> exists pre c post, s = pre ++ String c post /\ p c = false.
Proof.
  induction s as [|d s IH]; simpl.
  - split; [discriminate|]. intros [pre [c [post [H _]]]].
    destruct pre; discriminate.
  - rewrite andb_false_iff, IH. split.
    + intros [Hd | [pre [c [post [-> Hc]]]]].
      * exists "", d, s. auto.
      * exists (String d pre), c, post. auto.
    + intros [pre [c [post [H Hc]]]]. destruct pre as [|e pre]; simpl in H.
      * injection H as -> _. now left.
      * injection H as _ ->. right. now exists pre, c, post.
Qed.

Lemma branchPattern_test_false_iff (s : string) :
  Js.branchPattern_test s = false <-> s = "" \/ hasCharOutsideClass s.
Proof.
  unfold Js.branchPattern_test, hasCharOutsideClass.
  now rewrite andb_false_iff, truthy_false, allChars_false_iff.
Qed.

(** The class, character by character. *)
Lemma branchChar_iff (c : ascii) :
  Js.branchChar c = true
  <-> (97 <= nat_of_ascii c <= 122 \/ 65 <= nat_of_ascii c <= 90
       \/ 48 <= nat_of_ascii c <= 57
       \/ c = "."%char \/ c = "_"%char \/ c = "-"%char \/ c = "/"%char)%nat.
Proof.
  unfold Js.branchChar.
  rewrite !orb_true_iff, !andb_true_iff, !Nat.leb_le, !Nat.eqb_eq.
  assert (E : forall n, nat_of_ascii c = nat_of_ascii (ascii_of_nat n)
                        <-> c = ascii_of_nat n).
  { intros n. split; [|now intros ->].
    intros H. apply (f_equal ascii_of_nat) in H. now rewrite !ascii_nat_embedding in H. }
  rewrite <- (E 46%nat), <- (E 95%nat), <- (E 45%nat), <- (E 47%nat).
  cbn [nat_of_ascii ascii_of_nat]. simpl. tauto.
Qed.

(** C8. [handleSubmit] validates before any GitHub API call: if the stored
    connection lacks a token or a user, or else the repository name is
    blank after trimming, or else the branch name is blank or holds a
    character outside [[a-zA-Z0-9._/-]], it sets the corresponding error
    message and returns: the log of calls is as it was, and so is every
    cell but the error message, the confirmation and commit-message
    dialogs included. *)
Theorem validation_precedes_api_calls
    (env : Env) (snap cur : State) (l : SubmitLocals) (log : list Event) :
  (lacksTokenOrUser (getLocalStorage env) ->
   run (handleSubmit env snap) l cur log
   = stoppedWith "Please connect your GitHub account in Settings > Connections first"
                 l cur log)
  /\ (~ lacksTokenOrUser (getLocalStorage env) ->
      Js.trim (repoName snap) = "" ->
      run (handleSubmit env snap) l cur log
      = stoppedWith "Repository name is required" l cur log)
  /\ (~ lacksTokenOrUser (getLocalStorage env) ->
      Js.trim (repoName snap) <> "" ->
      Js.trim (branchName snap) = "" \/ hasCharOutsideClass (branchName snap) ->
      run (handleSubmit env snap) l cur log
      = stoppedWith "Please enter a valid branch name." l cur log).
Proof.
  unfold stoppedWith, handleSubmit. rewrite <- credentials_None_iff.
  destruct (credentials (getLocalStorage env)) as [[tk u]|] eqn:Hcred.
  - split; [discriminate|]. split.
    + intros _ Hrepo. rewrite Hrepo. step_run. cells cur. reflexivity.
    + intros _ Hrepo Hbranch.
      apply truthy_true in Hrepo. rewrite Hrepo. cbn [negb].
      assert (Hinvalid : negb (Js.truthy (Js.trim (branchName snap)))
                         || negb (Js.branchPattern_test (branchName snap)) = true).
      { apply orb_true_iff. destruct Hbranch as [Hblank|Hout].
        - left. now rewrite Hblank.
        - right. apply negb_true_iff, branchPattern_test_false_iff. now right. }
      rewrite Hinvalid. step_run. cells cur. reflexivity.
  - split; [|split; intros H; now contradiction H].
    intros _. step_run. cells cur. reflexivity.
Qed.

Lemma validation_witness :
  run (handleSubmit no_connection_env initialState) submitLocals0 initialState []
  = stoppedWith "Please connect your GitHub account in Settings > Connections first"
                submitLocals0 initialState []
  /\ run (handleSubmit push_env initialState) submitLocals0 initialState []
     = stoppedWith "Repository name is required" submitLocals0 initialState []
  /\ run (handleSubmit push_env (setBranchName "my branch" before_push))
         submitLocals0 before_push []
     = stoppedWith "Please enter a valid branch name." submitLocals0 before_push [].
Proof.
  split; [|split].
  - apply (proj1 (validation_precedes_api_calls
                    no_connection_env initialState initialState submitLocals0 [])).
    exact I.
  - apply (proj1 (proj2 (validation_precedes_api_calls
                           push_env initialState initialState submitLocals0 []))).
    + intros [H|H]; discriminate.
    + reflexivity.
  - apply (proj2 (proj2 (validation_precedes_api_calls
                           push_env (setBranchName "my branch" before_push)
                           before_push submitLocals0 []))).
    + intros [H|H]; discriminate.
    + vm_compute. discriminate.
    + right. exists "my", " "%char, "branch". split; reflexivity.
Defined.

(* ===================================================================== *)
(** ** The existence checks and the confirmation dialog *)
(* ===================================================================== *)

Section Submission.

Variable env : Env.
Variable tk : string.
Variable u : GitHubUserResponse.t.
Variable snap : State.

Lemma is404_iff (e : JsError) : is404 e = true <-> status e = Some 404.
Proof.
  unfold is404. destruct (status e) as [n|]; [|split; discriminate].
  rewrite Z.eqb_eq. split; congruence.
Qed.

Lemma handleSubmit_valid (l : SubmitLocals) (cur : State) (log : list Event) :
  validInput env tk u snap ->
  run (handleSubmit env snap) l cur log
  = run (set (setIsLoading true);;
         tryCatch
           (assign (fun _ => submitLocals0);;
            checkExistence env tk u snap;;
            l <- getLocals;;
            if repoExists l && (branchExists l || visibilityChanges l snap) then
              set (setConfirmDialogMessage (confirmMessage l snap));;
              set (setShowConfirmDialog true);;
              set (setIsLoading false)
            else
              set (setShowCommitDialog true);;
              set (setIsLoading false))
           (fun error =>
              set (setIsLoading false);;
              set (setErrorMessage
                     (Js.or_else (message error) "Failed to check repository."))))
        l (setErrorMessage "" cur) log.
Proof.
  intros [Hcred [Hrepo [Hbranch Hpattern]]].
  unfold handleSubmit. rewrite Hcred.
  apply truthy_true in Hrepo, Hbranch. rewrite Hrepo, Hbranch, Hpattern.
  reflexivity.
Qed.

End Submission.

Lemma private_differs_iff (a b : bool) : negb (Bool.eqb a b) = true <-> a <> b.
Proof. destruct a, b; simpl; split; congruence. Qed.

(** C1. In [handleSubmit], once the input is valid and the repository and
    branch existence checks have succeeded, the confirmation dialog is
    shown if and only if the repository exists and either the branch
    exists or the repository's private flag differs from the selected
    [isPrivate]; in every other case the commit-message dialog is shown
    directly. *)
Theorem confirmation_iff_branch_exists_or_visibility_changes
    (env : Env) (tk : string) (u : GitHubUserResponse.t)
    (snap cur : State) (l : SubmitLocals) (log : list Event) :
  validInput env tk u snap ->
  checksSucceed env u snap ->
  showConfirmDialog cur = false ->
  showCommitDialog cur = false ->
  exists w',
    run (handleSubmit env snap) l cur log = Some (Fulfilled tt, w')
    /\ (showConfirmDialog (ui w') = true <-> needsConfirmation env u snap)
    /\ (showCommitDialog (ui w') = true <-> ~ needsConfirmation env u snap)
    /\ isLoading (ui w') = false.
Proof.
  intros Hvalid Hchecks Hconfirm Hcommit.
  rewrite (handleSubmit_valid env tk u snap l cur log Hvalid).
  unfold checksSucceed, needsConfirmation, notFound, repoAnswer, refAnswer in *.
  unfold checkExistence. step_run.
  cells cur; cbn in Hconfirm, Hcommit; subst.
  destruct Hchecks as [[e [Hrepo He]] | [repo [Hrepo [Href | [e [Href He]]]]]];
    rewrite Hrepo.
  - (* the repository is not found *)
    apply is404_iff in He. rewrite He. cbn.
    eexists. split; [reflexivity|]. cbn.
    repeat split; try discriminate.
    + intros [repo [H _]]. discriminate.
    + intros _ [repo [H _]]. discriminate.
  - (* the repository and the branch are found *)
    rewrite Href. cbn.
    eexists. split; [reflexivity|]. cbn.
    repeat split; try discriminate; eauto.
    intros H. exfalso. apply H. eauto.
  - (* the repository is found, the branch is not *)
    rewrite Href. apply is404_iff in He. rewrite He. cbn.
    unfold visibilityChanges. cbn.
    destruct (negb (Bool.eqb (GitHubRepo.private repo) (isPrivate snap))) eqn:Hvis.
    + eexists. split; [reflexivity|]. cbn.
      apply private_differs_iff in Hvis.
      repeat split; try discriminate; eauto.
      intros H. exfalso. apply H. eauto.
    + eexists. split; [reflexivity|]. cbn.
      assert (Hsame : GitHubRepo.private repo = isPrivate snap).
      { destruct (GitHubRepo.private repo), (isPrivate snap); simpl in Hvis; congruence. }
      assert (Hno : ~ exists repo0, Fulfilled repo = Fulfilled repo0 /\
                      (Rejected e = Fulfilled tt
                       \/ GitHubRepo.private repo0 <> isPrivate snap)).
      { intros [repo0 [H [H'|H']]]; [discriminate|]. injection H as <-. auto. }
      repeat split; try discriminate; auto.
Qed.

Lemma confirmation_witness :
  exists w',
    run (handleSubmit existing_repo_env submit_private) submitLocals0 submit_private []
    = Some (Fulfilled tt, w')
    /\ (showConfirmDialog (ui w') = true
        <-> needsConfirmation existing_repo_env octocat submit_private)
    /\ (showCommitDialog (ui w') = true
        <-> ~ needsConfirmation existing_repo_env octocat submit_private)
    /\ isLoading (ui w') = false.
Proof.
  apply (confirmation_iff_branch_exists_or_visibility_changes
           existing_repo_env "ghp_0123456789" octocat).
  - repeat split; try reflexivity; vm_compute; discriminate.
  - right. exists (repoNamed "my-app"). split; [reflexivity|].
    right. eexists. split; reflexivity.
  - reflexivity.
  - reflexivity.
Defined.

(** When a look-up fails otherwise than by 404 no dialog is opened: the
    failure is shown as the error message. *)
Example failed_check_opens_no_dialog :
  option_map (fun r => (showConfirmDialog (ui (snd r)), showCommitDialog (ui (snd r)),
                        errorMessage (ui (snd r)), isLoading (ui (snd r)),
                        events (snd r)))
    (run (handleSubmit server_error_env submit_private) submitLocals0 submit_private [])
  = Some (false, false, "Server Error", false,
          [EvReposGet "ghp_0123456789" "octocat" "my-app"]).
Proof. reflexivity. Qed.

Example confirmation_shown_for_visibility_change :
  option_map (fun r => (showConfirmDialog (ui (snd r)), showCommitDialog (ui (snd r)),
                        events (snd r)))
    (run (handleSubmit existing_repo_env submit_private) submitLocals0 submit_private [])
  = Some (true, false,
          [EvReposGet "ghp_0123456789" "octocat" "my-app";
           EvGitGetRef "ghp_0123456789" "octocat" "my-app" "heads/feature/x"]).
Proof. reflexivity. Qed.

(* ===================================================================== *)
(** ** The pagination loop *)
(* ===================================================================== *)

Section Pagination.

Variable env : Env.
Variable token : string.

Lemma while_done {R} (fuel : nat) (body : Comp FetchLocals (option R))
    (w : World FetchLocals) :
  hasMore (locals w) = false ->
  while fuel hasMore body w = Some (Fulfilled None, w).
Proof.
  destruct w as [l s log]. cbn [locals]. intros H.
  destruct fuel; cbn [while]; step_run; rewrite H; reflexivity.
Qed.

Lemma pagination_full_page (fuel : nat) acc p s log repos :
  fetch_user_repos env p = Page repos ->
  (100 <= List.length repos)%nat ->
  pagination env token (S fuel) acc p s log
  = pagination env token fuel (acc ++ repos) (p + 1) s (log ++ [pageRequest token p]).
Proof.
  intros Hpage Hfull. unfold pagination at 1. cbn [while]. 
  unfold fetchBody, fetchPage. step_run. cbn [hasMore page allRepos]. rewrite Hpage.
  apply Nat.ltb_ge in Hfull. rewrite Hfull. reflexivity.
Qed.

Lemma pagination_short_page (fuel : nat) acc p s log repos :
  fetch_user_repos env p = Page repos ->
  (List.length repos < 100)%nat ->
  pagination env token (S fuel) acc p s log
  = Some (Fulfilled None,
          mkWorld (mkFetchLocals (acc ++ repos) p false) s (log ++ [pageRequest token p])).
Proof.
  intros Hpage Hshort. unfold pagination. cbn [while].
  unfold fetchBody, fetchPage. step_run. cbn [hasMore page allRepos]. rewrite Hpage.
  apply Nat.ltb_lt in Hshort. rewrite Hshort.
  apply while_done. reflexivity.
Qed.


Lemma pagination_out_of_fuel acc p s log : pagination env token 0 acc p s log = None.
Proof. reflexivity. Qed.

Lemma pagination_fetch_rejects (fuel : nat) acc p s log e :
  fetch_user_repos env p = FetchRejects e ->
  pagination env token (S fuel) acc p s log
  = Some (Rejected e, mkWorld (mkFetchLocals acc p true) s (log ++ [pageRequest token p])).
Proof.
  intros Hpage. unfold pagination. cbn [while].
  unfold fetchBody, fetchPage. step_run. cbn [hasMore page allRepos]. rewrite Hpage.
  reflexivity.
Qed.

Lemma pagination_bad_json (fuel : nat) acc p s log e :
  fetch_user_repos env p = BadJson e ->
  pagination env token (S fuel) acc p s log
  = Some (Fulfilled (Some tt),
          mkWorld (mkFetchLocals acc p true) (setRecentRepos [] s)
                  (log ++ [pageRequest token p]
                       ++ [EvLogError "Failed to parse GitHub repositories response"]
                       ++ [EvToastError "Failed to parse repository data"])).
Proof.
  intros Hpage. unfold pagination. cbn [while].
  unfold fetchBody, fetchPage. step_run. cbn [hasMore page allRepos]. rewrite Hpage.
  now rewrite <- !app_assoc.
Qed.

Lemma reportHttpError_total httpStatus statusText remaining reset json
    (l : FetchLocals) (s : State) (log : list Event) :
  exists s' extra,
    reportHttpError env httpStatus statusText remaining reset json (mkWorld l s log)
    = Some (Fulfilled tt, mkWorld l s' (log ++ extra))
    /\ forallb (fun ev => negb (isPageRequest ev)) extra = true.
Proof.
  unfold reportHttpError.
  destruct (httpStatus =? 401).
  - destruct (getLocalStorage env); step_run.
    + eexists _, [_; _]. rewrite <- app_assoc. split; reflexivity.
    + eexists _, [_]. split; reflexivity.
  - destruct ((httpStatus =? 403) && _); step_run.
    + eexists _, [_]. split; reflexivity.
    + eexists _, [_; _]. rewrite <- app_assoc. split; reflexivity.
Qed.

Lemma pagination_http_error acc p s log httpStatus statusText remaining reset json :
  fetch_user_repos env p = HttpError httpStatus statusText remaining reset json ->
  exists s' extra,
    (forall fuel,
       pagination env token (S fuel) acc p s log
       = Some (Fulfilled (Some tt),
               mkWorld (mkFetchLocals acc p true) s' (log ++ pageRequest token p :: extra)))
    /\ forallb (fun ev => negb (isPageRequest ev)) extra = true.
Proof.
  intros Hpage.
  destruct (reportHttpError_total httpStatus statusText remaining reset json
              (mkFetchLocals acc p true) s (log ++ [pageRequest token p]))
    as [s' [extra [Hreport Hextra]]].
  exists s', extra. split; [|exact Hextra]. intros fuel.
  unfold pagination. cbn [while].
  unfold fetchBody, fetchPage. step_run. cbn [hasMore page allRepos]. rewrite Hpage.
  unfold pageRequest in *. step_run. rewrite Hreport. now rewrite <- app_assoc.
Qed.

Lemma ends_or_full (o : FetchOutcome) : endsPagination o \/ fullPage o.
Proof.
  destruct o as [e|? ? ? ? ?|e|repos]; simpl; auto.
  destruct (Nat.lt_ge_cases (List.length repos) 100); [now left|].
  right. now exists repos.
Qed.

Lemma pagination_stops acc p s log :
  endsPagination (fetch_user_repos env p) ->
  exists r, forall fuel, pagination env token (S fuel) acc p s log = Some r.
Proof.
  intros Hends.
  destruct (fetch_user_repos env p) as [e|st txt rem reset json|e|repos] eqn:Hpage;
    simpl in Hends.
  - eexists. intros fuel. exact (pagination_fetch_rejects fuel acc p s log e Hpage).
  - destruct (pagination_http_error acc p s log _ _ _ _ _ Hpage)
      as [s' [extra [Hrun _]]].
    eexists. exact Hrun.
  - eexists. intros fuel. exact (pagination_bad_json fuel acc p s log e Hpage).
  - eexists. intros fuel.
    exact (pagination_short_page fuel acc p s log repos Hpage Hends).
Qed.

(** The loop ends when some page from [p] on ends it: [d + 1] runs of the
    body are enough when that page is [p + d]. *)
Lemma pagination_terminates (d : nat) :
  forall acc p s log,
    endsPagination (fetch_user_repos env (p + d)) ->
    exists r, forall fuel, (d < fuel)%nat -> pagination env token fuel acc p s log = Some r.
Proof.
  induction d as [|d IH]; intros acc p s log Hends.
  - rewrite Nat.add_0_r in Hends.
    destruct (pagination_stops acc p s log Hends) as [r Hr].
    exists r. intros [|fuel] Hfuel; [lia | apply Hr].
  - destruct (ends_or_full (fetch_user_repos env p)) as [Hp | [repos [Hpage Hfull]]].
    + destruct (pagination_stops acc p s log Hp) as [r Hr].
      exists r. intros [|fuel] Hfuel; [lia | apply Hr].
    + replace (p + S d)%nat with (p + 1 + d)%nat in Hends by lia.
      destruct (IH (acc ++ repos)%list (p + 1)%nat s (log ++ [pageRequest token p])%list Hends)
        as [r Hr].
      exists r. intros [|fuel] Hfuel; [lia|].
      rewrite (pagination_full_page fuel acc p s log repos Hpage Hfull).
      apply Hr. lia.
Qed.

(** Every page asked for in a finished run of the loop is the page the
    loop was entered at or follows a page of 100 or more. *)
Lemma pagination_requests (fuel : nat) :
  forall acc p s log r w',
    pagination env token fuel acc p s log = Some (r, w') ->
    exists extra,
      events w' = (log ++ extra)%list
      /\ forall per q auth,
           In (EvFetchRepos per q auth) extra ->
           q = p \/ exists n, q = S n /\ (p <= n)%nat /\ fullPage (fetch_user_repos env n).
Proof.
  assert (Hnone : forall extra,
             forallb (fun ev => negb (isPageRequest ev)) extra = true ->
             forall per q auth, ~ In (EvFetchRepos per q auth) extra).
  { intros extra Hextra per q auth Hin.
    rewrite forallb_forall in Hextra. now specialize (Hextra _ Hin). }
  induction fuel as [|fuel IH]; intros acc p s log r w' Hrun.
  - discriminate.
  - destruct (fetch_user_repos env p) as [e|st txt rem reset json|e|repos] eqn:Hpage.
    + rewrite (pagination_fetch_rejects fuel acc p s log e Hpage) in Hrun.
      injection Hrun as _ <-. exists [pageRequest token p]. split; [reflexivity|].
      intros per q auth [H|[]]. injection H as _ <- _. now left.
    + destruct (pagination_http_error acc p s log _ _ _ _ _ Hpage)
        as [s' [extra [Hstep Hextra]]].
      rewrite Hstep in Hrun. injection Hrun as _ <-.
      exists (pageRequest token p :: extra). split; [reflexivity|].
      intros per q auth [H|H].
      * injection H as _ <- _. now left.
      * now apply Hnone in H.
    + rewrite (pagination_bad_json fuel acc p s log e Hpage) in Hrun.
      injection Hrun as _ <-. eexists. split; [reflexivity|].
      intros per q auth [H|[H|[H|[]]]]; try discriminate.
      injection H as _ <- _. now left.
    + destruct (Nat.lt_ge_cases (List.length repos) 100) as [Hshort|Hfull].
      * rewrite (pagination_short_page fuel acc p s log repos Hpage Hshort) in Hrun.
        injection Hrun as _ <-. exists [pageRequest token p]. split; [reflexivity|].
        intros per q auth [H|[]]. injection H as _ <- _. now left.
      * rewrite (pagination_full_page fuel acc p s log repos Hpage Hfull) in Hrun.
        destruct (IH _ _ _ _ _ _ Hrun) as [extra [Hevents Hextra]].
        exists (pageRequest token p :: extra). split.
        { rewrite Hevents, <- app_assoc. reflexivity. }
        intros per q auth [H|H].
        -- injection H as _ <- _. now left.
        -- right. destruct (Hextra per q auth H) as [-> | [n [-> [Hn Hfulln]]]].
           ++ exists p. split; [lia|]. split; [lia|]. now exists repos.
           ++ exists n. split; [reflexivity|]. split; [lia | exact Hfulln].
Qed.


Lemma fetchRecentRepos_run (fuel : nat) (l : FetchLocals) (s : State) (log : list Event) :
  Js.truthy token = true ->
  run (fetchRecentRepos fuel env token) l s log
  = afterPagination (pagination env token fuel [] 1 s log).
Proof.
  intros Htoken. unfold fetchRecentRepos. rewrite Htoken. cbn [negb].
  unfold pagination, fetchLocals0. step_run.
  destruct (while fuel hasMore (fetchBody env token) _) as [[[[[]|]|e] [l' s' log']]|];
    cbn [afterPagination locals ui events]; try reflexivity.
  now rewrite <- app_assoc.
Qed.

Lemma fetchRecentRepos_without_token (fuel : nat) (l : FetchLocals) (s : State)
    (log : list Event) :
  Js.truthy token = false ->
  run (fetchRecentRepos fuel env token) l s log
  = Some (Fulfilled tt,
          mkWorld l s (log ++ [EvLogError "No GitHub token available";
                               EvToastError "GitHub authentication required"])).
Proof.
  intros Htoken. unfold fetchRecentRepos. rewrite Htoken. cbn [negb].
  step_run. now rewrite <- app_assoc.
Qed.

(** The loop over pages that all arrive: every page of [front] is full
    and [last] is short. *)
Lemma pagination_pages (last : list GitHubRepo.t) (front : list (list GitHubRepo.t)) :
  forall acc p s log,
    (forall i pg, nth_error (front ++ [last]) i = Some pg ->
                  fetch_user_repos env (p + i) = Page pg) ->
    Forall (fun pg => 100 <= List.length pg)%nat front ->
    (List.length last < 100)%nat ->
    forall fuel, (List.length front < fuel)%nat ->
      pagination env token fuel acc p s log
      = Some (Fulfilled None,
              mkWorld (mkFetchLocals (acc ++ List.concat (front ++ [last]))
                                     (p + List.length front) false)
                      s
                      (log ++ map (pageRequest token) (seq p (S (List.length front))))).
Proof.
  induction front as [|pg front IH]; intros acc p s log Hpages Hfull Hshort fuel Hfuel.
  - destruct fuel as [|fuel]; [simpl in Hfuel; lia|].
    assert (Hpage : fetch_user_repos env p = Page last).
    { rewrite <- (Nat.add_0_r p). now apply Hpages. }
    rewrite (pagination_short_page fuel acc p s log last Hpage Hshort).
    cbn. now rewrite app_nil_r, Nat.add_0_r.
  - destruct fuel as [|fuel]; [simpl in Hfuel; lia|].
    assert (Hpage : fetch_user_repos env p = Page pg).
    { rewrite <- (Nat.add_0_r p). now apply Hpages. }
    inversion Hfull as [|? ? Hpg Hfront]; subst.
    rewrite (pagination_full_page fuel acc p s log pg Hpage Hpg).
    rewrite (IH (acc ++ pg)%list (p + 1)%nat s (log ++ [pageRequest token p])%list).
    + cbn [List.length List.concat app seq map].
      rewrite <- !app_assoc. cbn [app].
      replace (p + 1 + List.length front)%nat with (p + S (List.length front))%nat by lia.
      replace (p + 1)%nat with (S p) by lia. reflexivity.
    + intros i pg' Hi. replace (p + 1 + i)%nat with (p + S i)%nat by lia.
      now apply Hpages.
    + exact Hfront.
    + exact Hshort.
    + simpl in Hfuel. lia.
Qed.

End Pagination.

Lemma afterPagination_Some (r : Settled (option unit) * World FetchLocals) :
  exists r', afterPagination (Some r) = Some r'.
Proof. destruct r as [[[[]|]|e] w]; eexists; reflexivity. Qed.

(** C3. [fetchRecentRepos] asks for the successive pages 1, 2, ... with
    [per_page=100] and, when every request succeeds (the pages of [front]
    arrive full, then [last] arrives short), [recentRepos] is set to the
    concatenation of the pages in the order fetched, each page in the
    order the API returned it. *)
Theorem fetchRecentRepos_concatenates_pages
    (env : Env) (token : string) (l : FetchLocals) (cur : State) (log : list Event)
    (front : list (list GitHubRepo.t)) (last : list GitHubRepo.t) :
  Js.truthy token = true ->
  (forall i pg, nth_error (front ++ [last]) i = Some pg ->
                fetch_user_repos env (S i) = Page pg) ->
  Forall (fun pg => 100 <= List.length pg)%nat front ->
  (List.length last < 100)%nat ->
  exists l',
    forall fuel, (List.length front < fuel)%nat ->
      run (fetchRecentRepos fuel env token) l cur log
      = Some (Fulfilled tt,
              mkWorld l'
                (setRecentRepos (List.concat (front ++ [last])) cur)
                (log ++ map (fun p => EvFetchRepos 100 p ("Bearer " ++ Js.trim token))
                            (seq 1 (S (List.length front))))).
Proof.
  intros Htoken Hpages Hfull Hshort.
  eexists. intros fuel Hfuel.
  rewrite (fetchRecentRepos_run env token fuel l cur log Htoken).
  rewrite (pagination_pages env token last front [] 1%nat cur log
             Hpages Hfull Hshort fuel Hfuel).
  reflexivity.
Qed.

(** C4. The pagination loop of [fetchRecentRepos] terminates whenever some
    page fails, does not parse or lists fewer than 100 repositories: with
    [p] such a page, [p] runs of the body are enough for a result.  And in
    a finished run page [n + 1] is asked for only when page [n] listed 100
    repositories or more. *)
Theorem pagination_terminates_and_follows_full_pages
    (env : Env) (token : string) (l : FetchLocals) (cur : State) (log : list Event) :
  (forall p, (1 <= p)%nat -> endsPagination (fetch_user_repos env p) ->
     exists r, forall fuel, (p <= fuel)%nat ->
       run (fetchRecentRepos fuel env token) l cur log = Some r)
  /\ (forall fuel r w',
        run (fetchRecentRepos fuel env token) l cur log = Some (r, w') ->
        exists extra,
          events w' = (log ++ extra)%list
          /\ forall per n auth,
               (1 <= n)%nat -> In (EvFetchRepos per (S n) auth) extra ->
               fullPage (fetch_user_repos env n)).
Proof.
  destruct (Js.truthy token) eqn:Htoken.
  - split.
    + intros p Hp Hends.
      replace p with (1 + (p - 1))%nat in Hends by lia.
      destruct (pagination_terminates env token (p - 1) [] 1%nat cur log Hends) as [r Hr].
      destruct (afterPagination_Some r) as [r' Hr'].
      exists r'. intros fuel Hfuel.
      rewrite (fetchRecentRepos_run env token fuel l cur log Htoken), Hr by lia.
      exact Hr'.
    + intros fuel r w' Hrun.
      rewrite (fetchRecentRepos_run env token fuel l cur log Htoken) in Hrun.
      destruct (pagination env token fuel [] 1%nat cur log) as [[r0 w0]|] eqn:Hloop;
        [|discriminate].
      destruct (pagination_requests env token fuel _ _ _ _ _ _ Hloop)
        as [extra [Hevents Hextra]].
      assert (Hfull : forall per n auth,
                 (1 <= n)%nat -> In (EvFetchRepos per (S n) auth) extra ->
                 fullPage (fetch_user_repos env n)).
      { intros per n auth Hn Hin.
        destruct (Hextra per (S n) auth Hin) as [H | [m [H [_ Hm]]]]; [lia|].
        injection H as ->. exact Hm. }
      destruct r0 as [[[]|]|e]; cbn [afterPagination] in Hrun;
        injection Hrun as _ <-; cbn [events].
      * exists extra. auto.
      * exists extra. auto.
      * eexists. rewrite Hevents, <- app_assoc. split; [reflexivity|].
        intros per n auth Hn Hin. apply in_app_or in Hin.
        destruct Hin as [Hin | [H|[H|[]]]]; try discriminate. eauto.
  - split.
    + intros p _ _. eexists. intros fuel _.
      exact (fetchRecentRepos_without_token env token fuel l cur log Htoken).
    + intros fuel r w' Hrun.
      rewrite (fetchRecentRepos_without_token env token fuel l cur log Htoken) in Hrun.
      injection Hrun as _ <-. eexists. split; [reflexivity|].
      intros per n auth _ [H|[H|[]]]; discriminate.
Qed.

Lemma fetchRecentRepos_witness :
  exists l',
    forall fuel, (1 < fuel)%nat ->
      run (fetchRecentRepos fuel two_pages_env "ghp_0123456789") fetchLocals0 initialState []
      = Some (Fulfilled tt,
              mkWorld l'
                (setRecentRepos (List.concat ([first_page] ++ [second_page])) initialState)
                ([] ++ map (fun p => EvFetchRepos 100 p ("Bearer " ++ Js.trim "ghp_0123456789"))
                           (seq 1 (S (List.length [first_page]))))).
Proof.
  apply (fetchRecentRepos_concatenates_pages
           two_pages_env "ghp_0123456789" fetchLocals0 initialState []
           [first_page] second_page).
  - reflexivity.
  - intros [|[|i]] pg H; simpl in H.
    + injection H as <-. reflexivity.
    + injection H as <-. reflexivity.
    + destruct i; discriminate.
  - constructor; [|constructor]. unfold first_page. rewrite repeat_length. lia.
  - simpl. lia.
Defined.

Lemma pagination_witness :
  (exists r, forall fuel, (2 <= fuel)%nat ->
     run (fetchRecentRepos fuel two_pages_env "ghp_0123456789")
         fetchLocals0 initialState [] = Some r)
  /\ (forall r w',
        run (fetchRecentRepos 2 two_pages_env "ghp_0123456789")
            fetchLocals0 initialState [] = Some (r, w') ->
        exists extra,
          events w' = ([] ++ extra)%list
          /\ forall per n auth,
               (1 <= n)%nat -> In (EvFetchRepos per (S n) auth) extra ->
               fullPage (fetch_user_repos two_pages_env n)).
Proof.
  destruct (pagination_terminates_and_follows_full_pages
              two_pages_env "ghp_0123456789" fetchLocals0 initialState [])
    as [Hterminates Hrequests].
  split.
  - apply (Hterminates 2%nat); [lia|]. simpl. lia.
  - intros r w'. apply (Hrequests 2%nat).
Defined.

(* ===================================================================== *)
(** * Further properties *)
(* ===================================================================== *)
(** ** Trimming and letter case *)

Lemma isWhiteSpace_lowerChar (c : ascii) :
  Js.isWhiteSpace (Js.lowerChar c) = Js.isWhiteSpace c.
Proof.
  destruct c as [[] [] [] [] [] [] [] []]; reflexivity.
Qed.

Lemma branchChar_not_whiteSpace (c : ascii) :
  Js.branchChar c = true -> Js.isWhiteSpace c = false.
Proof.
  destruct c as [[] [] [] [] [] [] [] []]; vm_compute; congruence.
Qed.

Lemma toLowerCase_trimStart (s : string) :
  Js.toLowerCase (Js.trimStart s) = Js.trimStart (Js.toLowerCase s).
Proof.
  induction s as [|c s IH]; simpl; [reflexivity|].
  rewrite isWhiteSpace_lowerChar. destruct (Js.isWhiteSpace c); [exact IH | reflexivity].
Qed.

Lemma toLowerCase_trimEnd (s : string) :
  Js.toLowerCase (Js.trimEnd s) = Js.trimEnd (Js.toLowerCase s).
Proof.
  induction s as [|c s IH]; simpl; [reflexivity|].
  rewrite <- IH, isWhiteSpace_lowerChar.
  destruct (Js.trimEnd s) as [|d t]; simpl; [|reflexivity].
  destruct (Js.isWhiteSpace c); reflexivity.
Qed.

(** Lower-casing and trimming commute. *)
Lemma toLowerCase_trim (s : string) :
  Js.toLowerCase (Js.trim s) = Js.trim (Js.toLowerCase s).
Proof.
  unfold Js.trim. now rewrite toLowerCase_trimEnd, toLowerCase_trimStart.
Qed.

Lemma trimEnd_cons (c : ascii) (s : string) :
  Js.trimEnd (String c s)
  = match Js.trimEnd s with
    | EmptyString => if Js.isWhiteSpace c then EmptyString else String c EmptyString
    | t => String c t
    end.
Proof. reflexivity. Qed.

Lemma trimEnd_idempotent (s : string) : Js.trimEnd (Js.trimEnd s) = Js.trimEnd s.
Proof.
  induction s as [|c s IH]; [reflexivity|].
  rewrite trimEnd_cons.
  destruct (Js.trimEnd s) as [|d t] eqn:E.
  - destruct (Js.isWhiteSpace c) eqn:Hc; [reflexivity|].
    rewrite trimEnd_cons. cbn [Js.trimEnd]. now rewrite Hc.
  - rewrite trimEnd_cons, IH. reflexivity.
Qed.

Lemma trimStart_starts (s : string) :
  Js.trimStart s = ""
  \/ exists c t, Js.trimStart s = String c t /\ Js.isWhiteSpace c = false.
Proof.
  induction s as [|c s IH]; simpl; [now left|].
  destruct (Js.isWhiteSpace c) eqn:Hc; [exact IH|]. right. now exists c, s.
Qed.

Lemma trimEnd_keeps_head (c : ascii) (t : string) :
  Js.isWhiteSpace c = false -> exists t', Js.trimEnd (String c t) = String c t'.
Proof.
  intros Hc. simpl. destruct (Js.trimEnd t); rewrite ?Hc; eauto.
Qed.

(** Trimming twice is trimming once. *)
Lemma trim_idempotent (s : string) : Js.trim (Js.trim s) = Js.trim s.
Proof.
  unfold Js.trim.
  destruct (trimStart_starts s) as [E | [c [t [E Hc]]]]; rewrite E.
  - reflexivity.
  - destruct (trimEnd_keeps_head c t Hc) as [t' Et]. rewrite Et.
    cbn [Js.trimStart]. rewrite Hc, <- Et. apply trimEnd_idempotent.
Qed.

(** A string without white space is its own trimming. *)
Lemma trim_without_whiteSpace (s : string) :
  Js.allChars (fun c => negb (Js.isWhiteSpace c)) s = true -> Js.trim s = s.
Proof.
  intros H. unfold Js.trim.
  assert (Hstart : Js.trimStart s = s).
  { destruct s as [|c s]; [reflexivity|]. simpl in *.
    apply andb_true_iff in H. destruct H as [Hc _].
    apply negb_true_iff in Hc. now rewrite Hc. }
  rewrite Hstart. clear Hstart.
  induction s as [|c s IH]; simpl in *; [reflexivity|].
  apply andb_true_iff in H. destruct H as [Hc Hs].
  apply negb_true_iff in Hc. rewrite (IH Hs).
  destruct s; [now rewrite Hc | reflexivity].
Qed.

Lemma allChars_impl (p q : ascii -> bool) (s : string) :
  (forall c, p c = true -> q c = true) ->
  Js.allChars p s = true -> Js.allChars q s = true.
Proof.
  intros Hpq. induction s as [|c s IH]; simpl; [reflexivity|].
  rewrite !andb_true_iff. intros [Hc Hs]. auto.
Qed.

(** X1. A branch name that passes the pattern of [handleSubmit] is not
    empty and holds no white space, so that trimming leaves it as it is:
    the ref [handleSubmit] looks up, [heads/] followed by the trimmed
    name, is the ref of the very name [handleCommitProceed] hands to
    [onPush]. *)
Theorem valid_branch_name_is_trimmed (env : Env) (u : GitHubUserResponse.t)
    (snap : State) :
  Js.branchPattern_test (branchName snap) = true ->
  Js.trim (branchName snap) = branchName snap
  /\ branchName snap <> ""
  /\ refAnswer env u snap
     = git_getRef env (GitHubUserResponse.login u) (repoName snap)
                  ("heads/" ++ branchName snap).
Proof.
  unfold Js.branchPattern_test. rewrite andb_true_iff, truthy_true.
  intros [Hne Hall].
  assert (Htrim : Js.trim (branchName snap) = branchName snap).
  { apply trim_without_whiteSpace. revert Hall. apply allChars_impl.
    intros c Hc. apply negb_true_iff. now apply branchChar_not_whiteSpace. }
  repeat split; try assumption.
  unfold refAnswer. now rewrite Htrim.
Qed.

Lemma valid_branch_name_witness :
  Js.trim (branchName submit_private) = branchName submit_private
  /\ branchName submit_private <> ""
  /\ refAnswer existing_repo_env octocat submit_private
     = git_getRef existing_repo_env (GitHubUserResponse.login octocat)
                  (repoName submit_private)
                  ("heads/" ++ branchName submit_private).
Proof.
  apply (valid_branch_name_is_trimmed existing_repo_env octocat submit_private).
  reflexivity.
Defined.

(** ** More on the submission workflow *)

Lemma is404_false_iff (e : JsError) : is404 e = false <-> status e <> Some 404.
Proof.
  rewrite <- is404_iff. destruct (is404 e); split; congruence.
Qed.

(** Opening [handleSubmit] on valid input up to the answers of the two
    look-ups. *)
Ltac open_submit Hvalid :=
  rewrite (handleSubmit_valid _ _ _ _ _ _ _ Hvalid);
  unfold checkExistence, repoAnswer, refAnswer, repoLookup, branchLookup in *;
  step_run.

(** X2. When a look-up of [handleSubmit] fails otherwise than by 404, no
    dialog is opened: the run ends normally with the loading flag cleared
    and the error's message, or 'Failed to check repository.' when it has
    none, as the error message; every other cell is as before. *)
Theorem failed_check_is_reported
    (env : Env) (tk : string) (u : GitHubUserResponse.t)
    (snap cur : State) (l : SubmitLocals) (log : list Event) (e : JsError) :
  validInput env tk u snap ->
  checkFails env u snap e ->
  exists l' log',
    run (handleSubmit env snap) l cur log
    = Some (Fulfilled tt,
            mkWorld l'
              (setErrorMessage (Js.or_else (message e) "Failed to check repository.")
                 (setIsLoading false cur))
              log').
Proof.
  intros Hvalid Hfails. unfold checkFails in Hfails. open_submit Hvalid.
  cells cur.
  destruct Hfails as [[Hrepo He] | [[repo Hrepo] [Href He]]];
    apply is404_false_iff in He.
  - rewrite Hrepo, He. cbn. eexists _, _. reflexivity.
  - rewrite Hrepo, Href, He. cbn. rewrite He. cbn. eexists _, _. reflexivity.
Qed.

Lemma failed_check_witness :
  exists l' log',
    run (handleSubmit server_error_env submit_private) submitLocals0 submit_private []
    = Some (Fulfilled tt,
            mkWorld l'
              (setErrorMessage (Js.or_else (Some "Server Error")
                                           "Failed to check repository.")
                 (setIsLoading false submit_private))
              log').
Proof.
  apply (failed_check_is_reported server_error_env "ghp_0123456789" octocat
           submit_private submit_private submitLocals0 []
           (mkError (Some 500) (Some "Server Error"))).
  - repeat split; try reflexivity; vm_compute; discriminate.
  - left. split; [reflexivity | discriminate].
Defined.

(** X3. On valid input [handleSubmit] never throws and calls the API in a
    fixed order: the repository is looked up once, with the stored token
    and the login as owner, and the branch ref is looked up after it
    exactly when the repository was found; nothing else is called. *)
Theorem handleSubmit_looks_branch_up_in_found_repository_only
    (env : Env) (tk : string) (u : GitHubUserResponse.t)
    (snap cur : State) (l : SubmitLocals) (log : list Event) :
  validInput env tk u snap ->
  exists w',
    run (handleSubmit env snap) l cur log = Some (Fulfilled tt, w')
    /\ events w'
       = (log ++ repoLookup tk u snap
              :: match repoAnswer env u snap with
                 | Fulfilled _ => [branchLookup tk u snap]
                 | Rejected _ => []
                 end)%list.
Proof.
  intros Hvalid. open_submit Hvalid.
  destruct (repos_get env _ _) as [repo|e];
    [destruct (git_getRef env _ _ _) as [[]|e]; [|destruct (is404 e) eqn:He]
    |destruct (is404 e) eqn:He];
    cbn; rewrite ?He; cbn; rewrite ?He; cbn;
    try destruct (negb (Bool.eqb _ _));
    cbn; eexists; (split; [reflexivity | cbn; rewrite <- ?app_assoc; reflexivity]).
Qed.

Lemma handleSubmit_calls_witness :
  exists w',
    run (handleSubmit existing_repo_env submit_private) submitLocals0 submit_private []
    = Some (Fulfilled tt, w')
    /\ events w'
       = ([] ++ repoLookup "ghp_0123456789" octocat submit_private
              :: match repoAnswer existing_repo_env octocat submit_private with
                 | Fulfilled _ => [branchLookup "ghp_0123456789" octocat submit_private]
                 | Rejected _ => []
                 end)%list.
Proof.
  apply (handleSubmit_looks_branch_up_in_found_repository_only
           existing_repo_env "ghp_0123456789" octocat).
  repeat split; try reflexivity; vm_compute; discriminate.
Defined.

(** X4. Every submit whose checks succeed leads to the commit-message
    dialog: either [handleSubmit] opens it, or it opens the confirmation
    dialog and [handleConfirmProceed] then closes that one and opens the
    commit-message dialog, without any further call. *)
Theorem submit_leads_to_commit_dialog
    (env : Env) (tk : string) (u : GitHubUserResponse.t)
    (snap cur : State) (l : SubmitLocals) (log : list Event) :
  validInput env tk u snap ->
  checksSucceed env u snap ->
  showConfirmDialog cur = false ->
  exists w',
    run (handleSubmit env snap) l cur log = Some (Fulfilled tt, w')
    /\ (showConfirmDialog (ui w') = false /\ showCommitDialog (ui w') = true
        \/ showConfirmDialog (ui w') = true
           /\ exists s'',
                run handleConfirmProceed tt (ui w') (events w')
                = Some (Fulfilled tt, mkWorld tt s'' (events w'))
                /\ showConfirmDialog s'' = false
                /\ showCommitDialog s'' = true).
Proof.
  intros Hvalid Hchecks Hconfirm.
  assert (Hproceed : forall (s : State) (lg : list Event),
             exists s'',
               run handleConfirmProceed tt s lg = Some (Fulfilled tt, mkWorld tt s'' lg)
               /\ showConfirmDialog s'' = false /\ showCommitDialog s'' = true).
  { intros s lg. cells s. eexists. split; [reflexivity|]. split; reflexivity. }
  unfold checksSucceed, notFound in Hchecks. open_submit Hvalid.
  cells cur. cbn in Hconfirm. subst.
  destruct Hchecks as [[e [Hrepo He]] | [repo [Hrepo [Href | [e [Href He]]]]]];
    rewrite Hrepo.
  - apply is404_iff in He. rewrite He. cbn.
    eexists. split; [reflexivity|]. left. split; reflexivity.
  - rewrite Href. cbn.
    eexists. split; [reflexivity|]. right. split; [reflexivity|]. apply Hproceed.
  - rewrite Href. apply is404_iff in He. rewrite He. cbn.
    unfold visibilityChanges. cbn. destruct (negb (Bool.eqb _ _)); cbn.
    + eexists. split; [reflexivity|]. right. split; [reflexivity|]. apply Hproceed.
    + eexists. split; [reflexivity|]. left. split; reflexivity.
Qed.

Lemma submit_leads_to_commit_dialog_witness :
  exists w',
    run (handleSubmit existing_repo_env submit_private) submitLocals0 submit_private []
    = Some (Fulfilled tt, w')
    /\ (showConfirmDialog (ui w') = false /\ showCommitDialog (ui w') = true
        \/ showConfirmDialog (ui w') = true
           /\ exists s'',
                run handleConfirmProceed tt (ui w') (events w')
                = Some (Fulfilled tt, mkWorld tt s'' (events w'))
                /\ showConfirmDialog s'' = false
                /\ showCommitDialog s'' = true).
Proof.
  apply (submit_leads_to_commit_dialog existing_repo_env "ghp_0123456789" octocat).
  - repeat split; try reflexivity; vm_compute; discriminate.
  - right. exists (repoNamed "my-app"). split; [reflexivity|].
    right. eexists. split; reflexivity.
  - reflexivity.
Defined.

(** ** More on the push *)

(** X5. Without a stored connection, or with one that has no user,
    [handleCommitProceed] never calls [onPush]: reading the login throws,
    the message of that error becomes the error message, the commit-message
    dialog is closed and the loading flag is cleared; the success dialog
    is left as it was. *)
Theorem push_without_connection_calls_nothing
    (env : Env) (snap cur : State) (log : list Event) :
  getLocalStorage env = None
  \/ (exists connection, getLocalStorage env = Some connection
                         /\ Connection.user connection = None) ->
  exists msg,
    msg <> ""
    /\ run (handleCommitProceed env snap) tt cur log
       = Some (Fulfilled tt,
               mkWorld tt
                 (setIsLoading false
                    (setErrorMessage msg (setShowCommitDialog false cur)))
                 log).
Proof.
  intros [Hnone | [connection [Hsome Huser]]];
    unfold handleCommitProceed; rewrite ?Hnone, ?Hsome, ?Huser;
    step_run; cells cur; cbn; eexists; (split; [|reflexivity]); discriminate.
Qed.

Lemma push_without_connection_witness :
  exists msg,
    msg <> ""
    /\ run (handleCommitProceed no_connection_env before_push) tt before_push []
       = Some (Fulfilled tt,
               mkWorld tt
                 (setIsLoading false
                    (setErrorMessage msg (setShowCommitDialog false before_push)))
                 []).
Proof.
  apply (push_without_connection_calls_nothing no_connection_env before_push before_push []).
  left. reflexivity.
Defined.


(** ** More on closing *)

(** X7. Closing through [handleClose] gives a pristine form: after
    [handleClose], the reset effect of the closed dialog and the branch
    lister run on the emptied repository name, every cell has its initial
    value except the loaded account, the repository lists and the loading
    flag, which are kept; [onClose] has been called once and nothing else. *)
Theorem close_gives_pristine_form
    (env : Env) (fetch : string -> string -> BranchesOutcome)
    (s : State) (log : list Event) :
  exists s1 s2,
    run handleClose tt s log = Some (Fulfilled tt, mkWorld tt s1 (log ++ [EvOnClose]))
    /\ run (resetEffect false) tt s1 (log ++ [EvOnClose])
       = Some (Fulfilled tt, mkWorld tt s2 (log ++ [EvOnClose]))
    /\ run (fetchBranches env fetch s2) tt s2 (log ++ [EvOnClose])
       = Some (Fulfilled tt,
               mkWorld tt
                 (setIsLoading (isLoading s)
                    (setFilteredRepos (filteredRepos s)
                       (setRecentRepos (recentRepos s)
                          (setUser (user s) initialState))))
                 (log ++ [EvOnClose])).
Proof.
  cells s. unfold handleClose, resetEffect. cbn [negb]. step_run. cbn.
  eexists _, _. split; [reflexivity|]. split; [reflexivity|].
  unfold fetchBranches. cbn. reflexivity.
Qed.

(** ** More on the comboboxes *)

Lemma lengthZ_nonneg {A} (l : list A) : 0 <= lengthZ l.
Proof. unfold lengthZ. lia. Qed.

Lemma lengthZ_zero {A} (l : list A) : lengthZ l = 0 <-> l = [].
Proof.
  unfold lengthZ. destruct l; simpl; split; try reflexivity; try discriminate; lia.
Qed.

Lemma lengthZ_app {A} (l1 l2 : list A) : lengthZ (l1 ++ l2) = lengthZ l1 + lengthZ l2.
Proof. unfold lengthZ. rewrite length_app. lia. Qed.

Lemma lengthZ_map {A B} (f : A -> B) (l : list A) : lengthZ (map f l) = lengthZ l.
Proof. unfold lengthZ. now rewrite length_map. Qed.

(** The rows of an open repository dropdown, by cases. *)
Lemma repoDropdown_rows (s : State) :
  isRepoDropdownOpen s = true ->
  repoDropdown s
  = Some (if (lengthZ (filteredReposList s) =? 0) && negb (showCreateNewRepo s)
          then [RowNoneFound]
          else (map (fun repo => RowOption (GitHubRepo.name repo)) (filteredReposList s)
                ++ (if showCreateNewRepo s
                    then [RowCreateNew (Js.trim (repoSearchQuery s))]
                    else []))%list).
Proof. intros H. unfold repoDropdown. now rewrite H. Qed.

Lemma branchDropdown_rows (s : State) :
  isBranchDropdownOpen s = true -> repoName s <> "" ->
  branchDropdown s
  = Some (if (lengthZ (filteredBranchesList s) =? 0) && negb (showCreateNewBranch s)
          then [RowNoneFound]
          else (map RowOption (filteredBranchesList s)
                ++ (if showCreateNewBranch s
                    then [RowCreateNew (Js.trim (branchSearchQuery s))]
                    else []))%list).
Proof.
  intros H Hrepo. apply truthy_true in Hrepo. unfold branchDropdown.
  now rewrite H, Hrepo.
Qed.

Lemma In_RowNoneFound_rows {A} (f : A -> string) (l : list A) (extra : list Row) :
  (forall r, In r extra -> r <> RowNoneFound) ->
  ~ In RowNoneFound (map (fun x => RowOption (f x)) l ++ extra).
Proof.
  intros Hextra Hin. apply in_app_or in Hin. destruct Hin as [Hin|Hin].
  - apply in_map_iff in Hin. destruct Hin as [x [Hx _]]. discriminate.
  - exact (Hextra _ Hin eq_refl).
Qed.

(** The shape of the rows of a dropdown over [n] options, with or without
    the "create new" row, against the bound of the arrow keys. *)
Lemma rows_against_max {A} (f : A -> string) (l : list A) (create : bool)
    (label : string) :
  let max := if create then lengthZ l else lengthZ l - 1 in
  let rows := if (lengthZ l =? 0) && negb create
              then [RowNoneFound]
              else (map (fun x => RowOption (f x)) l
                    ++ (if create then [RowCreateNew label] else []))%list in
  (max = -1 /\ rows = [RowNoneFound])
  \/ (0 <= max /\ lengthZ rows = max + 1 /\ ~ In RowNoneFound rows).
Proof.
  cbv zeta. pose proof (lengthZ_nonneg l) as Hl.
  destruct create; cbn [negb]; rewrite ?andb_false_r, ?andb_true_r.
  - right. rewrite lengthZ_app, lengthZ_map. split; [lia|]. split; [reflexivity|].
    apply In_RowNoneFound_rows. intros r [<-|[]]. discriminate.
  - destruct (Z.eqb_spec (lengthZ l) 0) as [E|E].
    + left. split; [lia | reflexivity].
    + right. rewrite lengthZ_app, lengthZ_map. split; [lia|].
      split; [cbn; unfold lengthZ; simpl; lia|].
      apply In_RowNoneFound_rows. intros r [].
Qed.

(** X8. The arrow keys range over exactly the rows an open dropdown
    renders: either there is nothing to choose, the one row rendered is
    "No ... found." and [max] is -1, or no such row is rendered and the
    number of rows is [max + 1].  In both comboboxes. *)
Theorem arrow_range_is_the_rendered_rows (s : State) :
  (isRepoDropdownOpen s = true ->
   exists rows,
     repoDropdown s = Some rows
     /\ ((repoMax s = -1 /\ rows = [RowNoneFound])
         \/ (0 <= repoMax s /\ lengthZ rows = repoMax s + 1
             /\ ~ In RowNoneFound rows)))
  /\ (isBranchDropdownOpen s = true -> repoName s <> "" ->
      exists rows,
        branchDropdown s = Some rows
        /\ ((branchMax s = -1 /\ rows = [RowNoneFound])
            \/ (0 <= branchMax s /\ lengthZ rows = branchMax s + 1
                /\ ~ In RowNoneFound rows))).
Proof.
  split.
  - intros Hopen. eexists. split; [exact (repoDropdown_rows s Hopen)|].
    exact (rows_against_max GitHubRepo.name (filteredReposList s)
             (showCreateNewRepo s) (Js.trim (repoSearchQuery s))).
  - intros Hopen Hrepo. eexists. split; [exact (branchDropdown_rows s Hopen Hrepo)|].
    pose proof (rows_against_max (fun b : string => b) (filteredBranchesList s)
                  (showCreateNewBranch s) (Js.trim (branchSearchQuery s))) as H.
    exact H.
Qed.

Lemma arrow_range_witness :
  (exists rows,
     repoDropdown typed_bolt = Some rows
     /\ ((repoMax typed_bolt = -1 /\ rows = [RowNoneFound])
         \/ (0 <= repoMax typed_bolt /\ lengthZ rows = repoMax typed_bolt + 1
             /\ ~ In RowNoneFound rows)))
  /\ (exists rows,
        branchDropdown typed_Main = Some rows
        /\ ((branchMax typed_Main = -1 /\ rows = [RowNoneFound])
            \/ (0 <= branchMax typed_Main /\ lengthZ rows = branchMax typed_Main + 1
                /\ ~ In RowNoneFound rows))).
Proof.
  split.
  - apply (proj1 (arrow_range_is_the_rendered_rows typed_bolt)). reflexivity.
  - apply (proj2 (arrow_range_is_the_rendered_rows typed_Main)).
    + reflexivity.
    + vm_compute. discriminate.
Defined.

Lemma at_index_nonneg {A} (l : list A) (i : Z) (x : A) :
  at_index l i = Some x -> 0 <= i < lengthZ l /\ nth_error l (Z.to_nat i) = Some x.
Proof.
  unfold at_index, lengthZ. destruct (Z.ltb_spec i 0); [discriminate|].
  intros Hx. split; [|exact Hx].
  assert (Z.to_nat i < List.length l)%nat by (apply nth_error_Some; congruence). lia.
Qed.

Lemma at_index_in_range {A} (l : list A) (i : Z) :
  0 <= i < lengthZ l -> exists x, at_index l i = Some x.
Proof.
  unfold at_index, lengthZ. intros Hi.
  destruct (Z.ltb_spec i 0); [lia|].
  destruct (nth_error l (Z.to_nat i)) as [x|] eqn:E; [now exists x|].
  apply nth_error_None in E. lia.
Qed.

(** Which row of a dropdown over the options [l] stands at index [i]. *)
Lemma at_index_rows {A} (f : A -> string) (l : list A) (create : bool)
    (label : string) (i : Z) (row : Row) :
  at_index (map (fun x => RowOption (f x)) l
            ++ (if create then [RowCreateNew label] else []))%list i = Some row ->
  (0 <= i < lengthZ l
   /\ exists x, at_index l i = Some x /\ row = RowOption (f x))
  \/ (i = lengthZ l /\ create = true /\ row = RowCreateNew label).
Proof.
  intros Hrow. apply at_index_nonneg in Hrow. destruct Hrow as [Hi Hnth].
  rewrite lengthZ_app, lengthZ_map in Hi.
  destruct (Z.lt_ge_cases i (lengthZ l)) as [Hlt|Hge].
  - left. split; [lia|].
    rewrite nth_error_app1 in Hnth
      by (rewrite length_map; unfold lengthZ in Hlt; lia).
    rewrite nth_error_map in Hnth.
    destruct (at_index_in_range l i ltac:(lia)) as [x Hx].
    exists x. split; [exact Hx|].
    apply at_index_nonneg in Hx. destruct Hx as [_ Hx].
    rewrite Hx in Hnth. simpl in Hnth. congruence.
  - right. destruct create; cbn [lengthZ List.length] in Hi.
    + assert (i = lengthZ l) by (unfold lengthZ in *; simpl in Hi; lia).
      split; [assumption|]. split; [reflexivity|].
      rewrite nth_error_app2 in Hnth
        by (rewrite length_map; unfold lengthZ in *; lia).
      rewrite length_map in Hnth.
      replace (Z.to_nat i - List.length l)%nat with 0%nat in Hnth
        by (unfold lengthZ in *; lia).
      simpl in Hnth. congruence.
    + unfold lengthZ in *. simpl in Hi. lia.
Qed.

(** X9. Enter in the open repository combobox chooses the row that is
    rendered at the focused index: for the row of a repository its name
    becomes the repository name, for the "create new" row the trimmed
    query does; the dropdown closes and the query is emptied.  On the row
    "No repositories found." Enter does nothing.  Nothing is called. *)
Theorem enter_chooses_focused_repo_row
    (snap cur : State) (log : list Event) (rows : list Row) (row : Row) :
  isRepoDropdownOpen snap = true ->
  repoDropdown snap = Some rows ->
  at_index rows (focusedRepoIndex snap) = Some row ->
  run (handleRepoKeyDown "Enter" snap) tt cur log
  = Some (Fulfilled tt,
          mkWorld tt
            match row with
            | RowOption label | RowCreateNew label =>
                setRepoSearchQuery "" (setIsRepoDropdownOpen false (setRepoName label cur))
            | RowNoneFound => cur
            end
            log).
Proof.
  intros Hopen Hrows Hrow.
  rewrite (repoDropdown_rows snap Hopen) in Hrows. injection Hrows as <-.
  unfold handleRepoKeyDown. rewrite Hopen. cbn [negb String.eqb Ascii.eqb Bool.eqb].
  destruct ((lengthZ (filteredReposList snap) =? 0) && negb (showCreateNewRepo snap))
    eqn:Hnone.
  - apply andb_true_iff in Hnone. destruct Hnone as [Hlen Hcreate].
    apply Z.eqb_eq in Hlen. apply negb_true_iff in Hcreate.
    apply at_index_nonneg in Hrow. destruct Hrow as [Hi Hnth].
    assert (Hzero : focusedRepoIndex snap = 0) by (cbn in Hi; unfold lengthZ in Hi; simpl in Hi; lia).
    rewrite Hzero in *. simpl in Hnth. injection Hnth as <-.
    rewrite Hlen, Hcreate. reflexivity.
  - apply at_index_rows in Hrow.
    destruct Hrow as [[Hi [repo [Hrepo ->]]] | [Hi [Hcreate ->]]].
    + assert (H1 : (focusedRepoIndex snap >=? 0) = true) by (apply Z.geb_le; lia).
      assert (H2 : (focusedRepoIndex snap <? lengthZ (filteredReposList snap)) = true)
        by (apply Z.ltb_lt; lia).
      rewrite H1, H2, Hrepo. reflexivity.
    + pose proof (lengthZ_nonneg (filteredReposList snap)).
      assert (H2 : (focusedRepoIndex snap <? lengthZ (filteredReposList snap)) = false)
        by (apply Z.ltb_ge; lia).
      rewrite H2, andb_false_r, Hcreate.
      rewrite (proj2 (Z.eqb_eq _ _) Hi). reflexivity.
Qed.

Lemma enter_chooses_focused_repo_row_witness :
  run (handleRepoKeyDown "Enter" (setFocusedRepoIndex 1 typed_bolt)) tt
      (setFocusedRepoIndex 1 typed_bolt) []
  = Some (Fulfilled tt,
          mkWorld tt
            match RowCreateNew "bolt" with
            | RowOption label | RowCreateNew label =>
                setRepoSearchQuery ""
                  (setIsRepoDropdownOpen false
                     (setRepoName label (setFocusedRepoIndex 1 typed_bolt)))
            | RowNoneFound => setFocusedRepoIndex 1 typed_bolt
            end
            []).
Proof.
  apply (enter_chooses_focused_repo_row
           (setFocusedRepoIndex 1 typed_bolt) (setFocusedRepoIndex 1 typed_bolt) []
           [RowOption "bolt.diy"; RowCreateNew "bolt"]);
    reflexivity.
Defined.

(** Enter in the open branch combobox, by the row at the focused index. *)
Lemma handleBranchKeyDown_Enter_on_row
    (snap cur : State) (log : list Event) (rows : list Row) (row : Row) :
  isBranchDropdownOpen snap = true ->
  repoName snap <> "" ->
  branchDropdown snap = Some rows ->
  at_index rows (focusedBranchIndex snap) = Some row ->
  run (handleBranchKeyDown "Enter" snap) tt cur log
  = Some (Fulfilled tt,
          mkWorld tt
            match row with
            | RowOption label | RowCreateNew label =>
                setIsBranchDropdownOpen false
                  (setBranchSearchQuery label (setBranchName label cur))
            | RowNoneFound => cur
            end
            log).
Proof.
  intros Hopen Hname Hrows Hrow.
  rewrite (branchDropdown_rows snap Hopen Hname) in Hrows. injection Hrows as <-.
  unfold handleBranchKeyDown. rewrite Hopen. cbn [negb String.eqb Ascii.eqb Bool.eqb].
  destruct ((lengthZ (filteredBranchesList snap) =? 0) && negb (showCreateNewBranch snap))
    eqn:Hnone.
  - apply andb_true_iff in Hnone. destruct Hnone as [Hlen Hcreate].
    apply Z.eqb_eq in Hlen. apply negb_true_iff in Hcreate.
    apply at_index_nonneg in Hrow. destruct Hrow as [Hi Hnth].
    assert (Hzero : focusedBranchIndex snap = 0) by (cbn in Hi; unfold lengthZ in Hi; simpl in Hi; lia).
    rewrite Hzero in *. simpl in Hnth. injection Hnth as <-.
    rewrite Hlen, Hcreate. reflexivity.
  - apply (at_index_rows (fun b : string => b)) in Hrow.
    destruct Hrow as [[Hi [b [Hb ->]]] | [Hi [Hcreate ->]]].
    + assert (H1 : (focusedBranchIndex snap >=? 0) = true) by (apply Z.geb_le; lia).
      assert (H2 : (focusedBranchIndex snap <? lengthZ (filteredBranchesList snap)) = true)
        by (apply Z.ltb_lt; lia).
      rewrite H1, H2, Hb. reflexivity.
    + pose proof (lengthZ_nonneg (filteredBranchesList snap)).
      assert (H2 : (focusedBranchIndex snap <? lengthZ (filteredBranchesList snap)) = false)
        by (apply Z.ltb_ge; lia).
      rewrite H2, andb_false_r, Hcreate.
      rewrite (proj2 (Z.eqb_eq _ _) Hi). reflexivity.
Qed.

(** X10. Enter in the open branch combobox chooses the row rendered at the
    focused index: its label, a branch name or for the "create new" row
    the trimmed query, becomes both the branch name and the text of the
    input, and the dropdown closes.  On the row "No branches found." Enter
    does nothing.  Nothing is called. *)
Theorem enter_chooses_focused_branch_row
    (snap cur : State) (log : list Event) (rows : list Row) (row : Row) :
  isBranchDropdownOpen snap = true ->
  repoName snap <> "" ->
  branchDropdown snap = Some rows ->
  at_index rows (focusedBranchIndex snap) = Some row ->
  run (handleBranchKeyDown "Enter" snap) tt cur log
  = Some (Fulfilled tt,
          mkWorld tt
            match row with
            | RowOption label | RowCreateNew label =>
                setIsBranchDropdownOpen false
                  (setBranchSearchQuery label (setBranchName label cur))
            | RowNoneFound => cur
            end
            log).
Proof. exact (handleBranchKeyDown_Enter_on_row snap cur log rows row). Qed.

Lemma enter_chooses_focused_branch_row_witness :
  run (handleBranchKeyDown "Enter" open_branches) tt open_branches []
  = Some (Fulfilled tt,
          mkWorld tt
            match RowOption "release" with
            | RowOption label | RowCreateNew label =>
                setIsBranchDropdownOpen false
                  (setBranchSearchQuery label (setBranchName label open_branches))
            | RowNoneFound => open_branches
            end
            []).
Proof.
  apply (enter_chooses_focused_branch_row open_branches open_branches []
           [RowOption "release"; RowCreateNew "rel"]).
  - reflexivity.
  - vm_compute. discriminate.
  - reflexivity.
  - reflexivity.
Defined.

(** X11. Enter with no row focused (index -1) chooses the "create new" row
    when that is the only row rendered, and otherwise does nothing: with
    options listed, a row has to be focused first.  In both comboboxes. *)
Theorem enter_without_focus (snap cur : State) (log : list Event) :
  (isRepoDropdownOpen snap = true ->
   focusedRepoIndex snap = -1 ->
   run (handleRepoKeyDown "Enter" snap) tt cur log
   = Some (Fulfilled tt,
           mkWorld tt
             match repoDropdown snap with
             | Some [RowCreateNew label] =>
                 setRepoSearchQuery ""
                   (setIsRepoDropdownOpen false (setRepoName label cur))
             | _ => cur
             end
             log))
  /\ (isBranchDropdownOpen snap = true ->
      repoName snap <> "" ->
      focusedBranchIndex snap = -1 ->
      run (handleBranchKeyDown "Enter" snap) tt cur log
      = Some (Fulfilled tt,
              mkWorld tt
                match branchDropdown snap with
                | Some [RowCreateNew label] =>
                    setIsBranchDropdownOpen false
                      (setBranchSearchQuery label (setBranchName label cur))
                | _ => cur
                end
                log)).
Proof.
  split.
  - intros Hopen Hfocus. rewrite (repoDropdown_rows snap Hopen).
    unfold handleRepoKeyDown. rewrite Hopen, Hfocus.
    cbn [negb String.eqb Ascii.eqb Bool.eqb].
    pose proof (lengthZ_nonneg (filteredReposList snap)) as Hlen.
    replace (-1 >=? 0) with false by reflexivity. cbn [andb].
    replace (-1 =? lengthZ (filteredReposList snap)) with false
      by (symmetry; apply Z.eqb_neq; lia).
    rewrite andb_false_r.
    destruct (showCreateNewRepo snap); cbn [andb negb];
      rewrite ?andb_false_r, ?andb_true_r.
    + destruct (Z.eqb_spec (lengthZ (filteredReposList snap)) 0) as [E|E].
      * apply lengthZ_zero in E. rewrite E. reflexivity.
      * destruct (filteredReposList snap) as [|r [|r' l]]; try reflexivity.
        exfalso. apply E. reflexivity.
    + destruct (lengthZ (filteredReposList snap) =? 0); [reflexivity|].
      rewrite app_nil_r.
      destruct (filteredReposList snap) as [|r [|r' l]]; reflexivity.
  - intros Hopen Hname Hfocus. rewrite (branchDropdown_rows snap Hopen Hname).
    unfold handleBranchKeyDown. rewrite Hopen, Hfocus.
    cbn [negb String.eqb Ascii.eqb Bool.eqb].
    pose proof (lengthZ_nonneg (filteredBranchesList snap)) as Hlen.
    replace (-1 >=? 0) with false by reflexivity. cbn [andb].
    replace (-1 =? lengthZ (filteredBranchesList snap)) with false
      by (symmetry; apply Z.eqb_neq; lia).
    rewrite andb_false_r.
    destruct (showCreateNewBranch snap); cbn [andb negb];
      rewrite ?andb_false_r, ?andb_true_r.
    + destruct (Z.eqb_spec (lengthZ (filteredBranchesList snap)) 0) as [E|E].
      * apply lengthZ_zero in E. rewrite E. reflexivity.
      * destruct (filteredBranchesList snap) as [|r [|r' l]]; try reflexivity.
        exfalso. apply E. reflexivity.
    + destruct (lengthZ (filteredBranchesList snap) =? 0); [reflexivity|].
      rewrite app_nil_r.
      destruct (filteredBranchesList snap) as [|r [|r' l]]; reflexivity.
Qed.

Lemma enter_without_focus_witness :
  run (handleRepoKeyDown "Enter" typed_bolt) tt typed_bolt []
  = Some (Fulfilled tt,
          mkWorld tt
            match repoDropdown typed_bolt with
            | Some [RowCreateNew label] =>
                setRepoSearchQuery ""
                  (setIsRepoDropdownOpen false (setRepoName label typed_bolt))
            | _ => typed_bolt
            end
            [])
  /\ run (handleBranchKeyDown "Enter" typed_Main) tt typed_Main []
     = Some (Fulfilled tt,
             mkWorld tt
               match branchDropdown typed_Main with
               | Some [RowCreateNew label] =>
                   setIsBranchDropdownOpen false
                     (setBranchSearchQuery label (setBranchName label typed_Main))
               | _ => typed_Main
               end
               []).
Proof.
  split.
  - apply (proj1 (enter_without_focus typed_bolt typed_bolt [])); reflexivity.
  - apply (proj2 (enter_without_focus typed_Main typed_Main [])).
    + reflexivity.
    + vm_compute. discriminate.
    + reflexivity.
Defined.

(** X12. On an index inside the rows, ArrowUp undoes ArrowDown and
    ArrowDown undoes ArrowUp, in both comboboxes: the two keys walk the
    same cycle in opposite directions. *)
Theorem arrow_keys_undo_each_other (snap cur : State) :
  (isRepoDropdownOpen snap = true ->
   0 <= focusedRepoIndex cur <= repoMax snap ->
   (exists down,
      repoIndexAfter "ArrowDown" snap cur = Some down
      /\ repoIndexAfter "ArrowUp" snap (setFocusedRepoIndex down cur)
         = Some (focusedRepoIndex cur))
   /\ (exists up,
         repoIndexAfter "ArrowUp" snap cur = Some up
         /\ repoIndexAfter "ArrowDown" snap (setFocusedRepoIndex up cur)
            = Some (focusedRepoIndex cur)))
  /\ (isBranchDropdownOpen snap = true ->
      0 <= focusedBranchIndex cur <= branchMax snap ->
      (exists down,
         branchIndexAfter "ArrowDown" snap cur = Some down
         /\ branchIndexAfter "ArrowUp" snap (setFocusedBranchIndex down cur)
            = Some (focusedBranchIndex cur))
      /\ (exists up,
            branchIndexAfter "ArrowUp" snap cur = Some up
            /\ branchIndexAfter "ArrowDown" snap (setFocusedBranchIndex up cur)
               = Some (focusedBranchIndex cur))).
Proof.
  assert (Hdu : forall max prev, 0 <= prev <= max -> arrowUp max (arrowDown max prev) = prev).
  { intros max prev H. unfold arrowUp, arrowDown.
    destruct (Z.gtb_spec (prev + 1) max);
      [destruct (Z.ltb_spec (0 - 1) 0) | destruct (Z.ltb_spec (prev + 1 - 1) 0)]; lia. }
  assert (Hud : forall max prev, 0 <= prev <= max -> arrowDown max (arrowUp max prev) = prev).
  { intros max prev H. unfold arrowUp, arrowDown.
    destruct (Z.ltb_spec (prev - 1) 0);
      [destruct (Z.gtb_spec (max + 1) max) | destruct (Z.gtb_spec (prev - 1 + 1) max)]; lia. }
  split; intros Hopen Hprev.
  - split;
      [exists (arrowDown (repoMax snap) (focusedRepoIndex cur))
      |exists (arrowUp (repoMax snap) (focusedRepoIndex cur))];
      unfold repoIndexAfter;
      rewrite !handleRepoKeyDown_ArrowDown, !handleRepoKeyDown_ArrowUp by exact Hopen;
      cells cur; cbn [ui focusedRepoIndex setFocusedRepoIndex] in Hprev |- *;
      rewrite ?Hdu, ?Hud by lia; split; reflexivity.
  - split;
      [exists (arrowDown (branchMax snap) (focusedBranchIndex cur))
      |exists (arrowUp (branchMax snap) (focusedBranchIndex cur))];
      unfold branchIndexAfter;
      rewrite !handleBranchKeyDown_ArrowDown, !handleBranchKeyDown_ArrowUp by exact Hopen;
      cells cur; cbn [ui focusedBranchIndex setFocusedBranchIndex] in Hprev |- *;
      rewrite ?Hdu, ?Hud by lia; split; reflexivity.
Qed.

Lemma arrow_keys_undo_witness :
  ((exists down,
      repoIndexAfter "ArrowDown" open_repos (setFocusedRepoIndex 1 open_repos) = Some down
      /\ repoIndexAfter "ArrowUp" open_repos
           (setFocusedRepoIndex down (setFocusedRepoIndex 1 open_repos))
         = Some (focusedRepoIndex (setFocusedRepoIndex 1 open_repos)))
   /\ (exists up,
         repoIndexAfter "ArrowUp" open_repos (setFocusedRepoIndex 1 open_repos) = Some up
         /\ repoIndexAfter "ArrowDown" open_repos
              (setFocusedRepoIndex up (setFocusedRepoIndex 1 open_repos))
            = Some (focusedRepoIndex (setFocusedRepoIndex 1 open_repos))))
  /\ ((exists down,
         branchIndexAfter "ArrowDown" open_branches open_branches = Some down
         /\ branchIndexAfter "ArrowUp" open_branches
              (setFocusedBranchIndex down open_branches)
            = Some (focusedBranchIndex open_branches))
      /\ (exists up,
            branchIndexAfter "ArrowUp" open_branches open_branches = Some up
            /\ branchIndexAfter "ArrowDown" open_branches
                 (setFocusedBranchIndex up open_branches)
               = Some (focusedBranchIndex open_branches))).
Proof.
  split.
  - apply (proj1 (arrow_keys_undo_each_other open_repos
                    (setFocusedRepoIndex 1 open_repos))).
    + reflexivity.
    + vm_compute. split; discriminate.
  - apply (proj2 (arrow_keys_undo_each_other open_branches open_branches)).
    + reflexivity.
    + vm_compute. split; discriminate.
Defined.

Lemma includes_refl (s : string) : Js.includes s s = true.
Proof.
  apply includes_iff. exists "", "". simpl.
  induction s as [|c s IH]; simpl; [reflexivity | now rewrite <- IH].
Qed.



(** With white space around the query both can fail together: "foo " over
    the repository foo lists nothing, as the raw query is not contained in
    the name, and offers no new repository, as the trimmed query equals
    the name. *)
Example untrimmed_query_finds_nothing :
  repoDropdown typed_foo_space = Some [RowNoneFound].
Proof. reflexivity. Qed.

Lemma CaseInsensitiveSubstring_empty (q : string) :
  CaseInsensitiveSubstring q "" -> q = "".
Proof.
  intros [pre [mid [post [H Hmid]]]].
  destruct pre; [|discriminate]. destruct mid; [|discriminate].
  destruct q; [reflexivity | discriminate].
Qed.

(** X14. The [filteredRepos] cell, computed by the effect on
    [recentRepos] and [repoSearchQuery], keeps exactly the repositories
    whose name, description or language contains the trimmed query with
    case ignored, in their original order; for a blank query it is the
    whole list.  Nothing else is written and nothing is called. *)
Theorem filterEffect_keeps_matches_in_any_field
    (snap cur : State) (log : list Event) :
  exists kept,
    run (filterEffect snap) tt cur log
    = Some (Fulfilled tt, mkWorld tt (setFilteredRepos kept cur) log)
    /\ (Js.trim (repoSearchQuery snap) <> "" ->
        Keeps (matchesAnyField (repoSearchQuery snap)) (recentRepos snap) kept)
    /\ (Js.trim (repoSearchQuery snap) = "" -> kept = recentRepos snap).
Proof.
  unfold filterEffect.
  destruct (Z.eqb_spec (lengthZ (recentRepos snap)) 0) as [E|E].
  - apply lengthZ_zero in E. exists []. split; [reflexivity|].
    rewrite E. split; [intros _; constructor | reflexivity].
  - destruct (Js.truthy (Js.trim (repoSearchQuery snap))) eqn:Hq; cbn [negb].
    + eexists. split; [reflexivity|]. apply truthy_true in Hq.
      split; [intros _ | intros H; contradiction].
      apply filter_Keeps. intros repo. unfold matchesAnyField.
      rewrite <- toLowerCase_trim, !orb_true_iff, includes_lower_iff.
      assert (Hfield : forall o : option string,
                 match o with
                 | Some d => Js.truthy d
                             && Js.includes (Js.toLowerCase d)
                                  (Js.toLowerCase (Js.trim (repoSearchQuery snap)))
                 | None => false
                 end = true
                 <-> exists d, o = Some d
                               /\ CaseInsensitiveSubstring (Js.trim (repoSearchQuery snap)) d).
      { intros [d|]; [|split; [discriminate | intros [d [H _]]; discriminate]].
        rewrite andb_true_iff, includes_lower_iff, truthy_true. split.
        - intros [_ H]. now exists d.
        - intros [d' [H Hsub]]. injection H as <-. split; [|exact Hsub].
          intros ->. now apply CaseInsensitiveSubstring_empty in Hsub. }
      rewrite !Hfield. tauto.
    + apply truthy_false in Hq. eexists. split; [reflexivity|].
      split; [intros H; contradiction | reflexivity].
Qed.

Lemma filterEffect_witness :
  exists kept,
    run (filterEffect typed_BO) tt typed_BO []
    = Some (Fulfilled tt, mkWorld tt (setFilteredRepos kept typed_BO) [])
    /\ Keeps (matchesAnyField (repoSearchQuery typed_BO)) (recentRepos typed_BO) kept.
Proof.
  destruct (filterEffect_keeps_matches_in_any_field typed_BO typed_BO [])
    as [kept [Hrun [Hkeeps _]]].
  exists kept. split; [exact Hrun|]. apply Hkeeps. vm_compute. discriminate.
Defined.

(** ** The branch lister *)

(** X15. [fetchBranches] never throws.  For a blank repository name the
    branch options become empty, whatever the API would answer.
    Otherwise, without
    stored credentials nothing is written, so the options of the
    repository chosen before stay; with credentials the options become the
    names of the fetched branches in the order of the answer, and empty
    whenever the request fails, is not ok, or its body does not parse or
    is not an array.  No other cell is written. *)
Theorem fetchBranches_options
    (env : Env) (fetch : string -> string -> BranchesOutcome)
    (snap cur : State) (log : list Event) :
  (Js.trim (repoName snap) = "" ->
   run (fetchBranches env fetch snap) tt cur log
   = Some (Fulfilled tt, mkWorld tt (setBranchOptions [] cur) log))
  /\ (Js.trim (repoName snap) <> "" ->
      credentials (getLocalStorage env) = None ->
      run (fetchBranches env fetch snap) tt cur log
      = Some (Fulfilled tt, mkWorld tt cur log))
  /\ (forall tk u,
        Js.trim (repoName snap) <> "" ->
        credentials (getLocalStorage env) = Some (tk, u) ->
        run (fetchBranches env fetch snap) tt cur log
        = Some (Fulfilled tt,
                mkWorld tt
                  (setBranchOptions
                     match fetch (branchesUrl (GitHubUserResponse.login u) (repoName snap))
                                 ("Bearer " ++ tk) with
                     | BranchesArray data => map GitHubBranch.name data
                     | _ => []
                     end
                     cur)
                  log)).
Proof.
  unfold fetchBranches. repeat split.
  - intros ->. reflexivity.
  - intros Hname Hcred. apply truthy_true in Hname. rewrite Hname, Hcred. reflexivity.
  - intros tk u Hname Hcred. apply truthy_true in Hname. rewrite Hname, Hcred.
    cbn [negb]. destruct (fetch _ _); reflexivity.
Qed.

Lemma fetchBranches_witness :
  run (fetchBranches push_env branches_of_my_app (setRepoName "" before_push))
      tt before_push []
  = Some (Fulfilled tt, mkWorld tt (setBranchOptions [] before_push) [])
  /\ run (fetchBranches no_connection_env branches_of_my_app before_push)
         tt before_push []
     = Some (Fulfilled tt, mkWorld tt before_push [])
  /\ run (fetchBranches push_env branches_of_my_app before_push) tt before_push []
     = Some (Fulfilled tt,
             mkWorld tt
               (setBranchOptions
                  match branches_of_my_app
                          (branchesUrl (GitHubUserResponse.login octocat)
                                       (repoName before_push))
                          ("Bearer " ++ "ghp_0123456789") with
                  | BranchesArray data => map GitHubBranch.name data
                  | _ => []
                  end
                  before_push)
               []).
Proof.
  split; [|split].
  - apply (proj1 (fetchBranches_options push_env branches_of_my_app
                    (setRepoName "" before_push) before_push [])).
    reflexivity.
  - apply (proj1 (proj2 (fetchBranches_options no_connection_env branches_of_my_app
                           before_push before_push []))).
    + vm_compute. discriminate.
    + reflexivity.
  - apply (proj2 (proj2 (fetchBranches_options push_env branches_of_my_app
                           before_push before_push []))).
    + vm_compute. discriminate.
    + reflexivity.
Defined.

Example branches_of_my_app_listed :
  option_map (fun r => branchOptions (ui (snd r)))
    (run (fetchBranches push_env branches_of_my_app before_push) tt before_push [])
  = Some ["main"; "release"].
Proof. reflexivity. Qed.

(** ** Choosing by click *)

(** X16. A name entered through the "create new" row is never refused as
    blank: when the row is rendered and clicked, the repository name
    becomes the trimmed query, which is not empty and stays so under the
    trimming of [handleSubmit]; the input shows the trimmed query and the
    dropdown is closed. *)
Theorem created_repo_name_is_not_blank (snap cur : State) (log : list Event) :
  showsCreateNew (repoDropdown snap) ->
  exists s',
    run (createNewRepoClick snap) tt cur log = Some (Fulfilled tt, mkWorld tt s' log)
    /\ repoName s' = Js.trim (repoSearchQuery snap)
    /\ repoSearchQuery s' = Js.trim (repoSearchQuery snap)
    /\ isRepoDropdownOpen s' = false
    /\ Js.trim (repoName s') <> "".
Proof.
  intros Hshown. apply repoDropdown_showsCreateNew in Hshown.
  destruct Hshown as [_ Hcreate]. apply showCreateNewRepo_iff in Hcreate.
  destruct Hcreate as [Hq _].
  unfold createNewRepoClick. step_run. cells cur.
  eexists. split; [reflexivity|].
  cbn [repoName repoSearchQuery isRepoDropdownOpen
       setRepoName setRepoSearchQuery setIsRepoDropdownOpen].
  repeat split. now rewrite trim_idempotent.
Qed.

Lemma created_repo_name_witness :
  exists s',
    run (createNewRepoClick typed_bolt) tt typed_bolt []
    = Some (Fulfilled tt, mkWorld tt s' [])
    /\ repoName s' = Js.trim (repoSearchQuery typed_bolt)
    /\ repoSearchQuery s' = Js.trim (repoSearchQuery typed_bolt)
    /\ isRepoDropdownOpen s' = false
    /\ Js.trim (repoName s') <> "".
Proof.
  apply (created_repo_name_is_not_blank typed_bolt typed_bolt []).
  exists [RowOption "bolt.diy"; RowCreateNew "bolt"], "bolt".
  split; [reflexivity | right; now left].
Defined.

(** X17. Emptying the repository input withdraws the choice: the
    repository name becomes empty, the branch lister then empties the
    branch options, whatever the API would answer, and no branch dropdown
    is rendered any more, even if it was open. *)
Theorem emptied_repo_input_withdraws_choice
    (env : Env) (fetch : string -> string -> BranchesOutcome)
    (cur : State) (log : list Event) :
  exists s1 s2,
    run (repoInputChange "") tt cur log = Some (Fulfilled tt, mkWorld tt s1 log)
    /\ run (fetchBranches env fetch s1) tt s1 log = Some (Fulfilled tt, mkWorld tt s2 log)
    /\ repoName s2 = "" /\ repoSearchQuery s2 = ""
    /\ isRepoDropdownOpen s2 = true
    /\ branchOptions s2 = []
    /\ branchDropdown s2 = None.
Proof.
  cells cur. unfold repoInputChange. step_run. cbn.
  eexists _, _. split; [reflexivity|].
  unfold fetchBranches. cbn. split; [reflexivity|].
  repeat split. unfold branchDropdown. cbn. now rewrite andb_false_r.
Qed.

(** X18. Emptying the branch input withdraws the branch: the branch name
    becomes empty, and a submit is then refused with 'Please enter a valid
    branch name.' before anything is called, whatever was chosen before. *)
Theorem emptied_branch_input_blocks_submit
    (env : Env) (cur : State) (l : SubmitLocals) (log : list Event) :
  credentials (getLocalStorage env) <> None ->
  Js.trim (repoName cur) <> "" ->
  exists s1,
    run (branchInputChange "") tt cur log = Some (Fulfilled tt, mkWorld tt s1 log)
    /\ branchName s1 = ""
    /\ run (handleSubmit env s1) l s1 log
       = stoppedWith "Please enter a valid branch name." l s1 log.
Proof.
  intros Hcred Hrepo. apply truthy_true in Hrepo.
  unfold branchInputChange. step_run. cells cur.
  cbn [repoName] in Hrepo.
  eexists. split; [reflexivity|]. split; [reflexivity|].
  unfold stoppedWith, handleSubmit.
  destruct (credentials (getLocalStorage env)) as [[tk u]|]; [|contradiction].
  cbn [repoName branchName setBranchName setBranchSearchQuery setIsBranchDropdownOpen].
  rewrite Hrepo. cbn [negb]. reflexivity.
Qed.

Lemma emptied_branch_input_witness :
  exists s1,
    run (branchInputChange "") tt submit_private []
    = Some (Fulfilled tt, mkWorld tt s1 [])
    /\ branchName s1 = ""
    /\ run (handleSubmit existing_repo_env s1) submitLocals0 s1 []
       = stoppedWith "Please enter a valid branch name." submitLocals0 s1 [].
Proof.
  apply (emptied_branch_input_blocks_submit existing_repo_env submit_private
           submitLocals0 []).
  - discriminate.
  - vm_compute. discriminate.
Defined.

(** X19. In the branch combobox the mouse and the keyboard agree: Enter on
    the focused row leaves the state the click on that row leaves, for
    the row of a branch and for the "create new" row. *)
Theorem branch_enter_agrees_with_click
    (snap cur : State) (log : list Event) (rows : list Row) (row : Row) :
  isBranchDropdownOpen snap = true ->
  repoName snap <> "" ->
  branchDropdown snap = Some rows ->
  at_index rows (focusedBranchIndex snap) = Some row ->
  match row with
  | RowOption label =>
      run (handleBranchKeyDown "Enter" snap) tt cur log
      = run (branchOptionClick label) tt cur log
  | RowCreateNew _ =>
      run (handleBranchKeyDown "Enter" snap) tt cur log
      = run (createNewBranchClick snap) tt cur log
  | RowNoneFound => True
  end.
Proof.
  intros Hopen Hname Hrows Hrow.
  pose proof (handleBranchKeyDown_Enter_on_row snap cur log rows row
                Hopen Hname Hrows Hrow) as Henter.
  destruct row as [|label|label]; [exact I| |]; rewrite Henter.
  - reflexivity.
  - rewrite (branchDropdown_rows snap Hopen Hname) in Hrows. injection Hrows as <-.
    assert (Hlabel : label = Js.trim (branchSearchQuery snap)).
    { destruct (_ && _) in Hrow.
      - apply at_index_nonneg in Hrow. destruct Hrow as [_ Hrow].
        destruct (Z.to_nat (focusedBranchIndex snap)) as [|[|n]]; simpl in Hrow; discriminate.
      - apply (at_index_rows (fun b : string => b)) in Hrow.
        destruct Hrow as [[_ [b [_ H]]] | [_ [_ H]]]; [discriminate|]. now injection H. }
    subst label. reflexivity.
Qed.

Lemma branch_enter_agrees_with_click_witness :
  run (handleBranchKeyDown "Enter" open_branches) tt open_branches []
  = run (branchOptionClick "release") tt open_branches [].
Proof.
  apply (branch_enter_agrees_with_click open_branches open_branches []
           [RowOption "release"; RowCreateNew "rel"] (RowOption "release")).
  - reflexivity.
  - vm_compute. discriminate.
  - reflexivity.
  - reflexivity.
Defined.

(** X20. A repository chosen by click stays listed: after the click its
    name is the repository name and the text of the input, the dropdown
    is closed, and the repository is among those the dropdown would list
    for that text. *)
Theorem clicked_repo_stays_listed
    (repo : GitHubRepo.t) (cur : State) (log : list Event) :
  In repo (recentRepos cur) ->
  exists s',
    run (repoOptionClick repo) tt cur log = Some (Fulfilled tt, mkWorld tt s' log)
    /\ repoName s' = GitHubRepo.name repo
    /\ repoSearchQuery s' = GitHubRepo.name repo
    /\ isRepoDropdownOpen s' = false
    /\ In repo (filteredReposList s').
Proof.
  intros Hin. unfold repoOptionClick. step_run. cells cur.
  eexists. split; [reflexivity|].
  unfold filteredReposList.
  cbn [repoName repoSearchQuery isRepoDropdownOpen recentRepos
       setRepoName setRepoSearchQuery setIsRepoDropdownOpen] in Hin |- *.
  repeat split.
  destruct (_ =? _)%string; [exact Hin|].
  apply filter_In. split; [exact Hin | apply includes_refl].
Qed.

Lemma clicked_repo_witness :
  exists s',
    run (repoOptionClick (repoNamed "bolt.diy")) tt typed_bolt []
    = Some (Fulfilled tt, mkWorld tt s' [])
    /\ repoName s' = GitHubRepo.name (repoNamed "bolt.diy")
    /\ repoSearchQuery s' = GitHubRepo.name (repoNamed "bolt.diy")
    /\ isRepoDropdownOpen s' = false
    /\ In (repoNamed "bolt.diy") (filteredReposList s').
Proof.
  apply (clicked_repo_stays_listed (repoNamed "bolt.diy") typed_bolt []).
  left. reflexivity.
Defined.

(** ** More on the repository lister *)

Section Lister.

Variable env : Env.
Variable token : string.

Lemma requestOf_pageRequest (q : nat) : requestOf token (pageRequest token q).
Proof. intros _. now exists q. Qed.

Lemma requestOf_other (ev : Event) : isPageRequest ev = false -> requestOf token ev.
Proof. intros H H'. congruence. Qed.

(** What the report of an HTTP error does: it ends normally, writes at
    most the [user] cell, which it empties, asks for no page and raises an
    error toast. *)
Lemma reportHttpError_effect httpStatus statusText remaining reset json
    (l : FetchLocals) (s : State) (log : list Event) :
  exists s' extra,
    reportHttpError env httpStatus statusText remaining reset json (mkWorld l s log)
    = Some (Fulfilled tt, mkWorld l s' (log ++ extra))
    /\ (s' = s \/ s' = setUser None s)
    /\ existsb isToastError extra = true
    /\ Forall (requestOf token) extra.
Proof.
  unfold reportHttpError.
  destruct (httpStatus =? 401).
  - destruct (getLocalStorage env); step_run.
    + eexists _, [_; _]. rewrite <- app_assoc. split; [reflexivity|].
      split; [now right|]. split; [reflexivity|].
      repeat constructor; now apply requestOf_other.
    + eexists _, [_]. split; [reflexivity|].
      split; [now left|]. split; [reflexivity|].
      repeat constructor; now apply requestOf_other.
  - destruct ((httpStatus =? 403) && _); step_run.
    + eexists _, [_]. split; [reflexivity|].
      split; [now left|]. split; [reflexivity|].
      repeat constructor; now apply requestOf_other.
    + eexists _, [_; _]. rewrite <- app_assoc. split; [reflexivity|].
      split; [now left|]. split; [reflexivity|].
      repeat constructor; now apply requestOf_other.
Qed.

(** One run of the loop body on a page answered with an HTTP error. *)
Lemma pagination_http_error_effect acc p s log httpStatus statusText remaining reset json :
  fetch_user_repos env p = HttpError httpStatus statusText remaining reset json ->
  exists s' extra,
    (forall fuel,
       pagination env token (S fuel) acc p s log
       = Some (Fulfilled (Some tt),
               mkWorld (mkFetchLocals acc p true) s' (log ++ pageRequest token p :: extra)))
    /\ (s' = s \/ s' = setUser None s)
    /\ existsb isToastError extra = true
    /\ Forall (requestOf token) extra.
Proof.
  intros Hpage.
  destruct (reportHttpError_effect httpStatus statusText remaining reset json
              (mkFetchLocals acc p true) s (log ++ [pageRequest token p]))
    as [s' [extra [Hreport Hrest]]].
  exists s', extra. split; [|exact Hrest]. intros fuel.
  unfold pagination. cbn [while].
  unfold fetchBody, fetchPage. step_run. cbn [hasMore page allRepos]. rewrite Hpage.
  unfold pageRequest in *. step_run. rewrite Hreport. now rewrite <- app_assoc.
Qed.

Lemma existsb_isToastError_cons (ev : Event) (l : list Event) :
  existsb isToastError l = true -> existsb isToastError (ev :: l) = true.
Proof. intros H. simpl. rewrite H. apply orb_true_r. Qed.

(** How a finished run of the loop has ended: every request has the shape
    of [pageRequest]; the loop has run to its end or thrown without
    writing a cell, or it has returned after an error toast with at most
    the [user] cell emptied and the list of repositories emptied. *)
Lemma pagination_outcome (fuel : nat) :
  forall acc p s log r w',
    pagination env token fuel acc p s log = Some (r, w') ->
    exists extra,
      events w' = (log ++ extra)%list
      /\ Forall (requestOf token) extra
      /\ match r with
         | Fulfilled None | Rejected _ => ui w' = s
         | Fulfilled (Some _) =>
             existsb isToastError extra = true
             /\ (ui w' = s \/ ui w' = setUser None s \/ ui w' = setRecentRepos [] s)
         end.
Proof.
  induction fuel as [|fuel IH]; intros acc p s log r w' Hrun.
  - discriminate.
  - destruct (fetch_user_repos env p) as [e|st txt rem reset json|e|repos] eqn:Hpage.
    + rewrite (pagination_fetch_rejects env token fuel acc p s log e Hpage) in Hrun.
      injection Hrun as <- <-. exists [pageRequest token p]. split; [reflexivity|].
      split; [|reflexivity]. repeat constructor. apply requestOf_pageRequest.
    + destruct (pagination_http_error_effect acc p s log _ _ _ _ _ Hpage)
        as [s' [extra [Hstep [Hs' [Htoast Hshape]]]]].
      rewrite Hstep in Hrun. injection Hrun as <- <-.
      exists (pageRequest token p :: extra). split; [reflexivity|].
      split; [constructor; [apply requestOf_pageRequest | exact Hshape]|].
      split; [now apply existsb_isToastError_cons|]. cbn [ui]. tauto.
    + rewrite (pagination_bad_json env token fuel acc p s log e Hpage) in Hrun.
      injection Hrun as <- <-. eexists. split; [reflexivity|].
      split; [|split; [reflexivity | cbn [ui]; tauto]].
      repeat constructor; try (now apply requestOf_other). apply requestOf_pageRequest.
    + destruct (Nat.lt_ge_cases (List.length repos) 100) as [Hshort|Hfull].
      * rewrite (pagination_short_page env token fuel acc p s log repos Hpage Hshort) in Hrun.
        injection Hrun as <- <-. exists [pageRequest token p]. split; [reflexivity|].
        split; [|reflexivity]. repeat constructor. apply requestOf_pageRequest.
      * rewrite (pagination_full_page env token fuel acc p s log repos Hpage Hfull) in Hrun.
        destruct (IH _ _ _ _ _ _ Hrun) as [extra [Hevents [Hshape Hend]]].
        exists (pageRequest token p :: extra). split.
        { rewrite Hevents, <- app_assoc. reflexivity. }
        split; [constructor; [apply requestOf_pageRequest | exact Hshape]|].
        destruct r as [[[]|]|e]; exact Hend.
Qed.

(** The loop over a run of full pages. *)
Lemma pagination_front (front : list (list GitHubRepo.t)) :
  forall acc p s log fuel,
    (forall i pg, nth_error front i = Some pg -> fetch_user_repos env (p + i) = Page pg) ->
    Forall (fun pg => 100 <= List.length pg)%nat front ->
    pagination env token (List.length front + fuel) acc p s log
    = pagination env token fuel (acc ++ List.concat front) (p + List.length front) s
                 (log ++ map (pageRequest token) (seq p (List.length front))).
Proof.
  induction front as [|pg front IH]; intros acc p s log fuel Hpages Hfull.
  - cbn. now rewrite !app_nil_r, Nat.add_0_r.
  - assert (Hpage : fetch_user_repos env p = Page pg).
    { rewrite <- (Nat.add_0_r p). now apply Hpages. }
    inversion Hfull as [|? ? Hpg Hfront]; subst.
    cbn [List.length Nat.add].
    rewrite (pagination_full_page env token _ acc p s log pg Hpage Hpg).
    rewrite (IH (acc ++ pg)%list (p + 1)%nat s (log ++ [pageRequest token p])%list fuel).
    + cbn [List.concat seq map].
      rewrite <- !app_assoc. cbn [app].
      replace (p + 1 + List.length front)%nat with (p + S (List.length front))%nat by lia.
      replace (p + 1)%nat with (S p) by lia. reflexivity.
    + intros i pg' Hi. replace (p + 1 + i)%nat with (p + S i)%nat by lia.
      now apply Hpages.
    + exact Hfront.
Qed.

End Lister.



(** X22. The connection loader asks GitHub only while the dialog is open
    and the stored connection has a user and a token that is not blank;
    every request it makes asks for 100 repositories per page with the
    trimmed token as bearer.  A finished run ends normally. *)
Theorem loader_requests_need_open_dialog_and_token
    (env : Env) (isOpen : bool) (fuel : nat) (l : FetchLocals) (cur : State)
    (log : list Event) (r : Settled unit) (w' : World FetchLocals) :
  run (loadConnectionEffect fuel env isOpen) l cur log = Some (r, w') ->
  r = Fulfilled tt
  /\ exists extra,
       events w' = (log ++ extra)%list
       /\ forall per q auth,
            In (EvFetchRepos per q auth) extra ->
            isOpen = true
            /\ per = 100%nat
            /\ exists tk u,
                 credentials (getLocalStorage env) = Some (tk, u)
                 /\ Js.trim tk <> ""
                 /\ auth = "Bearer " ++ Js.trim tk.
Proof.
  assert (Hnothing : forall w : World FetchLocals,
             Some (Fulfilled tt, mkWorld l cur log) = Some (r, w) ->
             r = Fulfilled tt
             /\ exists extra,
                  events w = (log ++ extra)%list
                  /\ forall per q auth,
                       In (EvFetchRepos per q auth) extra ->
                       isOpen = true /\ per = 100%nat
                       /\ exists tk u,
                            credentials (getLocalStorage env) = Some (tk, u)
                            /\ Js.trim tk <> "" /\ auth = "Bearer " ++ Js.trim tk).
  { intros w H. injection H as <- <-. split; [reflexivity|].
    exists []. split; [now rewrite app_nil_r | intros per q auth []]. }
  unfold loadConnectionEffect. destruct isOpen; [|apply Hnothing].
  destruct (credentials (getLocalStorage env)) as [[tk u]|] eqn:Hcred; [|apply Hnothing].
  step_run. destruct (Js.truthy (Js.trim tk)) eqn:Htrim.
  - intros Hrun.
    assert (Htoken : Js.truthy tk = true).
    { unfold credentials in Hcred.
      destruct (getLocalStorage env) as [c|]; [|discriminate].
      destruct (Connection.token c) as [t|], (Connection.user c) as [x|];
        try discriminate.
      destruct (Js.truthy t) eqn:Ht; [|discriminate]. now injection Hcred as <- _. }
    change (run (fetchRecentRepos fuel env tk) l (setUser (Some u) cur) log = Some (r, w'))
      in Hrun.
    rewrite (fetchRecentRepos_run env tk fuel l _ log Htoken) in Hrun.
    destruct (pagination env tk fuel [] 1%nat (setUser (Some u) cur) log)
      as [[r0 w0]|] eqn:Hloop; [|discriminate].
    destruct (pagination_outcome env tk fuel _ _ _ _ _ _ Hloop)
      as [extra [Hevents [Hshape _]]].
    assert (Hreq : forall per q auth,
               In (EvFetchRepos per q auth) extra ->
               true = true /\ per = 100%nat
               /\ exists tk0 u0,
                    Some (tk, u) = Some (tk0, u0)
                    /\ Js.trim tk0 <> "" /\ auth = "Bearer " ++ Js.trim tk0).
    { intros per q auth Hin. rewrite Forall_forall in Hshape.
      destruct (Hshape _ Hin eq_refl) as [q' Hq']. injection Hq' as -> _ ->.
      split; [reflexivity|]. split; [reflexivity|].
      exists tk, u. split; [reflexivity|]. split; [now apply truthy_true | reflexivity]. }
    destruct r0 as [[[]|]|e]; cbn [afterPagination] in Hrun;
      injection Hrun as <- <-; (split; [reflexivity|]); cbn [events].
    + exists extra. split; [exact Hevents | exact Hreq].
    + exists extra. split; [exact Hevents | exact Hreq].
    + eexists. rewrite Hevents, <- app_assoc. split; [reflexivity|].
      intros per q auth Hin. apply in_app_or in Hin.
      destruct Hin as [Hin | [H|[H|[]]]]; try discriminate. exact (Hreq per q auth Hin).
  - intros Hrun. injection Hrun as <- <-. split; [reflexivity|].
    exists []. split; [cbn; now rewrite app_nil_r | intros per q auth []].
Qed.

Lemma loader_requests_witness :
  exists r w',
    run (loadConnectionEffect 1 push_env true) fetchLocals0 initialState [] = Some (r, w')
    /\ r = Fulfilled tt
    /\ exists extra,
         events w' = ([] ++ extra)%list
         /\ forall per q auth,
              In (EvFetchRepos per q auth) extra ->
              true = true
              /\ per = 100%nat
              /\ exists tk u,
                   credentials (getLocalStorage push_env) = Some (tk, u)
                   /\ Js.trim tk <> ""
                   /\ auth = "Bearer " ++ Js.trim tk.
Proof.
  eexists _, _. split; [reflexivity|].
  apply (loader_requests_need_open_dialog_and_token
           push_env true 1 fetchLocals0 initialState []).
  reflexivity.
Defined.

Example loader_lists_owned_repositories :
  option_map (fun r => (user (ui (snd r)), recentRepos (ui (snd r)), events (snd r)))
    (run (loadConnectionEffect 1 push_env true) fetchLocals0 initialState [])
  = Some (Some octocat, owned, [EvFetchRepos 100 1 "Bearer ghp_0123456789"]).
Proof. reflexivity. Qed.

(** X23. A failure after full pages discards what was fetched: when the
    pages of [front] arrive full and the next page does not arrive, the
    run ends normally and [recentRepos] is left as it was, or, when it was
    the body of that page that did not parse, emptied; in neither case
    are the fetched pages kept. *)
Theorem failed_page_discards_fetched_pages
    (env : Env) (token : string) (l : FetchLocals) (cur : State) (log : list Event)
    (front : list (list GitHubRepo.t)) (fuel : nat) :
  Js.truthy token = true ->
  (forall i pg, nth_error front i = Some pg -> fetch_user_repos env (S i) = Page pg) ->
  Forall (fun pg => 100 <= List.length pg)%nat front ->
  failedPage (fetch_user_repos env (S (List.length front))) ->
  (List.length front < fuel)%nat ->
  exists w',
    run (fetchRecentRepos fuel env token) l cur log = Some (Fulfilled tt, w')
    /\ recentRepos (ui w')
       = match fetch_user_repos env (S (List.length front)) with
         | BadJson _ => []
         | _ => recentRepos cur
         end.
Proof.
  intros Htoken Hpages Hfull Hfailed Hfuel.
  rewrite (fetchRecentRepos_run env token fuel l cur log Htoken).
  replace fuel with (List.length front + S (fuel - S (List.length front)))%nat by lia.
  rewrite (pagination_front env token front [] 1%nat cur log _ Hpages Hfull).
  set (p := (1 + List.length front)%nat).
  change (S (List.length front)) with p in *.
  destruct (fetch_user_repos env p) as [e|st txt rem reset json|e|last] eqn:Hpage;
    [| | |contradiction].
  - rewrite (pagination_fetch_rejects env token _ _ p cur _ e Hpage).
    eexists. split; reflexivity.
  - destruct (pagination_http_error_effect env token ([] ++ List.concat front) p cur
                (log ++ map (pageRequest token) (seq 1 (List.length front)))
                _ _ _ _ _ Hpage) as [s' [extra [Hstep [Hs' _]]]].
    rewrite Hstep. eexists. split; [reflexivity|]. cbn [ui afterPagination].
    destruct Hs' as [-> | ->]; [reflexivity|]. cells cur. reflexivity.
  - rewrite (pagination_bad_json env token _ _ p cur _ e Hpage).
    eexists. split; [reflexivity|]. cells cur. reflexivity.
Qed.

Lemma failed_page_witness :
  exists w',
    run (fetchRecentRepos 2 second_page_fails_env "ghp_0123456789")
        fetchLocals0 before_push []
    = Some (Fulfilled tt, w')
    /\ recentRepos (ui w')
       = match fetch_user_repos second_page_fails_env (S (List.length [first_page])) with
         | BadJson _ => []
         | _ => recentRepos before_push
         end.
Proof.
  apply (failed_page_discards_fetched_pages
           second_page_fails_env "ghp_0123456789" fetchLocals0 before_push []
           [first_page] 2).
  - reflexivity.
  - intros [|i] pg H; simpl in H; [|destruct i; discriminate].
    injection H as <-. reflexivity.
  - constructor; [|constructor]. unfold first_page. rewrite repeat_length. lia.
  - exact I.
  - simpl. lia.
Defined.

(** X24. An expired token ends the session: when the first page is
    answered 401 and a connection is stored, the run removes
    ['github_connection'] from the local storage, raises the toast that
    asks to reconnect and empties the [user] cell, so that, unless the
    success dialog is shown, the dialog renders "GitHub Connection
    Required" from then on. *)
Theorem expired_token_asks_to_reconnect
    (env : Env) (token : string) (l : FetchLocals) (cur : State) (log : list Event)
    (fuel : nat) (connection : Connection.t)
    (statusText : string) (remaining reset : option string)
    (json : Settled (option string)) :
  Js.truthy token = true ->
  getLocalStorage env = Some connection ->
  fetch_user_repos env 1 = HttpError 401 statusText remaining reset json ->
  showSuccessDialog cur = false ->
  (0 < fuel)%nat ->
  exists l',
    run (fetchRecentRepos fuel env token) l cur log
    = Some (Fulfilled tt,
            mkWorld l' (setUser None cur)
              (log ++ [pageRequest token 1;
                       EvToastError "GitHub token expired. Please reconnect your account.";
                       EvRemoveItem "github_connection"]))
    /\ render (setUser None cur) = ConnectionRequired.
Proof.
  intros Htoken Hconn Hpage Hsuccess Hfuel.
  destruct fuel as [|fuel]; [lia|].
  rewrite (fetchRecentRepos_run env token (S fuel) l cur log Htoken).
  unfold pagination. cbn [while].
  unfold fetchBody, fetchPage. step_run. cbn [hasMore page allRepos].
  rewrite Hpage. unfold reportHttpError. cbn [Z.eqb Pos.eqb]. rewrite Hconn.
  step_run. cbn [afterPagination]. eexists. split.
  - rewrite <- !app_assoc. reflexivity.
  - cells cur. cbn in Hsuccess. subst. reflexivity.
Qed.

Lemma expired_token_witness :
  exists l',
    run (fetchRecentRepos 1 expired_token_env "ghp_0123456789")
        fetchLocals0 before_push []
    = Some (Fulfilled tt,
            mkWorld l' (setUser None before_push)
              ([] ++ [pageRequest "ghp_0123456789" 1;
                      EvToastError "GitHub token expired. Please reconnect your account.";
                      EvRemoveItem "github_connection"]))
    /\ render (setUser None before_push) = ConnectionRequired.
Proof.
  apply (expired_token_asks_to_reconnect
           expired_token_env "ghp_0123456789" fetchLocals0 before_push [] 1
           (Connection.mk (Some octocat) (Some "ghp_0123456789"))
           "Unauthorized" None None (Fulfilled (Some "Bad credentials")));
    try reflexivity. lia.
Defined.
